(** * OMDb integration: normalisation, method probing and the cache guard

    A shallow embedding of [movies/omdb_integration.py] and of the
    client of [omdb/client.py].  Python values are a first-order
    datatype; an object that is none of the builtin values is a
    reference into an object table that says what reading an attribute,
    calling, stringifying and testing it does.  The functions that touch
    the database, the log or the upstream client run in a
    state-and-exception monad over an explicit world; the others return
    a value or the exception that leaves them.

    What the model leaves out:
    - text is the sequence of its code points below 256, one [ascii]
      per code point.  On that range the character classes of CPython
      are: [str.isspace] and the regex class [\s] hold for 9-13, 28-32,
      133 and 160; the whitespace [int()] skips around a number is 9-13,
      32, 133 and 160, not 28-31; the regex class [\d] and the digits
      [int()] accepts are 48-57; [str.isdigit] holds for these and for
      the superscripts 178, 179 and 185; [str.lower] moves 65-90 and
      192-222 (but 215) up by 32;
    - the limits of the interpreter are those it starts with: 4300
      digits for a conversion between [int] and [str], and 1000 for the
      depth of recursion, of which the frames of the callers of [str()]
      and [repr()] take nothing;
    - the keys of a [dict] are text;
    - the truth value, [str()] and [repr()] of an object and the outcome
      of a call depend on the object and the arguments only, and the
      truth test of an object returns;
    - the database never fails, and the clock stands still during one
      call of an orchestration function;
    - exceptions are those that derive from [Exception]. *)

From stdpp Require Import base strings list gmap.
From Stdlib Require Import ZArith Lia Ascii String DecimalString.

Local Open Scope string_scope.
Local Open Scope Z_scope.

(** ** Python text primitives *)

Module Text.

Definition code (c : ascii) : N := N_of_ascii c.

Definition isspace_char (c : ascii) : bool :=
  let n := code c in
  (((9 <=? n) && (n <=? 13)) || ((28 <=? n) && (n <=? 32))
   || (n =? 133) || (n =? 160))%N.

(** [\d] of [re] on a [str] pattern, and the digits [int()] accepts. *)
Definition isdecimal_char (c : ascii) : bool :=
  let n := code c in ((48 <=? n) && (n <=? 57))%N.

(** One character of [str.isdigit]. *)
Definition isdigit_char (c : ascii) : bool :=
  let n := code c in
  (isdecimal_char c || (n =? 178) || (n =? 179) || (n =? 185))%N.

Definition digit_value (c : ascii) : Z := Z.of_N (code c) - 48.

Definition lower_char (c : ascii) : ascii :=
  let n := code c in
  if (((65 <=? n) && (n <=? 90))
      || ((192 <=? n) && (n <=? 222) && negb (n =? 215)))%N
  then ascii_of_N (n + 32) else c.

(** [s.lower()] *)
Fixpoint lower (s : string) : string :=
  match s with
  | EmptyString => EmptyString
  | String c r => String (lower_char c) (lower r)
  end.

Fixpoint forallb_str (p : ascii -> bool) (s : string) : bool :=
  match s with
  | EmptyString => true
  | String c r => p c && forallb_str p r
  end.

Definition is_empty (s : string) : bool :=
  match s with EmptyString => true | _ => false end.

(** [s.isdigit()]: at least one character, all of them digits. *)
Definition isdigit (s : string) : bool :=
  negb (is_empty s) && forallb_str isdigit_char s.

Fixpoint lstrip (s : string) : string :=
  match s with
  | EmptyString => EmptyString
  | String c r => if isspace_char c then lstrip r else s
  end.

Fixpoint rstrip (s : string) : string :=
  match s with
  | EmptyString => EmptyString
  | String c r =>
      let r' := rstrip r in
      if isspace_char c && is_empty r' then EmptyString else String c r'
  end.

(** [s.strip()] *)
Definition strip (s : string) : string := rstrip (lstrip s).

(** [s.split(sep)] for a one-character separator: never an empty list. *)
Fixpoint split_on (sep : ascii) (s : string) : list string :=
  match s with
  | EmptyString => [EmptyString]
  | String c r =>
      if Ascii.eqb c sep then EmptyString :: split_on sep r
      else match split_on sep r with
           | h :: t => String c h :: t
           | [] => [String c EmptyString]
           end
  end.

(** [re.sub(r"\s+", " ", s)]: every maximal whitespace run becomes one
    space.  [in_run] tells that the previous character was whitespace. *)
Fixpoint collapse_ws (in_run : bool) (s : string) : string :=
  match s with
  | EmptyString => EmptyString
  | String c r =>
      if isspace_char c
      then (if in_run then collapse_ws true r
            else String " " (collapse_ws true r))
      else String c (collapse_ws false r)
  end.

Definition re_sub_ws (s : string) : string := collapse_ws false s.

(** [re.match(r"^\d{4}", s)]: the matched text, [m.group(0)]. *)
Definition re_match_4digits (s : string) : option string :=
  match s with
  | String a (String b (String c (String d _))) =>
      if isdecimal_char a && isdecimal_char b
         && isdecimal_char c && isdecimal_char d
      then Some (String a (String b (String c (String d EmptyString))))
      else None
  | _ => None
  end.

Fixpoint take_digits (s : string) : string :=
  match s with
  | EmptyString => EmptyString
  | String c r =>
      if isdecimal_char c then String c (take_digits r) else EmptyString
  end.

(** [re.search(r"(\d+)", s)]: the leftmost maximal digit run,
    [m.group(1)]. *)
Fixpoint re_search_digits (s : string) : option string :=
  match s with
  | EmptyString => None
  | String c r =>
      if isdecimal_char c then Some (take_digits s) else re_search_digits r
  end.

(** The digits of an [int()] literal: decimal digits, single underscores
    allowed between two digits. *)
Fixpoint int_digits (acc : Z) (after_digit : bool) (s : string) : option Z :=
  match s with
  | EmptyString => if after_digit then Some acc else None
  | String c r =>
      if isdecimal_char c then int_digits (10 * acc + digit_value c) true r
      else if Ascii.eqb c "_" && after_digit then int_digits acc false r
      else None
  end.

(** The whitespace [int()] skips around a number: that of
    [str.isspace] but for the separators 28-31. *)
Definition isspace_int_char (c : ascii) : bool :=
  let n := code c in
  (((9 <=? n) && (n <=? 13)) || (n =? 32) || (n =? 133) || (n =? 160))%N.

Fixpoint lstrip_int (s : string) : string :=
  match s with
  | EmptyString => EmptyString
  | String c r => if isspace_int_char c then lstrip_int r else s
  end.

Fixpoint rstrip_int (s : string) : string :=
  match s with
  | EmptyString => EmptyString
  | String c r =>
      let r' := rstrip_int r in
      if isspace_int_char c && is_empty r' then EmptyString else String c r'
  end.

Definition strip_int (s : string) : string := rstrip_int (lstrip_int s).

(** [sys.get_int_max_str_digits()] as the interpreter starts: the most
    digits a conversion between [int] and [str] takes. *)
Definition int_max_str_digits : Z := 4300.

(** The digits the limit counts: signs, underscores and whitespace are
    left out, leading zeros are not. *)
Fixpoint count_decimal (s : string) : Z :=
  match s with
  | EmptyString => 0
  | String c r => (if isdecimal_char c then 1 else 0) + count_decimal r
  end.

(** [int(s)] for a [str]: surrounding whitespace and a sign are
    allowed; [None] stands for [ValueError], which a number of more than
    [int_max_str_digits] digits raises as well. *)
Definition int_of_str (s : string) : option Z :=
  let t := strip_int s in
  if int_max_str_digits <? count_decimal t then None
  else
    match t with
    | EmptyString => None
    | String c r =>
        if Ascii.eqb c "+" then int_digits 0 false r
        else if Ascii.eqb c "-" then Z.opp <$> int_digits 0 false r
        else int_digits 0 false (String c r)
    end.

(** [str(n)] for an [int] that [str()] converts. *)
Definition str_of_int (z : Z) : string :=
  NilZero.string_of_int (Z.to_int z).

(** [str()] and [repr()] convert an [int] of no more than
    [int_max_str_digits] digits, the sign not counted. *)
Definition int_fits (z : Z) : bool :=
  Z.of_nat (String.length (str_of_int (Z.abs z))) <=? int_max_str_digits.

Definition hex_digit (n : N) : ascii :=
  ascii_of_N (if (n <? 10)%N then 48 + n else 87 + n)%N.

Definition dquote : ascii := ascii_of_N 34.
Definition squote : ascii := ascii_of_N 39.
Definition backslash : ascii := ascii_of_N 92.

Fixpoint contains (x : ascii) (s : string) : bool :=
  match s with
  | EmptyString => false
  | String c r => Ascii.eqb c x || contains x r
  end.

Definition repr_char (quote c : ascii) : string :=
  let n := code c in
  if Ascii.eqb c quote || Ascii.eqb c backslash
  then String backslash (String c EmptyString)
  else if (n =? 9)%N then String backslash "t"
  else if (n =? 10)%N then String backslash "n"
  else if (n =? 13)%N then String backslash "r"
  else if ((n <? 32) || (n =? 127) || ((128 <=? n) && (n <=? 160))
           || (n =? 173))%N
  then String backslash
         (String "x" (String (hex_digit (n / 16)) (String (hex_digit (n mod 16)) EmptyString)))
  else String c EmptyString.

Fixpoint concat_map (f : ascii -> string) (s : string) : string :=
  match s with
  | EmptyString => EmptyString
  | String c r => f c +:+ concat_map f r
  end.

(** [repr(s)] for a [str]: single quotes unless the text has a single
    quote and no double quote. *)
Definition repr_str (s : string) : string :=
  let quote := if contains squote s && negb (contains dquote s)
               then dquote else squote in
  String quote (concat_map (repr_char quote) s) +:+ String quote EmptyString.

Fixpoint join (sep : string) (l : list string) : string :=
  match l with
  | [] => EmptyString
  | [x] => x
  | x :: r => x +:+ sep +:+ join sep r
  end.

End Text.

(** ** Python values, objects and exceptions *)

(** The exceptions the code distinguishes.  All of them derive from
    [Exception]; [except TypeError] catches the first only, and
    [getattr] with a default swallows [AttributeError] only. *)
Inductive exn : Type :=
| TypeError | ValueError | AttributeError | KeyError | HTTPError
| ConnectionError | RuntimeError.

Inductive result (A : Type) : Type :=
| Ok (a : A)
| Raise (e : exn).
Arguments Ok {A} a.
Arguments Raise {A} e.

Definition rbind {A B} (r : result A) (k : A -> result B) : result B :=
  match r with
  | Ok a => k a
  | Raise e => Raise e
  end.

Notation "'let?' x ':=' r 'in' k" := (rbind r (fun x => k))
  (at level 10, x name, r at level 100, k at level 200).

Definition is_type_error (e : exn) : bool :=
  match e with TypeError => true | _ => false end.

Definition is_attribute_error (e : exn) : bool :=
  match e with AttributeError => true | _ => false end.

Definition objref := nat.

(** Values.  A [dict] keeps its items in insertion order and is keyed
    by text; lookups take the first binding of a key. *)
#[warnings="-register-all"]
Inductive pyval : Type :=
| VNone
| VBool (b : bool)
| VInt (z : Z)
| VStr (s : string)
| VList (l : list pyval)
| VTuple (l : list pyval)
| VDict (d : list (string * pyval))
| VObj (r : objref).

Abbreviation pydict := (list (string * pyval)).

(** The arguments of one call: positional ones, then keyword ones. *)
Record call : Type := Call { c_args : list pyval; c_kwargs : pydict }.

Definition positional (v : pyval) : call := Call [v] [].
Definition keyword (k : string) (v : pyval) : call := Call [] [(k, v)].
Definition no_args : call := Call [] [].

(** What the code can observe of an object that is none of the builtin
    values above: the outcome of reading an attribute (a missing one
    raises [AttributeError], a property may raise anything), of calling
    it ([None] when it is not callable), of [str()] and [repr()], and its
    truth value. *)
Record pyobj : Type := PyObj {
  o_getattr : string -> result pyval;
  o_call : option (call -> result pyval);
  o_str : result string;
  o_repr : result string;
  o_bool : bool
}.

Abbreviation objects := (objref -> pyobj).

Fixpoint dict_get (d : pydict) (k : string) : pyval :=
  match d with
  | [] => VNone
  | (k', v) :: r => if String.eqb k' k then v else dict_get r k
  end.

Fixpoint dict_has (d : pydict) (k : string) : bool :=
  match d with
  | [] => false
  | (k', _) :: r => String.eqb k' k || dict_has r k
  end.

(** [bool(v)] *)
Definition truthy (O : objects) (v : pyval) : bool :=
  match v with
  | VNone => false
  | VBool b => b
  | VInt z => negb (z =? 0)
  | VStr s => negb (Text.is_empty s)
  | VList l | VTuple l => match l with [] => false | _ => true end
  | VDict d => match d with [] => false | _ => true end
  | VObj r => o_bool (O r)
  end.

(** [a or b], with [b] already evaluated. *)
Definition py_or (O : objects) (a b : pyval) : pyval :=
  if truthy O a then a else b.

Definition is_none (v : pyval) : bool :=
  match v with VNone => true | _ => false end.

(** [isinstance(v, int)]: a [bool] is an [int]. *)
Definition isinstance_int (v : pyval) : bool :=
  match v with VInt _ | VBool _ => true | _ => false end.

Definition isinstance_str (v : pyval) : bool :=
  match v with VStr _ => true | _ => false end.

Definition isinstance_dict (v : pyval) : bool :=
  match v with VDict _ => true | _ => false end.

(** [v == s] for a text literal [s]. *)
Definition eq_str (v : pyval) (s : string) : bool :=
  match v with VStr t => String.eqb t s | _ => false end.

Fixpoint rmap {A B} (f : A -> result B) (l : list A) : result (list B) :=
  match l with
  | [] => Ok []
  | x :: r => let? y := f x in let? ys := rmap f r in Ok (y :: ys)
  end.

(** [sys.getrecursionlimit()] as the interpreter starts. *)
Definition recursion_limit : nat := 1000.

(** [repr(v)] with [depth] nested calls of [repr] left; one more raises
    [RecursionError], which is a [RuntimeError].  An [int] of more than
    [Text.int_max_str_digits] digits raises [ValueError]. *)
Fixpoint py_repr_within (O : objects) (depth : nat) (v : pyval) {struct v} :
    result string :=
  match depth with
  | 0%nat => Raise RuntimeError
  | S depth' =>
      match v with
      | VNone => Ok "None"
      | VBool b => Ok (if b then "True" else "False")
      | VInt z => if Text.int_fits z then Ok (Text.str_of_int z)
                  else Raise ValueError
      | VStr s => Ok (Text.repr_str s)
      | VList l =>
          let? rs := rmap (py_repr_within O depth') l in
          Ok ("[" +:+ Text.join ", " rs +:+ "]")
      | VTuple l =>
          let? rs := rmap (py_repr_within O depth') l in
          Ok ("(" +:+ Text.join ", " rs
                  +:+ (match l with [_] => "," | _ => "" end) +:+ ")")
      | VDict d =>
          let? rs := rmap (fun kv => let? rv := py_repr_within O depth' kv.2 in
                                     Ok (Text.repr_str kv.1 +:+ ": " +:+ rv)) d in
          Ok ("{" +:+ Text.join ", " rs +:+ "}")
      | VObj r => o_repr (O r)
      end
  end.

(** [repr(v)] *)
Definition py_repr (O : objects) (v : pyval) : result string :=
  py_repr_within O recursion_limit v.

(** [str(v)] *)
Definition py_str (O : objects) (v : pyval) : result string :=
  match v with
  | VStr s => Ok s
  | VObj r => o_str (O r)
  | _ => py_repr O v
  end.

(** [int(s)] for text. *)
Definition py_int_of_str (s : string) : result pyval :=
  match Text.int_of_str s with
  | Some z => Ok (VInt z)
  | None => Raise ValueError
  end.

(** Reading an attribute.  The payloads and items that reach an
    attribute read are no [str] and no [dict], and the other builtin
    values have no attribute of a name the code reads; the client is
    taken to be an object. *)
Definition py_getattr (O : objects) (v : pyval) (name : string) : result pyval :=
  match v with
  | VObj r => o_getattr (O r) name
  | _ => Raise AttributeError
  end.

(** [getattr(v, name, default)] *)
Definition getattr_default (O : objects) (v : pyval) (name : string)
    (default : pyval) : result pyval :=
  match py_getattr O v name with
  | Ok a => Ok a
  | Raise e => if is_attribute_error e then Ok default else Raise e
  end.

Definition callable (O : objects) (v : pyval) : bool :=
  match v with
  | VObj r => match o_call (O r) with Some _ => true | None => false end
  | _ => false
  end.

(** [f(...)]: calling what is not callable is a [TypeError]. *)
Definition py_call (O : objects) (f : pyval) (c : call) : result pyval :=
  match f with
  | VObj r => match o_call (O r) with
              | Some run => run c
              | None => Raise TypeError
              end
  | _ => Raise TypeError
  end.

(** [v.get(key)]: the [dict] method; on an object, its [get] attribute
    called with the key. *)
Definition py_get (O : objects) (v : pyval) (key : string) : result pyval :=
  match v with
  | VDict d => Ok (dict_get d key)
  | _ => let? g := py_getattr O v "get" in py_call O g (positional (VStr key))
  end.

(** [len(v)] *)
Definition py_len (v : pyval) : result Z :=
  match v with
  | VStr s => Ok (Z.of_nat (String.length s))
  | VList l | VTuple l => Ok (Z.of_nat (List.length l))
  | VDict d => Ok (Z.of_nat (List.length d))
  | _ => Raise TypeError
  end.

Fixpoint chars (s : string) : list pyval :=
  match s with
  | EmptyString => []
  | String c r => VStr (String c EmptyString) :: chars r
  end.

(** The items a [for] loop over [v] visits. *)
Definition py_iter (v : pyval) : result (list pyval) :=
  match v with
  | VList l | VTuple l => Ok l
  | VStr s => Ok (chars s)
  | VDict d => Ok (map (fun kv => VStr kv.1) d)
  | _ => Raise TypeError
  end.

(** ** The Detail Normalizer ([movies/omdb_integration.py]) *)

(** [a or b] where evaluating either side may raise; [b] is evaluated
    only when [a] is falsy. *)
Definition ror (O : objects) (a b : result pyval) : result pyval :=
  let? x := a in if truthy O x then Ok x else b.

(** [_callable_attr(obj, name)] *)
Definition _callable_attr (O : objects) (obj : pyval) (name : string) : result pyval :=
  let? v := getattr_default O obj name VNone in
  if callable O v then py_call O v no_args else Ok v.

(** A [try: ... except Exception: x = None] block that computes [x]. *)
Definition none_on_exception (body : result pyval) : pyval :=
  match body with
  | Ok v => v
  | Raise _ => VNone
  end.

(** [int(m.group(0)) if m else None] *)
Definition int_of_match (m : option string) : result pyval :=
  match m with
  | Some g => py_int_of_str g
  | None => Ok VNone
  end.

(** [year.isdigit()], reached only when [year] is a [str]. *)
Definition str_isdigit (v : pyval) : bool :=
  match v with VStr s => Text.isdigit s | _ => false end.

(** [int(v)] *)
Definition py_int (v : pyval) : result pyval :=
  match v with
  | VStr s => py_int_of_str s
  | VInt z => Ok (VInt z)
  | VBool b => Ok (VInt (if b then 1 else 0))
  | _ => Raise TypeError
  end.

(** Lines 108-118 of [_normalize_detail_obj]: [year] to [year_val]. *)
Definition detail_year_val (O : objects) (year : pyval) : pyval :=
  none_on_exception
    (if isinstance_int year then Ok year
     else if isinstance_str year && str_isdigit year then py_int year
     else
       let? m := (if negb (is_none year)
                  then let? t := py_str O year in Ok (Text.re_match_4digits t)
                  else Ok None) in
       int_of_match m).

(** Lines 120-129: [runtime_str] to [runtime_minutes]; the variable
    keeps its initial [None] when the block raises. *)
Definition detail_runtime_minutes (runtime_str : pyval) : pyval :=
  none_on_exception
    (if isinstance_int runtime_str then Ok runtime_str
     else match runtime_str with
          | VStr s => int_of_match (Text.re_search_digits s)
          | _ => Ok VNone
          end).

(** [[g.strip() for g in parts if g.strip()]] *)
Fixpoint stripped_parts (parts : list string) : list string :=
  match parts with
  | [] => []
  | g :: r =>
      if negb (Text.is_empty (Text.strip g))
      then Text.strip g :: stripped_parts r
      else stripped_parts r
  end.

(** [[str(g).strip() for g in genres if str(g).strip()]]: the condition
    is evaluated first, the element after it. *)
Fixpoint stripped_items (O : objects) (genres : list pyval) : result (list string) :=
  match genres with
  | [] => Ok []
  | g :: r =>
      let? c := py_str O g in
      if negb (Text.is_empty (Text.strip c))
      then let? e := py_str O g in
           let? rest := stripped_items O r in
           Ok (Text.strip e :: rest)
      else stripped_items O r
  end.

(** Lines 131-137: [genres] to [genre_list]. *)
Definition detail_genre_list (O : objects) (genres : pyval) : result (list string) :=
  match genres with
  | VStr s => Ok (stripped_parts (Text.split_on "," s))
  | VList l | VTuple l => stripped_items O l
  | _ => Ok []
  end.

(** The six values read off the payload, lines 82-106. *)
Record raw_fields : Type := RawFields {
  f_title : pyval;
  f_year : pyval;
  f_imdb_id : pyval;
  f_plot : pyval;
  f_runtime_str : pyval;
  f_genres : pyval
}.

Definition detail_raw_fields (O : objects) (detail : pyval) : result raw_fields :=
  match detail with
  | VDict d =>
      Ok (RawFields
            (dict_get d "Title")
            (dict_get d "Year")
            (py_or O (dict_get d "imdbID")
                     (py_or O (dict_get d "imdbId") (dict_get d "imdb_id")))
            (dict_get d "Plot")
            (py_or O (dict_get d "Runtime") (dict_get d "runtime"))
            (py_or O (dict_get d "Genre") (dict_get d "genres")))
  | VStr _ => Ok (RawFields detail VNone VNone VNone VNone VNone)
  | _ =>
      let? title := _callable_attr O detail "title" in
      let? year := _callable_attr O detail "year" in
      let? imdb_id := ror O (_callable_attr O detail "imdb_id")
                            (_callable_attr O detail "imdbID") in
      let? plot := _callable_attr O detail "plot" in
      let? runtime_str := ror O (_callable_attr O detail "runtime")
                                (_callable_attr O detail "runtime_minutes") in
      let? genres := _callable_attr O detail "genres" in
      Ok (RawFields title year imdb_id plot runtime_str genres)
  end.

(** [_normalize_detail_obj(detail)]: the returned [dict], or the
    exception that leaves the function. *)
Definition _normalize_detail_obj (O : objects) (detail : pyval) : result pydict :=
  if is_none detail then Ok []
  else
    let? f := detail_raw_fields O detail in
    let year_val := detail_year_val O (f_year f) in
    let runtime_minutes := detail_runtime_minutes (f_runtime_str f) in
    let? genre_list := detail_genre_list O (f_genres f) in
    Ok [("Title", f_title f);
        ("Year", year_val);
        ("imdbID", f_imdb_id f);
        ("Plot", f_plot f);
        ("RuntimeMinutes", runtime_minutes);
        ("Genres", VList (VStr <$> genre_list))].

(** Lines 305-316 of [search_and_save]: the second copy of the year
    rule, applied to a search item's [year] before the upsert;
    [year_val] starts as [None] and keeps it when no branch assigns. *)
Definition search_year_val (O : objects) (year : pyval) : pyval :=
  none_on_exception
    (if isinstance_int year then Ok year
     else if isinstance_str year && str_isdigit year then py_int year
     else if negb (is_none year)
     then let? t := py_str O year in
          int_of_match (Text.re_match_4digits t)
     else Ok VNone).

(** ** The world: database, clock, log and upstream traffic *)

Inductive level : Type := DEBUG | INFO | WARNING | ERROR.

(** One [logger] call: the level, the format text and its arguments
    (formatting is left to the logging framework). *)
Record log_line : Type := Log {
  l_level : level;
  l_format : string;
  l_args : list pyval
}.

(** What reaches the upstream API: a call of a method of the client
    object, or the [requests.get] of the HTTP fallback. *)
Inductive event : Type :=
| ClientCall (name : string) (c : call)
| HttpGet (url : string) (params : pydict).

(** Modelled from the spec: the [Movie] model of [movies/models.py],
    [{imdb_id: unique key, title, year, plot, runtime_minutes,
    is_full_record}]; its genre set is the association table of the
    world. *)
Record movie_rec : Type := Movie {
  m_imdb_id : pyval;
  m_title : pyval;
  m_year : pyval;
  m_plot : pyval;
  m_runtime_minutes : pyval;
  m_is_full_record : bool
}.

(** Modelled from the spec: the persistence collaborator, a key-unique
    store of [SearchTerm] (by [term], with [last_search] a timestamp or
    null), [Movie] (by [imdb_id]) and [Genre] (by [name]) records and
    the many-to-many association between movies and genres.  Timestamps
    count microseconds; [w_now] is what [now()] returns. *)
Record world : Type := World {
  w_now : Z;
  w_search_terms : gmap string (option Z);
  w_movies : list movie_rec;
  w_genres : list string;
  w_movie_genres : list (pyval * string);
  w_events : list event;
  w_log : list log_line
}.

(** [timedelta(days=1)] *)
Definition one_day : Z := 86400 * 1000000.

(** What [requests.get] returns: the status and the outcome of
    [response.json()]. *)
Record response : Type := Response {
  status_code : Z;
  json : result pyval
}.

(** The surroundings of a call: the object table, the Django settings
    (an absent setting is [None]), [requests.get] and the client that
    [get_client_from_settings()] of [omdb/django_client.py] hands out. *)
Record env : Type := Env {
  e_objects : objects;
  e_settings : string -> option pyval;
  e_requests_get : string -> pydict -> result response;
  e_client : pyval
}.

(** State and exceptions: a computation ends with a value or a raised
    exception, and with the world as it left it either way. *)
Definition M (A : Type) : Type := world -> result A * world.

Definition pure {A} (a : A) : M A := fun w => (Ok a, w).

Definition raise {A} (e : exn) : M A := fun w => (Raise e, w).

Definition bindM {A B} (m : M A) (k : A -> M B) : M B :=
  fun w => match m w with
           | (Ok a, w') => k a w'
           | (Raise e, w') => (Raise e, w')
           end.

(** The body of a [try]: its outcome as a value. *)
Definition attempt {A} (m : M A) : M (result A) :=
  fun w => match m w with (r, w') => (Ok r, w') end.

Definition lift {A} (r : result A) : M A := fun w => (r, w).

Notation "'let*' x ':=' m 'in' k" := (bindM m (fun x => k))
  (at level 10, x name, m at level 100, k at level 200).
Notation "'let*' ' x ':=' m 'in' k" := (bindM m (fun x => k))
  (at level 10, x strict pattern, m at level 100, k at level 200).
Notation "m ';;' k" := (bindM m (fun _ => k))
  (at level 100, k at level 200, right associativity).

Definition set_search_terms (t : gmap string (option Z)) (w : world) : world :=
  World (w_now w) t (w_movies w) (w_genres w) (w_movie_genres w)
        (w_events w) (w_log w).

Definition set_movies (ms : list movie_rec) (w : world) : world :=
  World (w_now w) (w_search_terms w) ms (w_genres w) (w_movie_genres w)
        (w_events w) (w_log w).

Definition set_genres (gs : list string) (w : world) : world :=
  World (w_now w) (w_search_terms w) (w_movies w) gs (w_movie_genres w)
        (w_events w) (w_log w).

Definition set_movie_genres (a : list (pyval * string)) (w : world) : world :=
  World (w_now w) (w_search_terms w) (w_movies w) (w_genres w) a
        (w_events w) (w_log w).

Definition add_event (ev : event) (w : world) : world :=
  World (w_now w) (w_search_terms w) (w_movies w) (w_genres w)
        (w_movie_genres w) (w_events w ++ [ev]) (w_log w).

Definition add_log (l : log_line) (w : world) : world :=
  World (w_now w) (w_search_terms w) (w_movies w) (w_genres w)
        (w_movie_genres w) (w_events w) (w_log w ++ [l]).

(** [logger.<level>(format, *args)] *)
Definition log (lv : level) (fmt : string) (args : list pyval) : M unit :=
  fun w => (Ok tt, add_log (Log lv fmt args) w).

(** [now()] *)
Definition now : M Z := fun w => (Ok (w_now w), w).

(** [getter(...)] for a [getter] read off the client under [name]: the
    call is upstream traffic when the value is callable at all. *)
Definition client_call (E : env) (name : string) (getter : pyval) (c : call) : M pyval :=
  fun w =>
    if callable (e_objects E) getter
    then (py_call (e_objects E) getter c, add_event (ClientCall name c) w)
    else (Raise TypeError, w).

(** [requests.get(url, params=params, ...)] *)
Definition requests_get (E : env) (url : string) (params : pydict) : M response :=
  fun w => (e_requests_get E url params, add_event (HttpGet url params) w).

(** [getattr(settings, name, default)] *)
Definition setting (E : env) (name : string) (default : pyval) : pyval :=
  match e_settings E name with
  | Some v => v
  | None => default
  end.

(** [response.raise_for_status()] *)
Definition raise_for_status (r : response) : result unit :=
  if (400 <=? status_code r) && (status_code r <? 600)
  then Raise HTTPError else Ok tt.

(** Structural equality of values, the key comparison of the store. *)
Fixpoint pyval_eqb (a b : pyval) : bool :=
  let fix list_eqb (x y : list pyval) : bool :=
    match x, y with
    | [], [] => true
    | u :: x', v :: y' => pyval_eqb u v && list_eqb x' y'
    | _, _ => false
    end in
  let fix dict_eqb (x y : pydict) : bool :=
    match x, y with
    | [], [] => true
    | (k, u) :: x', (k', v) :: y' =>
        String.eqb k k' && pyval_eqb u v && dict_eqb x' y'
    | _, _ => false
    end in
  match a, b with
  | VNone, VNone => true
  | VBool x, VBool y => Bool.eqb x y
  | VInt x, VInt y => x =? y
  | VStr x, VStr y => String.eqb x y
  | VList x, VList y => list_eqb x y
  | VTuple x, VTuple y => list_eqb x y
  | VDict x, VDict y => dict_eqb x y
  | VObj x, VObj y => Nat.eqb x y
  | _, _ => false
  end.

(** ** The Method-Probing Resolver *)

(** The [for name in (...)] loop of [_fetch_by_imdb_id], lines 20-36:
    [Some v] when the loop returns [v], [None] when it runs to its end. *)
Fixpoint probe_by_id (E : env) (omdb_client imdb_id : pyval)
    (names : list string) : M (option pyval) :=
  match names with
  | [] => pure None
  | name :: rest =>
      let* getter := lift (getattr_default (e_objects E) omdb_client name VNone) in
      if negb (callable (e_objects E) getter)
      then probe_by_id E omdb_client imdb_id rest
      else
        let* r1 := attempt (client_call E name getter (positional imdb_id)) in
        match r1 with
        | Ok v => pure (Some v)
        | Raise e1 =>
            if is_type_error e1 then
              let* r2 := attempt (client_call E name getter
                                    (keyword "imdbid" imdb_id)) in
              match r2 with
              | Ok v => pure (Some v)
              | Raise e2 =>
                  if is_type_error e2 then
                    let* r3 := attempt (client_call E name getter
                                          (keyword "id" imdb_id)) in
                    match r3 with
                    | Ok v => pure (Some v)
                    | Raise _ => probe_by_id E omdb_client imdb_id rest
                    end
                  else raise e2
              end
            else probe_by_id E omdb_client imdb_id rest
        end
  end.

Definition by_id_names : list string :=
  ["get_by_imdb_id"; "by_id"; "get_movie"; "movie"; "id"; "lookup"; "get"].

(** Lines 38-59: the direct GET ([timeout=10] is not modelled). *)
Definition http_fallback (E : env) (imdb_id : pyval) : M pyval :=
  let O := e_objects E in
  let api_key :=
    py_or O (setting E "OMDB_API_KEY" VNone)
      (py_or O (setting E "OMDB_APIKEY" VNone) (setting E "OMDB_KEY" VNone)) in
  if negb (truthy O api_key)
  then log ERROR "OMDb client lacks a by-ID method and no OMDB_API_KEY found in settings for HTTP fallback." [] ;;
       pure VNone
  else
    let params := [("i", imdb_id); ("plot", VStr "full"); ("apikey", api_key)] in
    let* r := attempt
      (let* resp := requests_get E "https://www.omdbapi.com/" params in
       lift (raise_for_status resp) ;;
       let* data := lift (json resp) in
       let* ok := lift (py_get O data "Response") in
       if eq_str ok "True" then pure data
       else
         let* err := lift (py_get O data "Error") in
         log ERROR "OMDb responded with error for %s: %s" [imdb_id; err] ;;
         pure VNone) in
    match r with
    | Ok v => pure v
    | Raise e =>
        log ERROR "HTTP fallback to OMDb failed for %s: %s" [imdb_id] ;;
        pure VNone
    end.

(** [_fetch_by_imdb_id(omdb_client, imdb_id)] *)
Definition _fetch_by_imdb_id (E : env) (omdb_client imdb_id : pyval) : M pyval :=
  let* found := probe_by_id E omdb_client imdb_id by_id_names in
  match found with
  | Some v => pure v
  | None => http_fallback E imdb_id
  end.

(** ** Enriching one record *)

(** [Genre.objects.get_or_create(name=genre_name)] *)
Definition genre_get_or_create (name : string) : M string :=
  fun w =>
    if bool_decide (name ∈ w_genres w) then (Ok name, w)
    else (Ok name, set_genres (w_genres w ++ [name]) w).

(** [movie.genres.clear()] *)
Definition genres_clear (key : pyval) : M unit :=
  fun w =>
    (Ok tt,
     set_movie_genres
       (filter (fun kg => pyval_eqb kg.1 key = false) (w_movie_genres w)) w).

(** [movie.genres.add(genre)] *)
Definition genres_add (key : pyval) (genre : string) : M unit :=
  fun w =>
    if existsb (fun kg => pyval_eqb kg.1 key && String.eqb kg.2 genre)
         (w_movie_genres w)
    then (Ok tt, w)
    else (Ok tt, set_movie_genres (w_movie_genres w ++ [(key, genre)]) w).

(** [for genre in get_or_create_genres(names): movie.genres.add(genre)]:
    the generator creates each genre when the loop asks for it.  Names
    that are not text do not occur: the list is the normalizer's. *)
Fixpoint add_genres (key : pyval) (names : list pyval) : M unit :=
  match names with
  | [] => pure tt
  | VStr genre_name :: r =>
      let* genre := genre_get_or_create genre_name in
      genres_add key genre ;;
      add_genres key r
  | _ :: r => add_genres key r
  end.

Fixpoint replace_movie (m : movie_rec) (rows : list movie_rec) : option (list movie_rec) :=
  match rows with
  | [] => None
  | x :: r =>
      if pyval_eqb (m_imdb_id x) (m_imdb_id m) then Some (m :: r)
      else cons x <$> replace_movie m r
  end.

(** [movie.save()] *)
Definition movie_save (m : movie_rec) : M unit :=
  fun w =>
    (Ok tt,
     set_movies (match replace_movie m (w_movies w) with
                 | Some rows => rows
                 | None => w_movies w ++ [m]
                 end) w).

Definition list_of (v : pyval) : list pyval :=
  match v with VList l => l | _ => [] end.

(** [fill_movie_details(movie)]: the instance as the call leaves it.
    Nothing raises once the first field is assigned, so an exception
    leaves the instance as it was. *)
Definition fill_movie_details (E : env) (movie : movie_rec) : M movie_rec :=
  let O := e_objects E in
  if m_is_full_record movie
  then log WARNING "'%s' is already a full record." [m_title movie] ;;
       pure movie
  else
    let omdb_client := e_client E in
    let* details_raw := _fetch_by_imdb_id E omdb_client (m_imdb_id movie) in
    if negb (truthy O details_raw)
    then log ERROR "Unable to fetch details for IMDb ID '%s'." [m_imdb_id movie] ;;
         pure movie
    else
      let* details := lift (_normalize_detail_obj O details_raw) in
      let title := py_or O (dict_get details "Title") (m_title movie) in
      let year := py_or O (dict_get details "Year") (m_year movie) in
      let plot := dict_get details "Plot" in
      let runtime_minutes := dict_get details "RuntimeMinutes" in
      genres_clear (m_imdb_id movie) ;;
      add_genres (m_imdb_id movie)
        (if dict_has details "Genres" then list_of (dict_get details "Genres") else []) ;;
      let movie' := Movie (m_imdb_id movie) title year plot runtime_minutes true in
      movie_save movie' ;;
      log INFO "Movie '%s' updated with full details." [title] ;;
      pure movie'.

(** ** The Search-Item Normalizer *)

Definition title_names : list string :=
  ["get"; "get_by_title"; "title"; "by_title"].

(** [{"Title": item, "Year": None, "imdbID": None, "Type": None}] *)
Definition bare_item (item : string) : pydict :=
  [("Title", VStr item); ("Year", VNone); ("imdbID", VNone); ("Type", VNone)].

(** The one call the loop makes of a getter: [getter(title=item)] for
    [get], [getter(item)] for every other name. *)
Definition title_call (getter_name item : string) : call :=
  if String.eqb getter_name "get" then keyword "title" (VStr item)
  else positional (VStr item).

(** Lines 193-200: what the [try] does with the result [res] of the
    getter: [Some d] when it returns the [dict] [d], [None] when it
    leaves the result and goes on to the next name. *)
Definition title_result (O : objects) (item : string) (res : pyval) :
    result (option pydict) :=
  if truthy O res then
    let? det := _normalize_detail_obj O res in
    let? ty := (if isinstance_dict res then py_get O res "Type"
                else getattr_default O res "type" VNone) in
    Ok (Some [("Title", py_or O (dict_get det "Title") (VStr item));
              ("Year", dict_get det "Year");
              ("imdbID", dict_get det "imdbID");
              ("Type", ty)])
  else Ok None.

(** The body of the [try] of lines 190-200. *)
Definition title_attempt (E : env) (item getter_name : string) (getter : pyval) :
    M (option pydict) :=
  if callable (e_objects E) getter then
    let* res := client_call E getter_name getter (title_call getter_name item) in
    lift (title_result (e_objects E) item res)
  else pure None.

(** The [for getter_name in (...)] loop of lines 188-206. *)
Fixpoint lookup_by_title (E : env) (omdb_client : pyval) (item : string)
    (names : list string) : M pydict :=
  match names with
  | [] => pure (bare_item item)
  | getter_name :: rest =>
      let* getter := lift (getattr_default (e_objects E) omdb_client getter_name VNone) in
      let* r := attempt (title_attempt E item getter_name getter) in
      match r with
      | Ok (Some d) => pure d
      | Ok None => lookup_by_title E omdb_client item rest
      | Raise e =>
          if is_type_error e then lookup_by_title E omdb_client item rest
          else log WARNING "Title lookup failed for '%s': %s" [VStr item] ;;
               pure (bare_item item)
      end
  end.

(** [_normalize_search_item(item, omdb_client)] *)
Definition _normalize_search_item (E : env) (item omdb_client : pyval) : M pydict :=
  let O := e_objects E in
  match item with
  | VStr s => lookup_by_title E omdb_client s title_names
  | VDict d =>
      pure [("Title", dict_get d "Title");
            ("Year", dict_get d "Year");
            ("imdbID", py_or O (dict_get d "imdbID")
                         (py_or O (dict_get d "imdb_id") (dict_get d "imdbId")));
            ("Type", dict_get d "Type")]
  | _ =>
      lift (let? title := _callable_attr O item "title" in
            let? year := _callable_attr O item "year" in
            let? imdb_id := ror O (_callable_attr O item "imdb_id")
                                  (_callable_attr O item "imdbID") in
            let? ty := _callable_attr O item "type" in
            Ok [("Title", title); ("Year", year); ("imdbID", imdb_id); ("Type", ty)])
  end.

(** ** The Cache Guard and the search cycle *)

(** [_should_override_cache_guard()] *)
Definition _should_override_cache_guard (E : env) : pyval :=
  py_or (e_objects E) (setting E "OMDB_ALLOW_RESCRAPE" (VBool false))
        (setting E "DEBUG" (VBool false)).

(** [SearchTerm.objects.get_or_create(term=term)]: the record's
    [last_search] and the [created] flag.  A new record has no
    [last_search]. *)
Definition search_term_get_or_create (term : string) : M (option Z * bool) :=
  fun w =>
    match w_search_terms w !! term with
    | Some last_search => (Ok (last_search, false), w)
    | None => (Ok (None, true), set_search_terms (<[term := None]> (w_search_terms w)) w)
    end.

(** [search_term.last_search = now(); search_term.save()] *)
Definition stamp_search_term (term : string) : M unit :=
  let* t := now in
  fun w => (Ok tt, set_search_terms (<[term := Some t]> (w_search_terms w)) w).

(** [Movie.objects.get_or_create(imdb_id=..., defaults={title, year})]:
    a record made here is a partial one. *)
Definition movie_get_or_create (imdb_id title year : pyval) : M (movie_rec * bool) :=
  fun w =>
    match List.find (fun m => pyval_eqb (m_imdb_id m) imdb_id) (w_movies w) with
    | Some m => (Ok (m, false), w)
    | None =>
        let m := Movie imdb_id title year VNone VNone false in
        (Ok (m, true), set_movies (w_movies w ++ [m]) w)
    end.

(** Lines 288-299: the by-title resolution of a missing identifier;
    the three variables as the block leaves them. *)
Definition resolve_missing_id (E : env) (omdb_client imdb_id title year : pyval) :
    M (pyval * pyval * pyval) :=
  let O := e_objects E in
  if negb (truthy O imdb_id) && truthy O title then
    let* resolver := lift (getattr_default O omdb_client "get" VNone) in
    if callable O resolver then
      let* r := attempt
        (let* resolved :=
           client_call E "get" resolver
             (if truthy O year then Call [] [("title", title); ("year", year)]
              else Call [] [("title", title)]) in
         let* details := lift (_normalize_detail_obj O resolved) in
         pure (py_or O (dict_get details "imdbID") imdb_id,
               py_or O (dict_get details "Title") title,
               py_or O (dict_get details "Year") year)) in
      match r with
      | Ok t => pure t
      | Raise e =>
          log WARNING "Failed to resolve imdbID for '%s': %s" [title] ;;
          pure (imdb_id, title, year)
      end
    else pure (imdb_id, title, year)
  else pure (imdb_id, title, year).

(** One round of the [for raw in results] loop, lines 276-327. *)
Definition save_item (E : env) (omdb_client raw : pyval) : M unit :=
  let O := e_objects E in
  let* data := _normalize_search_item E raw omdb_client in
  if negb (truthy O (VDict data)) then pure tt
  else if truthy O (dict_get data "Type") && negb (eq_str (dict_get data "Type") "movie")
  then pure tt
  else
    let* '(imdb_id, title, year) :=
      resolve_missing_id E omdb_client (dict_get data "imdbID")
        (dict_get data "Title") (dict_get data "Year") in
    if negb (truthy O imdb_id)
    then log WARNING "Skipping item without imdbID: %r" [VDict data]
    else
      let year_val := search_year_val O year in
      log INFO "Saving movie: '%s' / '%s'" [title; imdb_id] ;;
      let* '(movie, created) := movie_get_or_create imdb_id title year_val in
      if created : bool then log INFO "Movie created: '%s'" [m_title movie]
      else pure tt.

Fixpoint for_each {A} (f : A -> M unit) (l : list A) : M unit :=
  match l with
  | [] => pure tt
  | x :: r => f x ;; for_each f r
  end.

(** Lines 262-270: unwrapping the envelope. *)
Definition unwrap_envelope (E : env) (results : pyval) : M pyval :=
  let O := e_objects E in
  match results with
  | VDict d =>
      let inner := py_or O (dict_get d "Search")
                     (py_or O (dict_get d "search") (dict_get d "results")) in
      if is_none inner
      then log WARNING "OMDb returned a dict without a 'Search' array: %r" [results] ;;
           pure (VList [])
      else
        let* n := lift (py_len inner) in
        log DEBUG "Extracted %d items from OMDb 'Search' array." [VInt n] ;;
        pure inner
  | _ => pure results
  end.

(** Lines 262-327: from the answer of the upstream search to the last
    record saved. *)
Definition save_results (E : env) (normalized_search_term : string)
    (found : pyval) : M unit :=
  let O := e_objects E in
  let* results := unwrap_envelope E (py_or O found (VList [])) in
  (if negb (truthy O results)
   then log INFO "No results returned for '%s'." [VStr normalized_search_term]
   else pure tt) ;;
  let* items := lift (py_iter results) in
  for_each (save_item E (e_client E)) items.

(** Lines 257-331: the search itself, once the guard lets it through. *)
Definition run_search (E : env) (search normalized_search_term : string) : M unit :=
  let O := e_objects E in
  let omdb_client := e_client E in
  log INFO "Performing a search for '%s'" [VStr normalized_search_term] ;;
  let* search_method := lift (py_getattr O omdb_client "search") in
  let* found := client_call E "search" search_method (positional (VStr search)) in
  save_results E normalized_search_term found ;;
  stamp_search_term normalized_search_term.

(** Line 244: [recent]. *)
Definition recent (created : bool) (last_search : option Z) (t : Z) : bool :=
  negb created &&
  match last_search with
  | Some ls => t - one_day <? ls
  | None => false
  end.

(** [search_and_save(search)] *)
Definition search_and_save (E : env) (search : string) : M unit :=
  let O := e_objects E in
  let normalized_search_term := Text.re_sub_ws (Text.lower search) in
  let* '(last_search, created) := search_term_get_or_create normalized_search_term in
  let* t := now in
  if recent created last_search t && negb (truthy O (_should_override_cache_guard E))
  then log WARNING "Search for '%s' was performed in the past 24 hours so not searching again."
         [VStr normalized_search_term]
  else
    (if recent created last_search t && truthy O (_should_override_cache_guard E)
     then log WARNING "Search for '%s' was performed in the past 24 hours - overriding due to DEBUG/OMDB_ALLOW_RESCRAPE."
            [VStr normalized_search_term]
     else pure tt) ;;
    run_search E search normalized_search_term.

(** ** The client ([omdb/client.py]) *)

Module Client.

Definition OMDB_API_URL : string := "https://www.omdbapi.com/".

(** [d[k] = v] *)
Fixpoint dict_set (d : pydict) (k : string) (v : pyval) : pydict :=
  match d with
  | [] => [(k, v)]
  | (k', x) :: r =>
      if String.eqb k' k then (k, v) :: r else (k', x) :: dict_set r k v
  end.

(** [OmdbClient._make_request(self, params)]; the client's own log
    lines are not kept. *)
Definition _make_request (O : objects)
    (get : string -> pydict -> result response)
    (api_key : pyval) (params : pydict) : result pyval :=
  let params := dict_set params "apikey" api_key in
  let? response := get OMDB_API_URL params in
  let? _ := (if negb (status_code response =? 200)
             then raise_for_status response else Ok tt) in
  let? data := json response in
  let? flag := py_get O data "Response" in
  if eq_str flag "False"
  then let? _ := py_get O data "Error" in
       let? _ := py_get O data "Error" in
       Raise ValueError
  else Ok data.

(** Binding the arguments of a call to the parameters of a [def]: each
    parameter with its default, if it has one. *)
Fixpoint bind_params (params : list (string * option pyval))
    (args : list pyval) (kwargs : pydict) : result (list pyval) :=
  match params with
  | [] => match args with [] => Ok [] | _ => Raise TypeError end
  | (name, default) :: ps =>
      match args with
      | a :: args' =>
          if dict_has kwargs name then Raise TypeError
          else let? rest := bind_params ps args' kwargs in Ok (a :: rest)
      | [] =>
          let? v := (if dict_has kwargs name then Ok (dict_get kwargs name)
                     else match default with
                          | Some d => Ok d
                          | None => Raise TypeError
                          end) in
          let? rest := bind_params ps [] kwargs in
          Ok (v :: rest)
      end
  end.

Definition bind_call (params : list (string * option pyval)) (c : call) :
    result (list pyval) :=
  if existsb (fun kv => negb (existsb (String.eqb kv.1) (params.*1))) (c_kwargs c)
  then Raise TypeError
  else bind_params params (c_args c) (c_kwargs c).

(** [OmdbClient.search(self, title, movie_type="movie", page=1)] *)
Definition search (O : objects) (get : string -> pydict -> result response)
    (api_key : pyval) (c : call) : result pyval :=
  let? a := bind_call [("title", None); ("movie_type", Some (VStr "movie"));
                       ("page", Some (VInt 1))] c in
  match a with
  | [title; movie_type; page] =>
      _make_request O get api_key
        [("s", title); ("type", movie_type); ("page", page)]
  | _ => Raise TypeError
  end.

(** [OmdbClient.get_movie_details(self, imdb_id)] *)
Definition get_movie_details (O : objects)
    (get : string -> pydict -> result response)
    (api_key : pyval) (c : call) : result pyval :=
  let? a := bind_call [("imdb_id", None)] c in
  match a with
  | [imdb_id] =>
      _make_request O get api_key [("i", imdb_id); ("plot", VStr "full")]
  | _ => Raise TypeError
  end.

Definition make_request_method (O : objects)
    (get : string -> pydict -> result response)
    (api_key : pyval) (c : call) : result pyval :=
  let? a := bind_call [("params", None)] c in
  match a with
  | [VDict params] => _make_request O get api_key params
  | _ => Raise TypeError
  end.

Definition bound_method (run : call -> result pyval) (text : string) : pyobj :=
  PyObj (fun _ => Raise AttributeError) (Some run) (Ok text) (Ok text) true.

(** An [OmdbClient(api_key)] at reference 0 of the object table and its
    three bound methods at 1, 2 and 3; every other reference is as in
    [O]. *)
Definition OmdbClient (O : objects) (get : string -> pydict -> result response)
    (api_key : pyval) : objects :=
  fun r =>
    match r with
    | 0%nat =>
        PyObj (fun name =>
                 if String.eqb name "api_key" then Ok api_key
                 else if String.eqb name "search" then Ok (VObj 1%nat)
                 else if String.eqb name "get_movie_details" then Ok (VObj 2%nat)
                 else if String.eqb name "_make_request" then Ok (VObj 3%nat)
                 else Raise AttributeError)
              None
              (Ok "<omdb.client.OmdbClient object>")
              (Ok "<omdb.client.OmdbClient object>")
              true
    | 1%nat => bound_method (search O get api_key) "<bound method OmdbClient.search>"
    | 2%nat => bound_method (get_movie_details O get api_key)
                 "<bound method OmdbClient.get_movie_details>"
    | 3%nat => bound_method (make_request_method O get api_key)
                 "<bound method OmdbClient._make_request>"
    | _ => O r
    end.

End Client.

(** ** Concrete objects, settings and worlds *)

(** An object table without objects of interest: no attributes, not
    callable. *)
Definition no_objects : objects :=
  fun _ => PyObj (fun _ => Raise AttributeError) None
                 (Ok "<object>") (Ok "<object>") true.

Definition no_settings : string -> option pyval := fun _ => None.

Definition no_network : string -> pydict -> result response :=
  fun _ _ => Raise ConnectionError.

(** An empty database at time [t]. *)
Definition empty_world (t : Z) : world := World t ∅ [] [] [] [] [].


(** A payload object with plain attribute values. *)
Definition plain_detail_objects : objects :=
  fun r =>
    match r with
    | 0%nat =>
        PyObj (fun name =>
                 if String.eqb name "title" then Ok (VStr "Heat")
                 else if String.eqb name "year" then Ok (VStr "1995")
                 else if String.eqb name "imdb_id" then Ok (VStr "tt0113277")
                 else if String.eqb name "genres" then Ok (VList [VStr "Crime"; VStr " Drama"])
                 else Raise AttributeError)
              None (Ok "<Detail object>") (Ok "<Detail object>") true
    | _ => no_objects r
    end.




(** The shape the Year invariant asks for: null or a four-digit
    integer. *)
Definition year_null_or_four_digits (v : pyval) : Prop :=
  v = VNone \/ exists n, v = VInt n /\ 1000 <= n <= 9999.

(** The genre rule in the words of the specification: a text gives its
    trimmed non-empty parts, a sequence its elements stringified and
    trimmed, anything else nothing. *)
Definition genre_rule_as_specified (O : objects) (genres : pyval) : result (list string) :=
  match genres with
  | VStr s =>
      Ok (List.filter (fun p => negb (Text.is_empty p))
            (Text.strip <$> Text.split_on "," s))
  | VList l | VTuple l =>
      rmap (fun g => let? t := py_str O g in Ok (Text.strip t)) l
  | _ => Ok []
  end.

(** The genre rule as amended: empty elements of a sequence are dropped
    too. *)
Definition genre_rule (O : objects) (genres : pyval) : result (list string) :=
  match genres with
  | VStr s =>
      Ok (List.filter (fun p => negb (Text.is_empty p))
            (Text.strip <$> Text.split_on "," s))
  | VList l | VTuple l =>
      let? texts := rmap (py_str O) l in
      Ok (List.filter (fun p => negb (Text.is_empty p)) (Text.strip <$> texts))
  | _ => Ok []
  end.

(** How a Year comes out of a raw [year], by the branch of lines 108-118
    that produces it: the integer itself; the value of an all-digit
    text, or null when [int()] refuses the text; null for [None]; for
    any other value the number of the four decimal digits that start its
    string form, or null when it does not start so or when [str()]
    raises. *)
Inductive year_outcome (O : objects) (year : pyval) : pyval -> Prop :=
| year_integer : isinstance_int year = true -> year_outcome O year year
| year_digits (s : string) (n : Z) :
    year = VStr s -> Text.isdigit s = true ->
    Text.int_of_str s = Some n -> 0 <= n ->
    year_outcome O year (VInt n)
| year_digits_refused (s : string) :
    year = VStr s -> Text.isdigit s = true ->
    Text.int_of_str s = None ->
    year_outcome O year VNone
| year_missing : year = VNone -> year_outcome O year VNone
| year_prefix (t g : string) (n : Z) :
    isinstance_int year = false -> str_isdigit year = false ->
    year <> VNone ->
    py_str O year = Ok t -> Text.re_match_4digits t = Some g ->
    Text.int_of_str g = Some n -> 0 <= n <= 9999 ->
    year_outcome O year (VInt n)
| year_no_prefix (t : string) :
    isinstance_int year = false -> str_isdigit year = false ->
    year <> VNone ->
    py_str O year = Ok t -> Text.re_match_4digits t = None ->
    year_outcome O year VNone
| year_no_text (e : exn) :
    isinstance_int year = false -> str_isdigit year = false ->
    year <> VNone ->
    py_str O year = Raise e ->
    year_outcome O year VNone.

(** A client whose only by-ID method takes its argument by keyword and
    fails on an unknown identifier:
    [class Client:
       def get_by_imdb_id(self, *, imdbid): raise ValueError("not found")]. *)
Definition keyword_only_objects : objects :=
  fun r =>
    match r with
    | 0%nat =>
        PyObj (fun name =>
                 if String.eqb name "get_by_imdb_id" then Ok (VObj 1%nat)
                 else Raise AttributeError)
              None (Ok "<Client object>") (Ok "<Client object>") true
    | 1%nat =>
        Client.bound_method
          (fun c => match c with
                    | Call [] [(k, _)] =>
                        if String.eqb k "imdbid" then Raise ValueError
                        else Raise TypeError
                    | _ => Raise TypeError
                    end)
          "<bound method Client.get_by_imdb_id>"
    | _ => no_objects r
    end.

Definition keyword_only_env : env :=
  Env keyword_only_objects no_settings no_network (VObj 0%nat).

(** The same client with the keyword spelled [id]:
    [def get_by_imdb_id(self, *, id): raise ValueError("not found")]. *)
Definition id_keyword_objects : objects :=
  fun r =>
    match r with
    | 0%nat =>
        PyObj (fun name =>
                 if String.eqb name "get_by_imdb_id" then Ok (VObj 1%nat)
                 else Raise AttributeError)
              None (Ok "<Client object>") (Ok "<Client object>") true
    | 1%nat =>
        Client.bound_method
          (fun c => match c with
                    | Call [] [(k, _)] =>
                        if String.eqb k "id" then Raise ValueError
                        else Raise TypeError
                    | _ => Raise TypeError
                    end)
          "<bound method Client.get_by_imdb_id>"
    | _ => no_objects r
    end.

Definition id_keyword_env : env :=
  Env id_keyword_objects no_settings no_network (VObj 0%nat).

(** A partial and a full record of the same film. *)
Definition heat_partial : movie_rec :=
  Movie (VStr "tt0113277") (VStr "Heat") (VInt 1995) VNone VNone false.

Definition heat_full : movie_rec :=
  Movie (VStr "tt0113277") (VStr "Heat") (VInt 1995)
        (VStr "A group of professional bank robbers...") (VInt 170) true.

Definition heat_world : world :=
  World 0 ∅ [heat_full] ["Crime"; "Drama"]
        [(VStr "tt0113277", "Crime"); (VStr "tt0113277", "Drama")] [] [].

(** [m] takes every world [w] to a world related to [w] by [R]. *)
Definition respects {A} (R : relation world) (m : M A) : Prop :=
  forall w, R w (m w).2.

(** From [w] to [w']: more upstream traffic, the SearchTerm records and
    the clock as they were. *)
Definition traffic_added (w w' : world) : Prop :=
  (exists evs, w_events w' = (w_events w ++ evs)%list)
  /\ w_search_terms w' = w_search_terms w
  /\ w_now w' = w_now w.


Definition matrix_hit : pydict :=
  [("Title", VStr "The Matrix"); ("Year", VStr "1999");
   ("imdbID", VStr "tt0133093"); ("Type", VStr "movie")].



(** A client whose [get] takes the title by keyword:
    [def get(self, title=None): return {"Title": "The Matrix", ...}]. *)
Definition keyword_get_objects : objects :=
  fun r =>
    match r with
    | 0%nat =>
        PyObj (fun name =>
                 if String.eqb name "get" then Ok (VObj 1%nat)
                 else Raise AttributeError)
              None (Ok "<Client object>") (Ok "<Client object>") true
    | 1%nat =>
        Client.bound_method
          (fun c => let? _ := Client.bind_call [("title", Some VNone)] c in
                    Ok (VDict matrix_hit))
          "<bound method Client.get>"
    | _ => no_objects r
    end.

Definition keyword_get_env : env :=
  Env keyword_get_objects no_settings no_network (VObj 0%nat).



Definition answer_one_hit : string -> pydict -> result response :=
  fun _ _ =>
    Ok (Response 200
          (Ok (VDict [("Search", VList [VDict matrix_hit]);
                      ("totalResults", VStr "1");
                      ("Response", VStr "True")]))).

Definition api_key_settings : string -> option pyval :=
  fun name => if String.eqb name "OMDB_API_KEY" then Some (VStr "k") else None.

Definition debug_settings : string -> option pyval :=
  fun name =>
    if String.eqb name "OMDB_API_KEY" then Some (VStr "k")
    else if String.eqb name "DEBUG" then Some (VBool true)
    else None.

(** The repository's own client in front of each of these. *)
Definition omdb_env (settings : string -> option pyval)
    (answer : string -> pydict -> result response) : env :=
  Env (Client.OmdbClient no_objects answer (VStr "k")) settings answer (VObj 0%nat).

Definition hour : Z := 3600 * 1000000.

(** A database that saw "the matrix" searched 23 hours ago. *)
Definition searched_23h_ago : world :=
  World (48 * hour) {[ "the matrix" := Some (25 * hour) ]} [] [] [] [] [].

(** The two log lines of the Cache Guard. *)
Definition skip_line (term : string) : log_line :=
  Log WARNING "Search for '%s' was performed in the past 24 hours so not searching again."
      [VStr term].

Definition override_line (term : string) : log_line :=
  Log WARNING "Search for '%s' was performed in the past 24 hours - overriding due to DEBUG/OMDB_ALLOW_RESCRAPE."
      [VStr term].

(** The world in which the upstream search is called: the search is
    announced in the log and the call is on record. *)
Definition search_called (search term : string) (w : world) : world :=
  add_event (ClientCall "search" (positional (VStr search)))
    (add_log (Log INFO "Performing a search for '%s'" [VStr term]) w).







(** From [w] to [w']: the database and the clock as they were. *)
Definition database_kept (w w' : world) : Prop :=
  w_movies w' = w_movies w
  /\ w_genres w' = w_genres w
  /\ w_movie_genres w' = w_movie_genres w
  /\ w_search_terms w' = w_search_terms w
  /\ w_now w' = w_now w.

(** The API key the HTTP fallback finds in the settings, and the query
    it sends with it. *)
Definition configured_api_key (E : env) : pyval :=
  py_or (e_objects E) (setting E "OMDB_API_KEY" VNone)
    (py_or (e_objects E) (setting E "OMDB_APIKEY" VNone)
       (setting E "OMDB_KEY" VNone)).

Definition fallback_request (E : env) (imdb_id : pyval) : event :=
  HttpGet "https://www.omdbapi.com/"
    [("i", imdb_id); ("plot", VStr "full"); ("apikey", configured_api_key E)].

(** A detail answer of the upstream API. *)
Definition heat_detail : pydict :=
  [("Title", VStr "Heat"); ("Year", VStr "1995");
   ("imdbID", VStr "tt0113277");
   ("Plot", VStr "A group of professional bank robbers...");
   ("Runtime", VStr "170 min"); ("Genre", VStr "Action, Crime, Drama");
   ("Type", VStr "movie"); ("Response", VStr "True")].

Definition answer_heat : string -> pydict -> result response :=
  fun _ _ => Ok (Response 200 (Ok (VDict heat_detail))).

(** A client that knows no film:
    [class Client:
       def by_id(self, imdb_id): return None]. *)
Definition by_id_none_objects : objects :=
  fun r =>
    match r with
    | 0%nat =>
        PyObj (fun name =>
                 if String.eqb name "by_id" then Ok (VObj 1%nat)
                 else Raise AttributeError)
              None (Ok "<Client object>") (Ok "<Client object>") true
    | 1%nat =>
        Client.bound_method
          (fun c => let? _ := Client.bind_call [("imdb_id", None)] c in Ok VNone)
          "<bound method Client.by_id>"
    | _ => no_objects r
    end.

Definition by_id_none_env : env :=
  Env by_id_none_objects api_key_settings answer_heat (VObj 0%nat).

(** What the database answers: the genre names of the movie of key
    [key] (its [genres] set), and the Movie record of that key. *)
Definition movie_genre_names (key : pyval) (w : world) : list string :=
  snd <$> List.filter (fun kg => pyval_eqb kg.1 key) (w_movie_genres w).

Definition movie_row (key : pyval) (w : world) : option movie_rec :=
  List.find (fun m => pyval_eqb (m_imdb_id m) key) (w_movies w).

(** The log lines of [fill_movie_details]. *)
Definition unable_line (imdb_id : pyval) : log_line :=
  Log ERROR "Unable to fetch details for IMDb ID '%s'." [imdb_id].

Definition updated_line (title : pyval) : log_line :=
  Log INFO "Movie '%s' updated with full details." [title].

(** A database with the partial record of "Heat", one genre and a stale
    association. *)
Definition heat_partial_world : world :=
  World 0 ∅ [heat_partial] ["Crime"] [(VStr "tt0113277", "Western")] [] [].

(** A name as the genre rule produces it: not empty, no whitespace at
    either end. *)
Definition trimmed_name (g : string) : Prop :=
  g <> EmptyString /\ Text.strip g = g.

Definition not_decimal (c : ascii) : bool := negb (Text.isdecimal_char c).

(** An object whose attributes are plain values under the names the
    Detail Normalizer reads first, for the comparison with the mapping
    that holds the same data. *)
Definition heat_attributes : pydict :=
  [("title", VStr "Heat"); ("year", VStr "1995-");
   ("imdb_id", VStr "tt0113277"); ("plot", VStr "A heist.");
   ("runtime", VStr "170 min"); ("genres", VStr "Crime, Drama")].

Definition heat_object : objects :=
  fun r =>
    match r with
    | 0%nat =>
        PyObj (fun name => if dict_has heat_attributes name
                           then Ok (dict_get heat_attributes name)
                           else Raise AttributeError)
              None (Ok "<Detail object>") (Ok "<Detail object>") true
    | _ => no_objects r
    end.

(** A Movie record as a search makes it: not marked full, without plot
    and runtime. *)
Definition partial_record (m : movie_rec) : Prop :=
  m_is_full_record m = false /\ m_plot m = VNone /\ m_runtime_minutes m = VNone.

(** The identifiers of the Movie table, in table order. *)
Definition movie_ids (w : world) : list pyval := m_imdb_id <$> w_movies w.

(** [w'] holds the Movie records of [w], each as it was and where it
    was, then partial records only; genres and their associations are
    as in [w]. *)
Definition movies_added (w w' : world) : Prop :=
  (exists new, w_movies w' = (w_movies w ++ new)%list /\ Forall partial_record new)
  /\ w_genres w' = w_genres w
  /\ w_movie_genres w' = w_movie_genres w.

(** No identifier twice in [w'] if none is twice in [w]. *)
Definition ids_stay_unique (w w' : world) : Prop :=
  NoDup (movie_ids w) -> NoDup (movie_ids w').

(** The same database read when the clock shows [t]. *)
Definition at_time (t : Z) (w : world) : world :=
  World t (w_search_terms w) (w_movies w) (w_genres w) (w_movie_genres w)
        (w_events w) (w_log w).

(** Two worlds that differ in their logs at most. *)
Definition same_but_log (w1 w2 : world) : Prop :=
  w_now w1 = w_now w2
  /\ w_search_terms w1 = w_search_terms w2
  /\ w_movies w1 = w_movies w2
  /\ w_genres w1 = w_genres w2
  /\ w_movie_genres w1 = w_movie_genres w2
  /\ w_events w1 = w_events w2.

(** A computation that does not read the log: from worlds that differ
    in their logs at most it gives the same outcome and worlds that
    differ in their logs at most. *)
Definition log_blind {A} (m : M A) : Prop :=
  forall w1 w2, same_but_log w1 w2 ->
    (m w1).1 = (m w2).1 /\ same_but_log (m w1).2 (m w2).2.

(** A series among the hits: [Type] is there and is not "movie". *)
Definition series_hit : pydict :=
  [("Title", VStr "The Matrix Files"); ("Year", VStr "1999-2003");
   ("imdbID", VStr "tt0000001"); ("Type", VStr "series")].

(** An upstream search that finds nothing and says so with an empty
    list. *)
Definition nothing_found_objects : objects :=
  fun r =>
    match r with
    | 0%nat =>
        PyObj (fun name =>
                 if String.eqb name "search" then Ok (VObj 1%nat)
                 else Raise AttributeError)
              None (Ok "<Client object>") (Ok "<Client object>") true
    | 1%nat =>
        Client.bound_method (fun _ => Ok (VList []))
          "<bound method Client.search>"
    | _ => no_objects r
    end.

Definition nothing_found_env : env :=
  Env nothing_found_objects no_settings no_network (VObj 0%nat).

(** ** The movie class of the client ([omdb/client.py], lines 9-58) *)

Module OmdbMovie.

(** [s.startswith(p)] *)
Fixpoint startswith (p s : string) : bool :=
  match p, s with
  | EmptyString, _ => true
  | String a p', String b s' => Ascii.eqb a b && startswith p' s'
  | _, _ => false
  end.

(** [s.split(sep)] for a separator of one character or more, read from
    the left: the piece being read and the pieces after it.  [skip]
    counts the characters of a separator just found that are still to
    be passed over. *)
Fixpoint split_from (sep : string) (skip : nat) (s : string) :
    string * list string :=
  match s with
  | EmptyString => (EmptyString, [])
  | String c r =>
      match skip with
      | S k => split_from sep k r
      | O =>
          if startswith sep s
          then let '(piece, pieces) :=
                 split_from sep (String.length sep - 1) r in
               (EmptyString, piece :: pieces)
          else let '(piece, pieces) := split_from sep 0 r in
               (String c piece, pieces)
      end
  end.

Definition split (sep s : string) : list string :=
  let '(piece, pieces) := split_from sep 0 s in piece :: pieces.

(** [v.split(sep)]: a value of the parsed JSON that is no text has no
    [split]. *)
Definition py_split (v : pyval) (sep : string) : result (list string) :=
  match v with
  | VStr s => Ok (split sep s)
  | _ => Raise AttributeError
  end.

(** [self.data[key]], with [self.data] the [dict] the class is made
    for. *)
Definition item (data : pydict) (key : string) : result pyval :=
  if dict_has data key then Ok (dict_get data key) else Raise KeyError.

(** [check_for_detail_data_key(self, key)] *)
Definition check_for_detail_data_key (data : pydict) (key : string) :
    result unit :=
  if negb (dict_has data key) then Raise AttributeError else Ok tt.

Definition imdb_id (data : pydict) : result pyval := item data "imdbID".

Definition title (data : pydict) : result pyval := item data "Title".

Definition year (data : pydict) : result pyval :=
  let? y := item data "Year" in py_int y.

Definition runtime_minutes (data : pydict) : result pyval :=
  let? _ := check_for_detail_data_key data "Runtime" in
  let? runtime := item data "Runtime" in
  let? parts := py_split runtime " " in
  match parts with
  | [rt; units] =>
      if negb (String.eqb units "min") then Raise ValueError
      else py_int (VStr rt)
  | _ => Raise ValueError
  end.

Definition genres (data : pydict) : result pyval :=
  let? _ := check_for_detail_data_key data "Genre" in
  let? genre := item data "Genre" in
  let? parts := py_split genre ", " in
  Ok (VList (VStr <$> parts)).

Definition plot (data : pydict) : result pyval :=
  let? _ := check_for_detail_data_key data "Plot" in
  item data "Plot".

(** [hash(v)] does not raise. *)
Fixpoint hashable (v : pyval) : bool :=
  match v with
  | VList _ | VDict _ => false
  | VTuple l => forallb hashable l
  | _ => true
  end.

(** The bound [check_for_detail_data_key] as it is called: the keys of
    [data] are texts, the message of the exception is formatted before
    it is raised. *)
Definition check_method (O : objects) (data : pydict) (c : call) :
    result pyval :=
  let? a := Client.bind_call [("key", None)] c in
  match a with
  | [key] =>
      if negb (hashable key) then Raise TypeError
      else match key with
           | VStr k => let? _ := check_for_detail_data_key data k in Ok VNone
           | _ => let? _ := py_str O key in Raise AttributeError
           end
  | _ => Raise TypeError
  end.

(** An [OmdbMovie(data)] as an entry of the object table: its
    properties are computed when they are read; [method] is where the
    bound [check_for_detail_data_key] is. *)
Definition instance (data : pydict) (method : objref) : pyobj :=
  PyObj (fun name =>
           if String.eqb name "data" then Ok (VDict data)
           else if String.eqb name "imdb_id" then imdb_id data
           else if String.eqb name "title" then title data
           else if String.eqb name "year" then year data
           else if String.eqb name "runtime_minutes" then runtime_minutes data
           else if String.eqb name "genres" then genres data
           else if String.eqb name "plot" then plot data
           else if String.eqb name "check_for_detail_data_key"
                then Ok (VObj method)
           else Raise AttributeError)
        None
        (Ok "<omdb.client.OmdbMovie object>")
        (Ok "<omdb.client.OmdbMovie object>")
        true.

End OmdbMovie.

(** A detail answer as the API words it: text under Title, imdbID and
    Plot, a year of decimal digits, a runtime of decimal digits and
    " min", genre names joined by ", ". *)
Record detail_answer : Type := DetailAnswer {
  a_title : string;
  a_year : string;
  a_imdb_id : string;
  a_plot : string;
  a_minutes : string;
  a_genres : list string
}.

(** A number as the answers give it: decimal digits, at least one and
    no more than [int()] converts. *)
Definition decimal_text (s : string) : Prop :=
  s <> EmptyString /\ Text.forallb_str Text.isdecimal_char s = true
  /\ Z.of_nat (String.length s) <= Text.int_max_str_digits.

Definition genre_name (g : string) : Prop :=
  trimmed_name g /\ Text.contains "," g = false.

Definition answers (data : pydict) (a : detail_answer) : Prop :=
  dict_get data "Title" = VStr (a_title a)
  /\ dict_get data "Year" = VStr (a_year a)
  /\ decimal_text (a_year a)
  /\ dict_get data "imdbID" = VStr (a_imdb_id a)
  /\ a_imdb_id a <> EmptyString
  /\ dict_get data "Plot" = VStr (a_plot a)
  /\ dict_get data "Runtime" = VStr (a_minutes a ++ " min")
  /\ decimal_text (a_minutes a)
  /\ dict_get data "Genre" = VStr (Text.join ", " (a_genres a))
  /\ a_genres a <> []
  /\ Forall genre_name (a_genres a).

(** [OmdbMovie(heat_detail)] at reference 0. *)
Definition heat_movie_objects : objects :=
  fun r =>
    match r with
    | 0%nat => OmdbMovie.instance heat_detail 1%nat
    | 1%nat => Client.bound_method
                 (OmdbMovie.check_method no_objects heat_detail)
                 "<bound method OmdbMovie.check_for_detail_data_key>"
    | _ => no_objects r
    end.

Definition heat_answer : detail_answer :=
  DetailAnswer "Heat" "1995" "tt0113277"
    "A group of professional bank robbers..." "170"
    ["Action"; "Crime"; "Drama"].

(** A search hit wrapped in the class: [OmdbMovie(series_hit)] at
    reference 0. *)
Definition series_movie_objects : objects :=
  fun r =>
    match r with
    | 0%nat => OmdbMovie.instance series_hit 1%nat
    | _ => heat_movie_objects r
    end.

(** A client whose [search] answers with a bare list of mappings, the
    last of them without an identifier, and whose [get] resolves a
    title:
    [class Client:
       def search(self, title): return [hit, series, {"Title": "The Matrix"}]
       def get(self, title=None, year=None): return hit]. *)
Definition list_search_objects : objects :=
  fun r =>
    match r with
    | 0%nat =>
        PyObj (fun name =>
                 if String.eqb name "get" then Ok (VObj 1%nat)
                 else if String.eqb name "search" then Ok (VObj 2%nat)
                 else Raise AttributeError)
              None (Ok "<Client object>") (Ok "<Client object>") true
    | 1%nat =>
        Client.bound_method
          (fun c => let? _ := Client.bind_call
                                [("title", Some VNone); ("year", Some VNone)] c in
                    Ok (VDict matrix_hit))
          "<bound method Client.get>"
    | 2%nat =>
        Client.bound_method
          (fun c => let? _ := Client.bind_call [("title", None)] c in
                    Ok (VList [VDict matrix_hit; VDict series_hit;
                               VDict [("Title", VStr "The Matrix")]]))
          "<bound method Client.search>"
    | _ => no_objects r
    end.

Definition list_search_env : env :=
  Env list_search_objects no_settings no_network (VObj 0%nat).

(** The surroundings in which the movie objects live. *)
Definition movie_env (O : objects) : env :=
  Env O no_settings no_network VNone.

(** * Properties *)

(** ** Text *)

Example lower_matrix : Text.lower "The  MATRIX" = "the  matrix".
Proof. reflexivity. Qed.

Example re_sub_ws_matrix : Text.re_sub_ws " the   matrix  x" = " the matrix x".
Proof. reflexivity. Qed.

Example split_genres : Text.split_on "," "Action, Drama" = ["Action"; " Drama"].
Proof. reflexivity. Qed.

Example strip_drama : Text.strip "  Drama " = "Drama".
Proof. reflexivity. Qed.

Example int_of_str_underscore : Text.int_of_str " +1_000 " = Some 1000.
Proof. reflexivity. Qed.

Example int_of_str_bad : Text.int_of_str "1__0" = None.
Proof. reflexivity. Qed.

Example str_of_int_neg : Text.str_of_int (-42) = "-42".
Proof. reflexivity. Qed.

Example str_of_int_zero : Text.str_of_int 0 = "0".
Proof. reflexivity. Qed.

Example repr_str_quote : Text.repr_str "it's" = String Text.dquote "it's" +:+ String Text.dquote "".
Proof. reflexivity. Qed.

Example re_search_runtime : Text.re_search_digits "136 min" = Some "136".
Proof. reflexivity. Qed.

Example isdigit_superscript : Text.isdigit (String (ascii_of_N 178) "") = true.
Proof. reflexivity. Qed.

Example int_of_superscript : Text.int_of_str (String (ascii_of_N 178) "") = None.
Proof. reflexivity. Qed.

(** [int()] skips a no-break space before a number but not the unit
    separator, which [str.strip] removes. *)
Example int_of_str_no_break_space :
  Text.int_of_str (String (ascii_of_N 160) "17 ") = Some 17.
Proof. reflexivity. Qed.

Example int_of_str_separator :
  Text.strip (String (ascii_of_N 31) "17") = "17"
  /\ Text.int_of_str (String (ascii_of_N 31) "17") = None.
Proof. split; reflexivity. Qed.

(** 4300 digits are converted, 4301 are not, leading zeros counted. *)
Example int_of_str_limit :
  Text.int_of_str (String.concat "" (List.repeat "7" 4300)) <> None
  /\ Text.int_of_str (String.concat "" (List.repeat "7" 4301)) = None
  /\ Text.int_of_str (String.concat "" (List.repeat "0" 4301)) = None.
Proof. split; [|split]; vm_compute; done. Qed.

Example int_fits_limit :
  Text.int_fits (- (10 ^ 4300 - 1)) = true /\ Text.int_fits (10 ^ 4300) = false.
Proof. split; vm_compute; reflexivity. Qed.

Ltac char_cases c :=
  destruct c as [[|] [|] [|] [|] [|] [|] [|] [|]]; vm_compute;
  try discriminate; try reflexivity; try (intros _; split; discriminate).

Lemma decimal_value_bounds c :
  Text.isdecimal_char c = true -> 0 <= Text.digit_value c <= 9.
Proof. char_cases c. Qed.

Lemma decimal_is_digit c :
  Text.isdecimal_char c = true -> Text.isdigit_char c = true.
Proof. char_cases c. Qed.

Lemma digit_not_sign c :
  Text.isdigit_char c = true -> Ascii.eqb c "+" = false /\ Ascii.eqb c "-" = false.
Proof. char_cases c; intros; split; reflexivity. Qed.

Lemma int_digits_nonneg s : forall acc b n,
  0 <= acc -> Text.int_digits acc b s = Some n -> 0 <= n.
Proof.
  induction s as [|c r IH]; simpl; intros acc b n Hacc H.
  - destruct b; congruence.
  - destruct (Text.isdecimal_char c) eqn:Hc.
    + pose proof (decimal_value_bounds c Hc).
      apply (IH (10 * acc + Text.digit_value c) true n); [lia|done].
    + destruct (Ascii.eqb c "_" && b); [eauto|done].
Qed.

Lemma digit_not_int_space c :
  Text.isdigit_char c = true -> Text.isspace_int_char c = false.
Proof. char_cases c. Qed.

Lemma rstrip_int_digits s :
  Text.forallb_str Text.isdigit_char s = true -> Text.rstrip_int s = s.
Proof.
  induction s as [|c r IH]; simpl; [done|].
  intros [Hc Hr]%andb_prop. rewrite (IH Hr), (digit_not_int_space c Hc). done.
Qed.

Lemma strip_int_digits s :
  Text.forallb_str Text.isdigit_char s = true -> Text.strip_int s = s.
Proof.
  intros H. unfold Text.strip_int.
  destruct s as [|c r]; [done|]. simpl in H.
  apply andb_prop in H as [Hc Hr].
  cbn [Text.lstrip_int]. rewrite (digit_not_int_space c Hc).
  apply rstrip_int_digits. simpl. by rewrite Hc, Hr.
Qed.

(** Of a run of decimal digits the limit counts every character. *)
Lemma count_decimal_run s :
  Text.forallb_str Text.isdecimal_char s = true ->
  Text.count_decimal s = Z.of_nat (String.length s).
Proof.
  induction s as [|c r IH]; [done|].
  cbn [Text.forallb_str Text.count_decimal String.length].
  intros [-> Hr]%andb_prop. rewrite (IH Hr). lia.
Qed.

Lemma decimal_run_is_digits s :
  Text.forallb_str Text.isdecimal_char s = true ->
  Text.forallb_str Text.isdigit_char s = true.
Proof.
  induction s as [|c r IH]; simpl; [done|].
  intros [Hc Hr]%andb_prop. by rewrite (decimal_is_digit c Hc), IH.
Qed.

(** [int()] of an all-digit text, when it succeeds, is not negative. *)
Lemma int_of_digits_nonneg s n :
  Text.isdigit s = true -> Text.int_of_str s = Some n -> 0 <= n.
Proof.
  unfold Text.isdigit, Text.int_of_str. intros [_ Hs]%andb_prop. cbv zeta.
  rewrite (strip_int_digits s Hs).
  destruct (Text.int_max_str_digits <? Text.count_decimal s); [done|].
  destruct s as [|c r]; [done|].
  simpl in Hs. apply andb_prop in Hs as [Hc _].
  destruct (digit_not_sign c Hc) as [-> ->].
  apply int_digits_nonneg. lia.
Qed.

(** The text matched by [^\d{4}] converts to a number from 0 to 9999. *)
Lemma int_of_four_digits t g :
  Text.re_match_4digits t = Some g ->
  exists n, Text.int_of_str g = Some n /\ 0 <= n <= 9999.
Proof.
  unfold Text.re_match_4digits.
  destruct t as [|a [|b [|c [|d r]]]]; try done.
  destruct (Text.isdecimal_char a) eqn:Ha; [|done].
  destruct (Text.isdecimal_char b) eqn:Hb; [|done].
  destruct (Text.isdecimal_char c) eqn:Hc; [|done].
  destruct (Text.isdecimal_char d) eqn:Hd; [|done].
  simpl. intros [= <-].
  unfold Text.int_of_str. cbv zeta. rewrite strip_int_digits.
  2:{ simpl. by rewrite !decimal_is_digit. }
  destruct (digit_not_sign a (decimal_is_digit a Ha)) as [-> ->].
  cbn [Text.count_decimal Text.int_digits]. rewrite Ha, Hb, Hc, Hd.
  change (Text.int_max_str_digits <? 1 + (1 + (1 + (1 + 0)))) with false.
  cbv iota.
  eexists; split; [reflexivity|].
  pose proof (decimal_value_bounds a Ha). pose proof (decimal_value_bounds b Hb).
  pose proof (decimal_value_bounds c Hc). pose proof (decimal_value_bounds d Hd).
  lia.
Qed.

(** ** The year rule *)

Example year_open_range :
  detail_year_val no_objects (VStr "1999-") = VInt 1999.
Proof. reflexivity. Qed.

Example year_superscript_digit :
  detail_year_val no_objects (VStr (String (ascii_of_N 178) "")) = VNone.
Proof. reflexivity. Qed.

Example year_of_list :
  detail_year_val no_objects (VList [VStr "1999"]) = VNone.
Proof. reflexivity. Qed.

Example year_of_bool : detail_year_val no_objects (VBool true) = VBool true.
Proof. reflexivity. Qed.

Lemma str_isdigit_false year :
  isinstance_str year && str_isdigit year = false -> str_isdigit year = false.
Proof. by destruct year. Qed.

Lemma detail_year_val_outcome O year :
  year_outcome O year (detail_year_val O year).
Proof.
  unfold detail_year_val.
  destruct (isinstance_int year) eqn:Hint; simpl.
  { by apply year_integer. }
  destruct (isinstance_str year && str_isdigit year) eqn:Hdig.
  - apply andb_prop in Hdig as [_ Hdig].
    destruct year as [| | |s| | | |]; try done. simpl in *.
    unfold py_int_of_str. destruct (Text.int_of_str s) as [n|] eqn:Hn; simpl.
    + eapply year_digits; eauto using int_of_digits_nonneg.
    + by eapply year_digits_refused.
  - apply str_isdigit_false in Hdig.
    destruct (is_none year) eqn:Hnone; simpl.
    { apply year_missing. by destruct year. }
    assert (Hyear : year <> VNone) by (by destruct year).
    destruct (py_str O year) as [t|e] eqn:Ht; simpl; [|by eapply year_no_text].
    destruct (Text.re_match_4digits t) as [g|] eqn:Hg; simpl;
      [|by eapply year_no_prefix].
    destruct (int_of_four_digits t g Hg) as (n & Hn & Hb).
    unfold py_int_of_str. rewrite Hn. simpl.
    by eapply year_prefix.
Qed.

(** The branches exclude one another: an outcome of the year rule is
    the one the code computes. *)
Lemma year_outcome_is_year_val O year v :
  year_outcome O year v -> v = detail_year_val O year.
Proof.
  unfold detail_year_val.
  destruct 1 as [Hint|s n -> Hdig Hn _|s -> Hdig Hn| ->
                |t g n Hint Hdig Hyear Ht Hg Hn _|t Hint Hdig Hyear Ht Hg
                |e Hint Hdig Hyear Ht].
  - by rewrite Hint.
  - simpl. rewrite Hdig. simpl. unfold py_int_of_str. by rewrite Hn.
  - simpl. rewrite Hdig. simpl. unfold py_int_of_str. by rewrite Hn.
  - reflexivity.
  - rewrite Hint, Hdig, andb_false_r.
    assert (is_none year = false) as -> by (by destruct year).
    simpl. rewrite Ht. simpl. rewrite Hg. simpl.
    unfold py_int_of_str. by rewrite Hn.
  - rewrite Hint, Hdig, andb_false_r.
    assert (is_none year = false) as -> by (by destruct year).
    simpl. rewrite Ht. simpl. by rewrite Hg.
  - rewrite Hint, Hdig, andb_false_r.
    assert (is_none year = false) as -> by (by destruct year).
    simpl. by rewrite Ht.
Qed.

(** An all-digit text of five digits is converted whole: its first
    four digits are no outcome. *)
Example year_of_five_digits :
  year_outcome no_objects (VStr "19999") (VInt 19999)
  /\ ~ year_outcome no_objects (VStr "19999") (VInt 1999).
Proof.
  split.
  - apply (detail_year_val_outcome no_objects (VStr "19999")).
  - intros H%year_outcome_is_year_val. discriminate H.
Qed.

(** C10: the year block inlined in [search_and_save] (lines 305-316)
    gives, for every value of [year], the same result as the year block
    of [_normalize_detail_obj] (lines 108-118). *)
Theorem search_year_val_agrees (O : objects) (year : pyval) :
  search_year_val O year = detail_year_val O year.
Proof.
  unfold search_year_val, detail_year_val.
  destruct (isinstance_int year); [reflexivity|].
  destruct (isinstance_str year && str_isdigit year); [reflexivity|].
  destruct (is_none year); simpl; [reflexivity|].
  destruct (py_str O year); reflexivity.
Qed.

(** C4, as stated, fails: a mapping whose Year is the text "12" is
    normalized to the integer 12, which is neither null nor a
    four-digit integer. *)
Lemma year_of_two_digit_text :
  exists d,
    _normalize_detail_obj no_objects
      (VDict [("Title", VStr "Ben-Hur"); ("Year", VStr "12")]) = Ok d
    /\ dict_get d "Year" = VInt 12
    /\ ~ year_null_or_four_digits (dict_get d "Year").
Proof.
  eexists. split; [reflexivity|]. split; [reflexivity|].
  intros [H | (n & H & Hn)]; vm_compute in H; [discriminate|].
  injection H as H. subst n. lia.
Qed.

(** C4, amended: the Year of a normalized payload is fixed by the
    payload's year value, through exactly one of these branches.  An
    integer, a boolean included, passes through unchanged, whatever its
    size or sign.  A text of digits only ([str.isdigit]) is converted
    whole by [int()], so "19999" gives 19999 and "12" gives 12; it gives
    null when [int()] refuses it (a superscript digit, more than 4300
    digits).  [None] gives null.  Any other value is stringified, and
    gives the integer of its first four characters when they are decimal
    digits, null when they are not or when [str()] raises.  So a year
    that is no integer and no all-digit text comes out null or as an
    integer from 0 to 9999.  The one payload without a Year is [None],
    which is normalized to the empty mapping. *)
Theorem normalized_year_outcome (O : objects) (detail : pyval) (d : pydict) :
  _normalize_detail_obj O detail = Ok d ->
  (detail = VNone /\ d = [])
  \/ exists f,
       detail_raw_fields O detail = Ok f
       /\ (forall v, year_outcome O (f_year f) v <-> dict_get d "Year" = v)
       /\ (isinstance_int (f_year f) = false ->
           str_isdigit (f_year f) = false ->
           dict_get d "Year" = VNone
           \/ exists n, dict_get d "Year" = VInt n /\ 0 <= n <= 9999).
Proof.
  unfold _normalize_detail_obj.
  destruct (is_none detail) eqn:Hnone.
  { intros [= <-]. left. by destruct detail. }
  destruct (detail_raw_fields O detail) as [f|e]; simpl; [|done].
  destruct (detail_genre_list O (f_genres f)); simpl; [|done].
  intros [= <-]. right. exists f. split; [done|].
  cbn [dict_get String.eqb Ascii.eqb Bool.eqb].
  split.
  - intros v. split.
    + intros H. symmetry. by apply year_outcome_is_year_val.
    + intros <-. apply detail_year_val_outcome.
  - intros Hint Hdig.
    pose proof (detail_year_val_outcome O (f_year f)) as H.
    remember (detail_year_val O (f_year f)) as v eqn:Hv. clear Hv.
    destruct H as [Hint'|s n Hs Hdig' _ _|s Hs Hdig' _| _
                  |t g n _ _ _ _ _ _ Hn| |]; try (by left).
    + congruence.
    + rewrite Hs in Hdig. simpl in Hdig. congruence.
    + right. by exists n.
Qed.

Lemma normalized_year_outcome_witness :
  (VDict [("Year", VStr "1999-2003")] = VNone
   /\ [("Title", VNone); ("Year", VInt 1999); ("imdbID", VNone);
       ("Plot", VNone); ("RuntimeMinutes", VNone); ("Genres", VList [])] = [])
  \/ exists f,
       detail_raw_fields no_objects (VDict [("Year", VStr "1999-2003")]) = Ok f
       /\ (forall v, year_outcome no_objects (f_year f) v <-> VInt 1999 = v)
       /\ (isinstance_int (f_year f) = false ->
           str_isdigit (f_year f) = false ->
           VInt 1999 = VNone \/ exists n, VInt 1999 = VInt n /\ 0 <= n <= 9999).
Proof.
  exact (normalized_year_outcome no_objects (VDict [("Year", VStr "1999-2003")])
           [("Title", VNone); ("Year", VInt 1999); ("imdbID", VNone);
            ("Plot", VNone); ("RuntimeMinutes", VNone); ("Genres", VList [])]
           eq_refl).
Defined.

(** ** The genre rule *)

Lemma stripped_parts_filter parts :
  stripped_parts parts
  = List.filter (fun p => negb (Text.is_empty p)) (Text.strip <$> parts).
Proof.
  induction parts as [|g r IH]; simpl; [done|].
  destruct (negb (Text.is_empty (Text.strip g))); simpl; by rewrite IH.
Qed.

Lemma stripped_items_filter O l :
  stripped_items O l
  = (let? texts := rmap (py_str O) l in
     Ok (List.filter (fun p => negb (Text.is_empty p)) (Text.strip <$> texts))).
Proof.
  induction l as [|g r IH]; simpl; [done|].
  destruct (py_str O g) as [t|e]; simpl; [|done].
  rewrite IH. clear IH.
  destruct (rmap (py_str O) r) as [texts|e]; simpl.
  - by destruct (negb (Text.is_empty (Text.strip t))).
  - by destruct (negb (Text.is_empty (Text.strip t))).
Qed.

(** C8, as stated, fails: a sequence is not mapped to its elements
    stringified and trimmed, because elements that are empty once
    trimmed are left out. *)
Lemma blank_genre_element_dropped :
  detail_genre_list no_objects (VList [VStr "Action"; VStr " "]) = Ok ["Action"]
  /\ genre_rule_as_specified no_objects (VList [VStr "Action"; VStr " "])
     = Ok ["Action"; ""]
  /\ detail_genre_list no_objects (VList [VStr "Action"; VStr " "])
     <> genre_rule_as_specified no_objects (VList [VStr "Action"; VStr " "]).
Proof.
  split; [reflexivity|]. split; [reflexivity|].
  intros H. vm_compute in H. discriminate H.
Qed.

(** C8, amended: a comma-separated text gives its trimmed non-empty
    parts, a list or tuple gives its elements stringified and trimmed
    without those that are empty once trimmed, and anything else gives
    the empty sequence; "Action, Drama" gives ["Action"; "Drama"], []
    gives [] and null gives []. *)
Theorem detail_genre_list_rule (O : objects) (genres : pyval) :
  detail_genre_list O genres = genre_rule O genres
  /\ detail_genre_list O (VStr "Action, Drama") = Ok ["Action"; "Drama"]
  /\ detail_genre_list O (VList []) = Ok []
  /\ detail_genre_list O VNone = Ok [].
Proof.
  repeat split.
  destruct genres; simpl; try reflexivity;
    auto using stripped_parts_filter, stripped_items_filter.
  f_equal. apply stripped_parts_filter.
Qed.

(** ** The Detail Normalizer *)

Example normalize_mapping :
  _normalize_detail_obj no_objects
    (VDict [("Title", VStr "Heat"); ("Year", VStr "1995");
            ("imdbID", VStr "tt0113277"); ("Runtime", VStr "170 min");
            ("Genre", VStr "Action, Crime, Drama")])
  = Ok [("Title", VStr "Heat"); ("Year", VInt 1995);
        ("imdbID", VStr "tt0113277"); ("Plot", VNone);
        ("RuntimeMinutes", VInt 170);
        ("Genres", VList [VStr "Action"; VStr "Crime"; VStr "Drama"])].
Proof. reflexivity. Qed.

Example normalize_text :
  _normalize_detail_obj no_objects (VStr "Heat")
  = Ok [("Title", VStr "Heat"); ("Year", VNone); ("imdbID", VNone);
        ("Plot", VNone); ("RuntimeMinutes", VNone); ("Genres", VList [])].
Proof. reflexivity. Qed.

Example normalize_object :
  _normalize_detail_obj plain_detail_objects (VObj 0%nat)
  = Ok [("Title", VStr "Heat"); ("Year", VInt 1995);
        ("imdbID", VStr "tt0113277"); ("Plot", VNone);
        ("RuntimeMinutes", VNone);
        ("Genres", VList [VStr "Crime"; VStr "Drama"])].
Proof. reflexivity. Qed.

(** Induction on values that reaches inside lists, tuples and
    mappings. *)
Lemma pyval_nested_ind (P : pyval -> Prop) :
  P VNone -> (forall b, P (VBool b)) -> (forall z, P (VInt z)) ->
  (forall s, P (VStr s)) ->
  (forall l, Forall P l -> P (VList l)) ->
  (forall l, Forall P l -> P (VTuple l)) ->
  (forall d, Forall (fun kv => P kv.2) d -> P (VDict d)) ->
  (forall r, P (VObj r)) ->
  forall v, P v.
Proof.
  intros HN HB HI HS HL HT HD HO.
  fix IH 1.
  intros [| b | z | s | l | l | d | r];
    [apply HN | apply HB | apply HI | apply HS | | | | apply HO].
  - apply HL. induction l as [|x l IHl]; constructor; [apply IH | apply IHl].
  - apply HT. induction l as [|x l IHl]; constructor; [apply IH | apply IHl].
  - apply HD. induction d as [|[k x] d IHd]; constructor; [apply IH | apply IHd].
Qed.






Lemma ror_ok O a b x y :
  a = Ok x -> b = Ok y -> ror O a b = Ok (py_or O x y).
Proof. intros -> ->. unfold ror, py_or. simpl. by destruct (truthy O x). Qed.





Example normalize_huge_genre :
  _normalize_detail_obj no_objects (VDict [("Genre", VList [VInt (10 ^ 4300)])])
  = Raise ValueError.
Proof. vm_compute. reflexivity. Qed.




(** ** Enriching one record *)

(** C7: on a record whose [is_full_record] flag is set,
    [fill_movie_details] leaves the record, the Movie table, the genre
    associations and the Genre table as they are and contacts nothing
    upstream; it writes one log line and returns. *)
Theorem fill_movie_details_full_record (E : env) (movie : movie_rec) (w : world) :
  m_is_full_record movie = true ->
  exists w',
    fill_movie_details E movie w = (Ok movie, w')
    /\ w_movies w' = w_movies w
    /\ w_movie_genres w' = w_movie_genres w
    /\ w_genres w' = w_genres w
    /\ w_search_terms w' = w_search_terms w
    /\ w_events w' = w_events w
    /\ w_log w' = (w_log w ++ [Log WARNING "'%s' is already a full record." [m_title movie]])%list.
Proof.
  intros Hfull. unfold fill_movie_details. rewrite Hfull.
  eexists. split; [reflexivity|]. repeat split.
Qed.

Lemma fill_movie_details_full_record_witness :
  m_is_full_record heat_full = true
  /\ exists w',
       fill_movie_details keyword_only_env heat_full heat_world = (Ok heat_full, w')
       /\ w_movies w' = w_movies heat_world
       /\ w_movie_genres w' = w_movie_genres heat_world
       /\ w_genres w' = w_genres heat_world
       /\ w_search_terms w' = w_search_terms heat_world
       /\ w_events w' = w_events heat_world
       /\ w_log w' = (w_log heat_world
                      ++ [Log WARNING "'%s' is already a full record." [m_title heat_full]])%list.
Proof.
  split; [reflexivity|].
  exact (fill_movie_details_full_record keyword_only_env heat_full heat_world eq_refl).
Defined.

(** ** The Method-Probing Resolver *)

(** C1: with a client whose [get_by_imdb_id] rejects a positional
    argument ([TypeError]) and raises [ValueError] when called with
    [imdbid=...], [_fetch_by_imdb_id] raises that [ValueError] after
    two upstream calls instead of moving on to the next candidate. *)
Theorem fetch_by_imdb_id_raises :
  exists w',
    _fetch_by_imdb_id keyword_only_env (VObj 0%nat) (VStr "tt1853728") (empty_world 0)
    = (Raise ValueError, w')
    /\ w_events w'
       = [ClientCall "get_by_imdb_id" (positional (VStr "tt1853728"));
          ClientCall "get_by_imdb_id" (keyword "imdbid" (VStr "tt1853728"))].
Proof. eexists. split; reflexivity. Qed.

(** The same failure under the third convention, [id=...], is caught:
    the resolver goes on to the HTTP fallback, which finds no API key
    and returns null. *)
Example fetch_by_imdb_id_id_keyword :
  exists w',
    _fetch_by_imdb_id id_keyword_env (VObj 0%nat) (VStr "tt1853728") (empty_world 0)
    = (Ok VNone, w')
    /\ w_events w'
       = [ClientCall "get_by_imdb_id" (positional (VStr "tt1853728"));
          ClientCall "get_by_imdb_id" (keyword "imdbid" (VStr "tt1853728"));
          ClientCall "get_by_imdb_id" (keyword "id" (VStr "tt1853728"))].
Proof. eexists. split; reflexivity. Qed.

(** The exception reaches the caller of [fill_movie_details]. *)
Example fill_movie_details_raises :
  (fill_movie_details keyword_only_env heat_partial (empty_world 0)).1
  = Raise ValueError.
Proof. reflexivity. Qed.

(** ** What a step may change *)

Section Frame.

Context (R : relation world) `{!PreOrder R}.
Hypothesis R_log : forall l w, R w (add_log l w).
Hypothesis R_event : forall ev w, R w (add_event ev w).
Hypothesis R_movies : forall ms w, R w (set_movies ms w).

Lemma respects_pure {A} (a : A) : respects R (pure a).
Proof. intros w. reflexivity. Qed.

Lemma respects_raise {A} e : respects R (@raise A e).
Proof. intros w. reflexivity. Qed.

Lemma respects_lift {A} (r : result A) : respects R (lift r).
Proof. intros w. reflexivity. Qed.

Lemma respects_log lv fmt args : respects R (log lv fmt args).
Proof. intros w. apply R_log. Qed.

Lemma respects_bind {A B} (m : M A) (k : A -> M B) :
  respects R m -> (forall a, respects R (k a)) -> respects R (bindM m k).
Proof.
  intros Hm Hk w. unfold bindM. specialize (Hm w).
  destruct (m w) as [[a|e] w1]; simpl in *; [|done].
  etrans; [exact Hm|]. apply Hk.
Qed.

Lemma respects_attempt {A} (m : M A) : respects R m -> respects R (attempt m).
Proof.
  intros Hm w. unfold attempt. specialize (Hm w). by destruct (m w).
Qed.

Lemma respects_client_call E name getter c :
  respects R (client_call E name getter c).
Proof.
  intros w. unfold client_call.
  destruct (callable (e_objects E) getter); simpl; [apply R_event|reflexivity].
Qed.

Lemma respects_movie_get_or_create imdb_id title year :
  respects R (movie_get_or_create imdb_id title year).
Proof.
  intros w. unfold movie_get_or_create.
  destruct (List.find _ _); simpl; [reflexivity|apply R_movies].
Qed.

Ltac respects_step :=
  lazymatch goal with
  | |- respects _ (bindM _ _) => apply respects_bind; [|intros ?]
  | |- respects _ (pure _) => apply respects_pure
  | |- respects _ (raise _) => apply respects_raise
  | |- respects _ (lift _) => apply respects_lift
  | |- respects _ (log _ _ _) => apply respects_log
  | |- respects _ (attempt _) => apply respects_attempt
  | |- respects _ (client_call _ _ _ _) => apply respects_client_call
  | |- respects _ (movie_get_or_create _ _ _) => apply respects_movie_get_or_create
  | |- respects _ (if ?b then _ else _) => destruct b
  | |- respects _ (match ?x with _ => _ end) => destruct x
  end.

Lemma respects_title_attempt E item name getter :
  respects R (title_attempt E item name getter).
Proof. unfold title_attempt. repeat respects_step. Qed.

Lemma respects_lookup_by_title E client item names :
  respects R (lookup_by_title E client item names).
Proof.
  induction names as [|name rest IH]; cbn [lookup_by_title].
  - apply respects_pure.
  - apply respects_bind; [apply respects_lift|intros getter].
    apply respects_bind;
      [apply respects_attempt, respects_title_attempt|intros r].
    destruct r as [[d|]|e]; [apply respects_pure|exact IH|].
    destruct (is_type_error e); [exact IH|]. repeat respects_step.
Qed.

Lemma respects_normalize_search_item E item client :
  respects R (_normalize_search_item E item client).
Proof.
  unfold _normalize_search_item.
  destruct item; try apply respects_lift; try apply respects_pure.
  apply respects_lookup_by_title.
Qed.

Lemma respects_resolve_missing_id E client imdb_id title year :
  respects R (resolve_missing_id E client imdb_id title year).
Proof. unfold resolve_missing_id. repeat respects_step. Qed.

Lemma respects_save_item E client raw :
  respects R (save_item E client raw).
Proof.
  unfold save_item.
  apply respects_bind; [apply respects_normalize_search_item|intros data].
  destruct (negb _); [apply respects_pure|].
  destruct (_ && _); [apply respects_pure|].
  apply respects_bind; [apply respects_resolve_missing_id|intros [[i t] y]].
  repeat respects_step.
Qed.

Lemma respects_for_each {A} (f : A -> M unit) l :
  (forall x, respects R (f x)) -> respects R (for_each f l).
Proof.
  intros Hf. induction l as [|x l IH]; cbn [for_each].
  - apply respects_pure.
  - apply respects_bind; [apply Hf|intros _; exact IH].
Qed.

Lemma respects_unwrap_envelope E results :
  respects R (unwrap_envelope E results).
Proof. unfold unwrap_envelope. repeat respects_step. Qed.

Lemma respects_save_results E term found :
  respects R (save_results E term found).
Proof.
  unfold save_results.
  apply respects_bind; [apply respects_unwrap_envelope|intros results].
  apply respects_bind; [repeat respects_step|intros _].
  apply respects_bind; [apply respects_lift|intros items].
  apply respects_for_each. intros raw. apply respects_save_item.
Qed.

End Frame.

Global Instance traffic_added_preorder : PreOrder traffic_added.
Proof.
  split.
  - intros w. split; [exists []; by rewrite app_nil_r|done].
  - intros w1 w2 w3 ([e1 H1] & Ht1 & Hn1) ([e2 H2] & Ht2 & Hn2).
    split; [|split; congruence].
    exists (e1 ++ e2)%list. by rewrite H2, H1, app_assoc.
Qed.

Lemma save_results_traffic E term found :
  respects traffic_added (save_results E term found).
Proof.
  apply respects_save_results; try apply _.
  - intros l w. split; [exists []; simpl; by rewrite app_nil_r|done].
  - intros ev w. split; [by exists [ev]|done].
  - intros ms w. split; [exists []; simpl; by rewrite app_nil_r|done].
Qed.

(** ** The search cycle *)

(** [search_and_save] by cases on the SearchTerm record it finds. *)
Lemma search_and_save_cases E search w :
  search_and_save E search w =
  let term := Text.re_sub_ws (Text.lower search) in
  match w_search_terms w !! term with
  | None =>
      run_search E search term
        (set_search_terms (<[term := None]> (w_search_terms w)) w)
  | Some last_search =>
      if recent false last_search (w_now w)
      then if truthy (e_objects E) (_should_override_cache_guard E)
           then run_search E search term (add_log (override_line term) w)
           else (Ok tt, add_log (skip_line term) w)
      else run_search E search term w
  end.
Proof.
  unfold search_and_save, bindM, search_term_get_or_create, now. cbv zeta.
  destruct (w_search_terms w !! _) as [last|]; simpl; [|reflexivity].
  destruct (recent false last (w_now w)); simpl; [|reflexivity].
  destruct (truthy _ _); reflexivity.
Qed.

(** [run_search] once the client's [search] is known to be callable. *)
Lemma run_search_cases E search term w method :
  py_getattr (e_objects E) (e_client E) "search" = Ok method ->
  callable (e_objects E) method = true ->
  run_search E search term w =
  match py_call (e_objects E) method (positional (VStr search)) with
  | Raise e => (Raise e, search_called search term w)
  | Ok found =>
      match save_results E term found (search_called search term w) with
      | (Ok _, w2) => stamp_search_term term w2
      | (Raise e, w2) => (Raise e, w2)
      end
  end.
Proof.
  intros Hm Hc. unfold run_search, bindM, log, lift, client_call. cbv zeta.
  rewrite Hm. simpl. rewrite Hc.
  destruct (py_call _ _ _) as [found|e]; [|reflexivity].
  unfold search_called.
  destruct (save_results _ _ _ _) as [[[]|e] w2]; reflexivity.
Qed.

(** What a search that reaches the client leaves behind: the call, with
    the text it was given, then more traffic; the record of [term]
    still there; every other SearchTerm record as it was. *)
Lemma run_search_effects E search term w method :
  py_getattr (e_objects E) (e_client E) "search" = Ok method ->
  callable (e_objects E) method = true ->
  let w' := (run_search E search term w).2 in
  (exists evs, w_events w'
               = (w_events w ++ ClientCall "search" (positional (VStr search)) :: evs)%list)
  /\ (forall k, k <> term -> w_search_terms w' !! k = w_search_terms w !! k)
  /\ (is_Some (w_search_terms w !! term) -> is_Some (w_search_terms w' !! term)).
Proof.
  intros Hm Hc. cbv zeta. rewrite (run_search_cases E search term w method Hm Hc).
  destruct (py_call _ _ _) as [found|e]; simpl.
  - pose proof (save_results_traffic E term found (search_called search term w))
      as ([evs Hev] & Hterms & _).
    destruct (save_results _ _ _ _) as [[[]|e] w2]; simpl in *.
    + split; [|split].
      * exists evs. by rewrite Hev, <- app_assoc.
      * intros k Hk. by rewrite lookup_insert_ne, Hterms.
      * intros _. rewrite lookup_insert_eq. by eexists.
    + split; [|split].
      * exists evs. by rewrite Hev, <- app_assoc.
      * intros k _. by rewrite Hterms.
      * by rewrite Hterms.
  - split; [by exists []|]. split; [done|done].
Qed.

(** C6: the search is skipped, with nothing sent upstream and no Movie
    or SearchTerm record touched, when the SearchTerm record existed
    before the call with a [last_search] less than 24 hours old and no
    override is configured; with the same record and an override
    ([OMDB_ALLOW_RESCRAPE] or [DEBUG]) the search proceeds after the
    override line is logged; in every other case it proceeds without a
    guard line; and a search that proceeds calls the client's [search]. *)
Theorem cache_guard_policy (E : env) (search : string) (w : world) :
  let term := Text.re_sub_ws (Text.lower search) in
  let recently :=
    exists t, w_search_terms w !! term = Some (Some t) /\ w_now w - one_day < t in
  let override := truthy (e_objects E) (_should_override_cache_guard E) in
  (recently -> override = false ->
   exists w',
     search_and_save E search w = (Ok tt, w')
     /\ w_events w' = w_events w
     /\ w_movies w' = w_movies w
     /\ w_search_terms w' = w_search_terms w
     /\ w_log w' = (w_log w ++ [skip_line term])%list)
  /\ (recently -> override = true ->
      search_and_save E search w
      = run_search E search term (add_log (override_line term) w))
  /\ (~ recently ->
      exists w1,
        search_and_save E search w = run_search E search term w1
        /\ w_events w1 = w_events w
        /\ w_movies w1 = w_movies w
        /\ w_log w1 = w_log w)
  /\ (forall method w1,
        py_getattr (e_objects E) (e_client E) "search" = Ok method ->
        callable (e_objects E) method = true ->
        exists evs,
          w_events (run_search E search term w1).2
          = (w_events w1 ++ ClientCall "search" (positional (VStr search)) :: evs)%list).
Proof.
  cbv zeta. rewrite search_and_save_cases. cbv zeta.
  split; [|split; [|split]].
  - intros (t & Ht & Hrecent) Hover. rewrite Ht, Hover.
    unfold recent. simpl.
    destruct (Z.ltb_spec (w_now w - one_day) t); [|lia].
    eexists. split; [reflexivity|]. by repeat split.
  - intros (t & Ht & Hrecent) Hover. rewrite Ht, Hover.
    unfold recent. simpl.
    by destruct (Z.ltb_spec (w_now w - one_day) t); [|lia].
  - intros Hnot.
    destruct (w_search_terms w !! _) as [[t|]|] eqn:Hlook.
    + unfold recent. simpl.
      destruct (Z.ltb_spec (w_now w - one_day) t).
      * destruct Hnot. by exists t.
      * by exists w.
    + by exists w.
    + eexists. split; [reflexivity|]. by repeat split.
  - intros method w1 Hm Hc.
    apply (run_search_effects E search _ w1 method Hm Hc).
Qed.

Lemma cache_guard_policy_witness :
  (exists t, w_search_terms searched_23h_ago !! "the matrix" = Some (Some t)
             /\ w_now searched_23h_ago - one_day < t)
  /\ (exists w',
        search_and_save (omdb_env api_key_settings answer_one_hit)
          "The  Matrix" searched_23h_ago = (Ok tt, w')
        /\ w_events w' = w_events searched_23h_ago
        /\ w_movies w' = w_movies searched_23h_ago
        /\ w_search_terms w' = w_search_terms searched_23h_ago
        /\ w_log w' = (w_log searched_23h_ago ++ [skip_line "the matrix"])%list)
  /\ search_and_save (omdb_env debug_settings answer_one_hit)
       "The  Matrix" searched_23h_ago
     = run_search (omdb_env debug_settings answer_one_hit) "The  Matrix"
         "the matrix" (add_log (override_line "the matrix") searched_23h_ago).
Proof.
  assert (Hrecent : exists t,
            w_search_terms searched_23h_ago !! "the matrix" = Some (Some t)
            /\ w_now searched_23h_ago - one_day < t).
  { exists (25 * hour). split; [reflexivity|]. vm_compute. reflexivity. }
  split; [exact Hrecent|]. split.
  - exact (proj1 (cache_guard_policy (omdb_env api_key_settings answer_one_hit)
                    "The  Matrix" searched_23h_ago) Hrecent eq_refl).
  - exact (proj1 (proj2 (cache_guard_policy (omdb_env debug_settings answer_one_hit)
                           "The  Matrix" searched_23h_ago)) Hrecent eq_refl).
Defined.

Example search_saves_one_movie :
  exists w',
    search_and_save (omdb_env api_key_settings answer_one_hit) "The  Matrix"
      (empty_world (48 * hour)) = (Ok tt, w')
    /\ w_movies w' = [Movie (VStr "tt0133093") (VStr "The Matrix") (VInt 1999)
                            VNone VNone false]
    /\ w_search_terms w' !! "the matrix" = Some (Some (48 * hour))
    /\ w_events w' = [ClientCall "search" (positional (VStr "The  Matrix"))].
Proof. eexists. split; [vm_compute; reflexivity|]. repeat split. Qed.

(** C9: the SearchTerm record that [search_and_save] looks up, creates
    and stamps is the one of the normalized term (lowercased,
    whitespace runs collapsed): no other record changes, and the record
    of the term is there afterwards.  The Cache Guard decides on that
    record, so two queries with the same normalized term are both
    skipped or both searched.  When they are skipped nothing is sent
    upstream and no SearchTerm record changes; when they are searched,
    the first thing each sends upstream is the client's [search] called
    with the query as given, not the normalized term, so that queries
    that differ leave different traffic behind. *)
Theorem search_term_key_and_upstream_query (E : env) (q1 q2 : string)
    (w : world) (method : pyval) :
  Text.re_sub_ws (Text.lower q1) = Text.re_sub_ws (Text.lower q2) ->
  py_getattr (e_objects E) (e_client E) "search" = Ok method ->
  callable (e_objects E) method = true ->
  let term := Text.re_sub_ws (Text.lower q1) in
  let skipped :=
    match w_search_terms w !! term with
    | Some last_search =>
        recent false last_search (w_now w)
        && negb (truthy (e_objects E) (_should_override_cache_guard E))
    | None => false
    end in
  let w1 := (search_and_save E q1 w).2 in
  let w2 := (search_and_save E q2 w).2 in
  (forall k, k <> term ->
     w_search_terms w1 !! k = w_search_terms w !! k
     /\ w_search_terms w2 !! k = w_search_terms w !! k)
  /\ is_Some (w_search_terms w1 !! term)
  /\ is_Some (w_search_terms w2 !! term)
  /\ (skipped = true ->
      w_events w1 = w_events w /\ w_events w2 = w_events w
      /\ w_search_terms w1 = w_search_terms w
      /\ w_search_terms w2 = w_search_terms w)
  /\ (skipped = false ->
      (exists evs1 evs2,
         w_events w1
         = (w_events w ++ ClientCall "search" (positional (VStr q1)) :: evs1)%list
         /\ w_events w2
            = (w_events w ++ ClientCall "search" (positional (VStr q2)) :: evs2)%list)
      /\ (q1 <> q2 -> w_events w1 <> w_events w2)).
Proof.
  intros Hsame Hm Hc. cbv zeta.
  rewrite !search_and_save_cases. cbv zeta. rewrite <- Hsame.
  set (term := Text.re_sub_ws (Text.lower q1)).
  assert (Hrun : forall q w0,
            is_Some (w_search_terms w0 !! term) ->
            w_events w0 = w_events w ->
            (forall k, k <> term -> w_search_terms w0 !! k = w_search_terms w !! k) ->
            (forall k, k <> term ->
               w_search_terms (run_search E q term w0).2 !! k = w_search_terms w !! k)
            /\ is_Some (w_search_terms (run_search E q term w0).2 !! term)
            /\ exists evs,
                 w_events (run_search E q term w0).2
                 = (w_events w ++ ClientCall "search" (positional (VStr q)) :: evs)%list).
  { intros q w0 Hsome Hev Hother.
    destruct (run_search_effects E q term w0 method Hm Hc) as ([evs Hevs] & Hk & Hs).
    split; [|split].
    - intros k Hne. by rewrite Hk, Hother.
    - by apply Hs.
    - exists evs. by rewrite Hevs, Hev. }
  assert (Hsearched : forall w0,
            is_Some (w_search_terms w0 !! term) ->
            w_events w0 = w_events w ->
            (forall k, k <> term -> w_search_terms w0 !! k = w_search_terms w !! k) ->
            (forall k, k <> term ->
               w_search_terms (run_search E q1 term w0).2 !! k = w_search_terms w !! k
               /\ w_search_terms (run_search E q2 term w0).2 !! k
                  = w_search_terms w !! k)
            /\ is_Some (w_search_terms (run_search E q1 term w0).2 !! term)
            /\ is_Some (w_search_terms (run_search E q2 term w0).2 !! term)
            /\ (exists evs1 evs2,
                  w_events (run_search E q1 term w0).2
                  = (w_events w ++ ClientCall "search" (positional (VStr q1)) :: evs1)%list
                  /\ w_events (run_search E q2 term w0).2
                     = (w_events w ++ ClientCall "search" (positional (VStr q2)) :: evs2)%list)
            /\ (q1 <> q2 ->
                w_events (run_search E q1 term w0).2
                <> w_events (run_search E q2 term w0).2)).
  { intros w0 Hsome Hev Hother.
    destruct (Hrun q1 w0 Hsome Hev Hother) as (Hk1 & Hs1 & evs1 & He1).
    destruct (Hrun q2 w0 Hsome Hev Hother) as (Hk2 & Hs2 & evs2 & He2).
    split; [intros k Hne; split; auto|].
    split; [done|]. split; [done|]. split; [by exists evs1, evs2|].
    intros Hne Heq. rewrite He1, He2 in Heq.
    apply app_inv_head in Heq. injection Heq as Heq _. by destruct Hne. }
  destruct (w_search_terms w !! term) as [last|] eqn:Hlook.
  - destruct (recent false last (w_now w)).
    + destruct (truthy _ _); cbn [andb negb].
      * destruct (Hsearched (add_log (override_line term) w))
          as (Hk & Hs1 & Hs2 & Hev & Hdiff);
          [cbn [w_search_terms add_log]; by rewrite Hlook| done | done |].
        split; [done|]. split; [done|]. split; [done|].
        split; [done|]. intros _. by split.
      * cbn [snd w_search_terms w_events add_log]. rewrite Hlook.
        split; [done|]. split; [done|]. split; [done|].
        split; [done|]. done.
    + destruct (Hsearched w) as (Hk & Hs1 & Hs2 & Hev & Hdiff);
        [by rewrite Hlook| done | done |].
      cbn [andb].
      split; [done|]. split; [done|]. split; [done|].
      split; [done|]. intros _. by split.
  - set (w0 := set_search_terms (<[term := None]> (w_search_terms w)) w).
    assert (Hs0 : is_Some (w_search_terms w0 !! term)).
    { simpl. rewrite lookup_insert_eq. by eexists. }
    assert (Hk0 : forall k, k <> term ->
               w_search_terms w0 !! k = w_search_terms w !! k).
    { intros k Hne. simpl. by rewrite lookup_insert_ne. }
    destruct (Hsearched w0) as (Hk & Hs1 & Hs2 & Hev & Hdiff); [done..|].
    split; [done|]. split; [done|]. split; [done|].
    split; [done|]. intros _. by split.
Qed.

Lemma search_term_key_and_upstream_query_witness :
  Text.re_sub_ws (Text.lower "The  Matrix") = Text.re_sub_ws (Text.lower "the matrix")
  /\ "The  Matrix" <> "the matrix"
  /\ let E := omdb_env api_key_settings answer_one_hit in
     let w := empty_world (48 * hour) in
     let w1 := (search_and_save E "The  Matrix" w).2 in
     let w2 := (search_and_save E "the matrix" w).2 in
     is_Some (w_search_terms w1 !! "the matrix")
     /\ is_Some (w_search_terms w2 !! "the matrix")
     /\ (exists evs1 evs2,
           w_events w1
           = (w_events w ++ ClientCall "search" (positional (VStr "The  Matrix")) :: evs1)%list
           /\ w_events w2
              = (w_events w ++ ClientCall "search" (positional (VStr "the matrix")) :: evs2)%list)
     /\ w_events w1 <> w_events w2.
Proof.
  split; [reflexivity|]. split; [discriminate|]. cbv zeta.
  pose proof (search_term_key_and_upstream_query
                (omdb_env api_key_settings answer_one_hit)
                "The  Matrix" "the matrix" (empty_world (48 * hour)) (VObj 1%nat)
                eq_refl eq_refl eq_refl) as (_ & Hs1 & Hs2 & _ & Hsearched).
  destruct (Hsearched eq_refl) as [Hcalls Hdiff].
  split; [exact Hs1|]. split; [exact Hs2|]. split; [exact Hcalls|].
  apply Hdiff. discriminate.
Defined.

(** ** Failures *)



Lemma resolve_missing_id_never_raises E client imdb_id title year resolver w :
  getattr_default (e_objects E) client "get" VNone = Ok resolver ->
  exists t w', resolve_missing_id E client imdb_id title year w = (Ok t, w').
Proof.
  intros Hget. unfold resolve_missing_id. cbv zeta.
  destruct (_ && _); [|by eexists _, _].
  unfold bindM at 1, lift. rewrite Hget.
  destruct (callable _ _); [|by eexists _, _].
  unfold bindM at 1, attempt.
  match goal with |- context [let (_, _) := ?m w in _] => destruct (m w) as [[v|e] w1] end;
    by eexists _, _.
Qed.



(** ** The Search-Item Normalizer *)

Example normalize_text_item_by_keyword :
  exists w',
    _normalize_search_item keyword_get_env (VStr "the matrix") (VObj 0%nat)
      (empty_world 0)
    = (Ok [("Title", VStr "The Matrix"); ("Year", VInt 1999);
           ("imdbID", VStr "tt0133093"); ("Type", VStr "movie")], w')
    /\ w_events w' = [ClientCall "get" (keyword "title" (VStr "the matrix"))].
Proof. eexists. split; reflexivity. Qed.










(** * Further properties *)

(** ** The resolver: what it returns and what it leaves alone *)

Global Instance database_kept_preorder : PreOrder database_kept.
Proof.
  split.
  - intros w. by repeat split.
  - intros w1 w2 w3 (H1 & H2 & H3 & H4 & H5) (K1 & K2 & K3 & K4 & K5).
    repeat split; congruence.
Qed.

Lemma database_kept_log l w : database_kept w (add_log l w).
Proof. by repeat split. Qed.

Lemma database_kept_event ev w : database_kept w (add_event ev w).
Proof. by repeat split. Qed.

Lemma respects_requests_get (R : relation world)
    (R_event : forall ev w, R w (add_event ev w)) E url params :
  respects R (requests_get E url params).
Proof. intros w. apply R_event. Qed.

(** One step of a proof that a computation built from logging, client
    calls and requests respects [R]. *)
Ltac respects_io R_log R_event :=
  lazymatch goal with
  | |- respects _ (bindM _ _) => apply respects_bind; [apply _| |intros ?]
  | |- respects _ (pure _) => apply respects_pure; apply _
  | |- respects _ (raise _) => apply respects_raise; apply _
  | |- respects _ (lift _) => apply respects_lift; apply _
  | |- respects _ (log _ _ _) => apply respects_log; exact R_log
  | |- respects _ (attempt _) => apply respects_attempt
  | |- respects _ (client_call _ _ _ _) =>
      apply respects_client_call; [apply _|exact R_event]
  | |- respects _ (requests_get _ _ _) =>
      apply respects_requests_get; exact R_event
  | |- respects _ (if ?b then _ else _) => destruct b
  | |- respects _ (match ?x with _ => _ end) => destruct x
  end.

Lemma respects_probe_by_id (R : relation world) `{!PreOrder R}
    (R_log : forall l w, R w (add_log l w))
    (R_event : forall ev w, R w (add_event ev w)) E client imdb_id names :
  respects R (probe_by_id E client imdb_id names).
Proof.
  induction names as [|name rest IH]; cbn [probe_by_id].
  - apply respects_pure; apply _.
  - apply respects_bind; [apply _|apply respects_lift; apply _|intros getter].
    destruct (negb _); [exact IH|].
    apply respects_bind; [apply _| |intros [v|e1]].
    { apply respects_attempt, respects_client_call; [apply _|exact R_event]. }
    { apply respects_pure; apply _. }
    destruct (is_type_error e1); [|exact IH].
    apply respects_bind; [apply _| |intros [v|e2]].
    { apply respects_attempt, respects_client_call; [apply _|exact R_event]. }
    { apply respects_pure; apply _. }
    destruct (is_type_error e2); [|apply respects_raise; apply _].
    apply respects_bind; [apply _| |intros [v|e3]].
    { apply respects_attempt, respects_client_call; [apply _|exact R_event]. }
    { apply respects_pure; apply _. }
    exact IH.
Qed.

Lemma respects_http_fallback (R : relation world) `{!PreOrder R}
    (R_log : forall l w, R w (add_log l w))
    (R_event : forall ev w, R w (add_event ev w)) E imdb_id :
  respects R (http_fallback E imdb_id).
Proof.
  unfold http_fallback. cbv zeta. repeat respects_io R_log R_event.
Qed.

Lemma respects_fetch_by_imdb_id (R : relation world) `{!PreOrder R}
    (R_log : forall l w, R w (add_log l w))
    (R_event : forall ev w, R w (add_event ev w)) E client imdb_id :
  respects R (_fetch_by_imdb_id E client imdb_id).
Proof.
  unfold _fetch_by_imdb_id.
  apply respects_bind; [apply _|by apply respects_probe_by_id|intros [v|]].
  - apply respects_pure; apply _.
  - by apply respects_http_fallback.
Qed.

(** [_fetch_by_imdb_id] writes to the log and talks to the client and
    to the API, and to nothing else: whatever the client does and
    however the call ends, the Movie, Genre and SearchTerm records and
    the genre associations are as they were. *)
Theorem fetch_by_imdb_id_keeps_database (E : env) (client imdb_id : pyval)
    (w : world) :
  database_kept w (_fetch_by_imdb_id E client imdb_id w).2.
Proof.
  apply respects_fetch_by_imdb_id;
    [apply _ | apply database_kept_log | apply database_kept_event].
Qed.

(** The probing loop over names none of which is a callable attribute
    of the client makes no call and returns nothing. *)
Lemma probe_by_id_without_candidates E client imdb_id names w :
  (forall name, name ∈ names ->
     exists g, getattr_default (e_objects E) client name VNone = Ok g
               /\ callable (e_objects E) g = false) ->
  probe_by_id E client imdb_id names w = (Ok None, w).
Proof.
  induction names as [|name rest IH]; intros Hall; [reflexivity|].
  cbn [probe_by_id]. unfold bindM at 1, lift.
  destruct (Hall name) as (g & -> & ->); [apply list_elem_of_here|]. simpl.
  apply IH. intros n Hn. apply Hall. by apply list_elem_of_further.
Qed.

(** When none of the seven candidate names is a callable attribute of
    the client, [_fetch_by_imdb_id] is the HTTP fallback and nothing
    else: no client call is made. *)
Theorem fetch_without_candidates_is_fallback (E : env) (client imdb_id : pyval)
    (w : world) :
  (forall name, name ∈ by_id_names ->
     exists g, getattr_default (e_objects E) client name VNone = Ok g
               /\ callable (e_objects E) g = false) ->
  _fetch_by_imdb_id E client imdb_id w = http_fallback E imdb_id w.
Proof.
  intros Hall. unfold _fetch_by_imdb_id, bindM.
  by rewrite (probe_by_id_without_candidates E client imdb_id by_id_names w Hall).
Qed.

Lemma fetch_without_candidates_is_fallback_witness :
  _fetch_by_imdb_id (omdb_env api_key_settings answer_heat) (VObj 0%nat)
    (VStr "tt0113277") (empty_world 0)
  = http_fallback (omdb_env api_key_settings answer_heat) (VStr "tt0113277")
      (empty_world 0).
Proof.
  apply (fetch_without_candidates_is_fallback
           (omdb_env api_key_settings answer_heat) (VObj 0%nat)
           (VStr "tt0113277") (empty_world 0)).
  intros name Hin. exists VNone. split; [|reflexivity].
  unfold by_id_names in Hin.
  repeat (apply elem_of_cons in Hin as [->|Hin]; [reflexivity|]).
  by apply elem_of_nil in Hin.
Defined.

(** The loop skips the names that are no callable attribute. *)
Lemma probe_by_id_skip E client imdb_id pre rest w :
  (forall name, name ∈ pre ->
     exists g, getattr_default (e_objects E) client name VNone = Ok g
               /\ callable (e_objects E) g = false) ->
  probe_by_id E client imdb_id (pre ++ rest) w
  = probe_by_id E client imdb_id rest w.
Proof.
  induction pre as [|name pre IH]; intros Hall; [reflexivity|].
  cbn [app probe_by_id]. unfold bindM at 1, lift.
  destruct (Hall name) as (g & -> & ->); [apply list_elem_of_here|]. simpl.
  apply IH. intros n Hn. apply Hall. by apply list_elem_of_further.
Qed.

(** The first candidate that is callable and does not raise decides:
    its result is returned as it is, null included, after that one
    call; no later candidate is called and no HTTP request is sent.
    The same holds for the [imdbid=] call after a [TypeError] of the
    positional one. *)
Theorem fetch_returns_first_result (E : env) (client imdb_id : pyval)
    (w : world) (pre rest : list string) (name : string) (getter v : pyval) :
  let O := e_objects E in
  by_id_names = (pre ++ name :: rest)%list ->
  (forall n, n ∈ pre ->
     exists g, getattr_default O client n VNone = Ok g /\ callable O g = false) ->
  getattr_default O client name VNone = Ok getter ->
  callable O getter = true ->
  (py_call O getter (positional imdb_id) = Ok v ->
   _fetch_by_imdb_id E client imdb_id w
   = (Ok v, add_event (ClientCall name (positional imdb_id)) w))
  /\ (py_call O getter (positional imdb_id) = Raise TypeError ->
      py_call O getter (keyword "imdbid" imdb_id) = Ok v ->
      _fetch_by_imdb_id E client imdb_id w
      = (Ok v, add_event (ClientCall name (keyword "imdbid" imdb_id))
                 (add_event (ClientCall name (positional imdb_id)) w))).
Proof.
  cbv zeta. intros Hnames Hpre Hget Hcall.
  assert (Hstep : _fetch_by_imdb_id E client imdb_id w
            = let w1 := add_event (ClientCall name (positional imdb_id)) w in
              match py_call (e_objects E) getter (positional imdb_id) with
              | Ok v0 => (Ok v0, w1)
              | Raise e1 =>
                  if is_type_error e1 then
                    let w2 := add_event (ClientCall name (keyword "imdbid" imdb_id)) w1 in
                    match py_call (e_objects E) getter (keyword "imdbid" imdb_id) with
                    | Ok v0 => (Ok v0, w2)
                    | Raise e2 =>
                        (let* found :=
                           (if is_type_error e2 then
                              let* r3 := attempt (client_call E name getter
                                                    (keyword "id" imdb_id)) in
                              match r3 with
                              | Ok v0 => pure (Some v0)
                              | Raise _ => probe_by_id E client imdb_id rest
                              end
                            else raise e2) in
                         match found with
                         | Some v0 => pure v0
                         | None => http_fallback E imdb_id
                         end) w2
                    end
                  else
                    (let* found := probe_by_id E client imdb_id rest in
                     match found with
                     | Some v0 => pure v0
                     | None => http_fallback E imdb_id
                     end) w1
              end).
  { unfold _fetch_by_imdb_id. rewrite Hnames. unfold bindM at 1.
    rewrite (probe_by_id_skip E client imdb_id pre (name :: rest) w Hpre).
    cbn [probe_by_id]. unfold bindM at 1, lift. rewrite Hget, Hcall. simpl.
    unfold bindM at 1, attempt, client_call. rewrite Hcall. cbv zeta.
    destruct (py_call (e_objects E) getter (positional imdb_id)) as [v0|e1];
      [reflexivity|].
    destruct (is_type_error e1); [|reflexivity].
    unfold bindM at 1.
    destruct (py_call (e_objects E) getter (keyword "imdbid" imdb_id)) as [v0|e2];
      reflexivity. }
  rewrite Hstep. cbv zeta. split.
  - intros ->. reflexivity.
  - intros -> ->. reflexivity.
Qed.

Lemma fetch_returns_first_result_witness :
  _fetch_by_imdb_id by_id_none_env (VObj 0%nat) (VStr "tt0113277") (empty_world 0)
  = (Ok VNone,
     add_event (ClientCall "by_id" (positional (VStr "tt0113277"))) (empty_world 0)).
Proof.
  apply (proj1 (fetch_returns_first_result by_id_none_env (VObj 0%nat)
                  (VStr "tt0113277") (empty_world 0)
                  ["get_by_imdb_id"] ["get_movie"; "movie"; "id"; "lookup"; "get"]
                  "by_id" (VObj 1%nat) VNone eq_refl
                  ltac:(intros n Hn; apply list_elem_of_singleton in Hn as ->;
                        exists VNone; split; reflexivity)
                  eq_refl eq_refl)).
  reflexivity.
Defined.

(** What the HTTP fallback sends and returns.  Without an API key under
    one of the three setting names it sends nothing and returns null.
    With one it sends exactly one GET, with the identifier, plot=full
    and that key.  What it returns is null or the parsed answer of that
    GET, and then the answer came with a status outside 400-599 and its
    Response field is the text "True". *)
Theorem http_fallback_outcome (E : env) (imdb_id : pyval) (w : world) :
  let O := e_objects E in
  let r := http_fallback E imdb_id w in
  (truthy O (configured_api_key E) = false ->
   r.1 = Ok VNone /\ w_events r.2 = w_events w)
  /\ (truthy O (configured_api_key E) = true ->
      w_events r.2 = (w_events w ++ [fallback_request E imdb_id])%list)
  /\ (forall v, r.1 = Ok v ->
        v = VNone
        \/ exists resp flag,
             e_requests_get E "https://www.omdbapi.com/"
               [("i", imdb_id); ("plot", VStr "full");
                ("apikey", configured_api_key E)] = Ok resp
             /\ raise_for_status resp = Ok tt
             /\ json resp = Ok v
             /\ py_get O v "Response" = Ok flag
             /\ eq_str flag "True" = true).
Proof.
  cbv zeta.
  destruct (http_fallback E imdb_id w) as [r w'] eqn:Hrun. cbn [fst snd].
  unfold http_fallback in Hrun. cbv zeta in Hrun.
  fold (configured_api_key E) in Hrun.
  destruct (truthy (e_objects E) (configured_api_key E)) eqn:Hkey;
    cbn [negb] in Hrun.
  2:{ injection Hrun as <- <-. split; [done|]. split; [done|].
      intros v [= <-]. by left. }
  split; [done|].
  unfold bindM at 1, attempt in Hrun. unfold bindM at 1, requests_get in Hrun.
  destruct (e_requests_get E _ _) as [resp|e] eqn:Hget.
  2:{ injection Hrun as <- <-. split; [done|]. intros v [= <-]. by left. }
  unfold bindM at 1, lift in Hrun.
  destruct (raise_for_status resp) as [[]|e] eqn:Hstatus.
  2:{ injection Hrun as <- <-. split; [done|]. intros v [= <-]. by left. }
  unfold bindM at 1 in Hrun.
  destruct (json resp) as [data|e] eqn:Hjson.
  2:{ injection Hrun as <- <-. split; [done|]. intros v [= <-]. by left. }
  unfold bindM at 1 in Hrun.
  destruct (py_get (e_objects E) data "Response") as [flag|e] eqn:Hflag.
  2:{ injection Hrun as <- <-. split; [done|]. intros v [= <-]. by left. }
  destruct (eq_str flag "True") eqn:Htrue.
  - injection Hrun as <- <-. split; [done|].
    intros v [= <-]. right. by exists resp, flag.
  - unfold bindM at 1 in Hrun.
    destruct (py_get (e_objects E) data "Error") as [err|e].
    + injection Hrun as <- <-. split; [done|]. intros v [= <-]. by left.
    + injection Hrun as <- <-. split; [done|]. intros v [= <-]. by left.
Qed.

Lemma http_fallback_outcome_witness :
  let E := omdb_env api_key_settings answer_heat in
  let r := http_fallback E (VStr "tt0113277") (empty_world 0) in
  truthy (e_objects E) (configured_api_key E) = true
  /\ w_events r.2
     = (w_events (empty_world 0) ++ [fallback_request E (VStr "tt0113277")])%list
  /\ r.1 = Ok (VDict heat_detail).
Proof.
  cbv zeta. split; [reflexivity|]. split; [|reflexivity].
  exact (proj1 (proj2 (http_fallback_outcome
                         (omdb_env api_key_settings answer_heat)
                         (VStr "tt0113277") (empty_world 0))) eq_refl).
Defined.

(** ** Equality of values *)

Lemma pyval_eqb_eq a : forall b, pyval_eqb a b = true -> a = b.
Proof.
  induction a as [| x | x | x | l IH | l IH | d IH | x] using pyval_nested_ind;
    intros [| y | y | y | l' | l' | d' | y] H; simpl in H; try discriminate.
  - reflexivity.
  - f_equal. by apply Bool.eqb_prop.
  - f_equal. by apply Z.eqb_eq.
  - f_equal. by apply String.eqb_eq.
  - f_equal. revert l' H.
    induction IH as [|u l Hu _ IHl]; intros [|v l'] H; try discriminate; [done|].
    apply andb_prop in H as [H1 H2]. f_equal; [by apply Hu|by apply IHl].
  - f_equal. revert l' H.
    induction IH as [|u l Hu _ IHl]; intros [|v l'] H; try discriminate; [done|].
    apply andb_prop in H as [H1 H2]. f_equal; [by apply Hu|by apply IHl].
  - f_equal. revert d' H.
    induction IH as [|[k u] d Hu _ IHd]; intros [|[k' v] d'] H;
      try discriminate; [done|].
    apply andb_prop in H as [H12 H3]. apply andb_prop in H12 as [H1 H2].
    apply String.eqb_eq in H1 as ->.
    f_equal; [f_equal; by apply Hu|by apply IHd].
  - f_equal. by apply Nat.eqb_eq.
Qed.

Lemma pyval_eqb_refl a : pyval_eqb a a = true.
Proof.
  induction a as [| x | x | x | l IH | l IH | d IH | x] using pyval_nested_ind;
    simpl.
  - reflexivity.
  - by destruct x.
  - apply Z.eqb_refl.
  - apply String.eqb_refl.
  - induction IH as [|u l Hu _ IHl]; [done|]. by rewrite Hu, IHl.
  - induction IH as [|u l Hu _ IHl]; [done|]. by rewrite Hu, IHl.
  - induction IH as [|[k u] d Hu _ IHd]; [done|].
    simpl in Hu. by rewrite String.eqb_refl, Hu, IHd.
  - apply Nat.eqb_refl.
Qed.

Lemma pyval_eqb_true a b : pyval_eqb a b = true <-> a = b.
Proof. split; [apply pyval_eqb_eq|intros ->; apply pyval_eqb_refl]. Qed.

Lemma pyval_eqb_sym a b : pyval_eqb a b = pyval_eqb b a.
Proof.
  destruct (pyval_eqb a b) eqn:Hab.
  - apply pyval_eqb_eq in Hab as ->. symmetry. apply pyval_eqb_refl.
  - destruct (pyval_eqb b a) eqn:Hba; [|done].
    apply pyval_eqb_eq in Hba as ->. by rewrite pyval_eqb_refl in Hab.
Qed.

(** ** Trimmed text and digit runs *)

Lemma lstrip_head s :
  Text.lstrip s = EmptyString
  \/ exists c r, Text.lstrip s = String c r /\ Text.isspace_char c = false.
Proof.
  induction s as [|c r IH]; simpl; [by left|].
  destruct (Text.isspace_char c) eqn:Hc; [exact IH|]. right. by exists c, r.
Qed.

Lemma rstrip_idem s : Text.rstrip (Text.rstrip s) = Text.rstrip s.
Proof.
  induction s as [|c r IH]; simpl; [done|].
  destruct (Text.isspace_char c && Text.is_empty (Text.rstrip r)) eqn:Hc;
    [done|].
  simpl. by rewrite IH, Hc.
Qed.

Lemma strip_idem s : Text.strip (Text.strip s) = Text.strip s.
Proof.
  unfold Text.strip.
  destruct (lstrip_head s) as [->|(c & r & -> & Hc)]; [done|].
  simpl. rewrite Hc. simpl. rewrite Hc. simpl.
  rewrite rstrip_idem. by rewrite Hc.
Qed.

Lemma contains_lstrip x s :
  Text.contains x s = false -> Text.contains x (Text.lstrip s) = false.
Proof.
  induction s as [|c r IH]; simpl; [done|].
  intros [Hc Hr]%orb_false_elim.
  destruct (Text.isspace_char c); [by apply IH|]. simpl. by rewrite Hc, Hr.
Qed.

Lemma contains_rstrip x s :
  Text.contains x s = false -> Text.contains x (Text.rstrip s) = false.
Proof.
  induction s as [|c r IH]; simpl; [done|].
  intros [Hc Hr]%orb_false_elim.
  destruct (Text.isspace_char c && Text.is_empty (Text.rstrip r)); [done|].
  simpl. by rewrite Hc, IH.
Qed.

Lemma contains_strip x s :
  Text.contains x s = false -> Text.contains x (Text.strip s) = false.
Proof. intros H. by apply contains_rstrip, contains_lstrip. Qed.

(** No piece of [s.split(sep)] holds the separator. *)
Lemma split_on_pieces sep s :
  Forall (fun p => Text.contains sep p = false) (Text.split_on sep s).
Proof.
  induction s as [|c r IH]; simpl; [by constructor|].
  destruct (Ascii.eqb c sep) eqn:Hc; [by constructor|].
  destruct (Text.split_on sep r) as [|h t]; [by constructor; [simpl; rewrite Hc|]|].
  inversion IH as [|? ? Hh Ht]; subst. constructor; [|done].
  simpl. by rewrite Hc, Hh.
Qed.

Lemma stripped_parts_trimmed parts :
  Forall trimmed_name (stripped_parts parts).
Proof.
  induction parts as [|g r IH]; simpl; [constructor|].
  destruct (Text.is_empty (Text.strip g)) eqn:Hg; simpl; [done|].
  constructor; [|done]. split; [|apply strip_idem].
  intros Heq. by rewrite Heq in Hg.
Qed.

Lemma stripped_parts_keep (P : string -> Prop) parts :
  (forall g, P g -> P (Text.strip g)) ->
  Forall P parts -> Forall P (stripped_parts parts).
Proof.
  intros HP. induction 1 as [|g r Hg _ IH]; simpl; [constructor|].
  destruct (negb _); [constructor; auto|done].
Qed.

Lemma stripped_items_trimmed O l gl :
  stripped_items O l = Ok gl -> Forall trimmed_name gl.
Proof.
  revert gl. induction l as [|g r IH]; simpl; intros gl.
  - intros [= <-]. constructor.
  - destruct (py_str O g) as [t|e]; simpl; [|done].
    destruct (Text.is_empty (Text.strip t)) eqn:Ht; simpl; [by apply IH|].
    destruct (stripped_items O r) as [rest|e]; simpl; [|done].
    intros [= <-]. constructor; [|by apply IH].
    split; [|apply strip_idem]. intros Heq. by rewrite Heq in Ht.
Qed.

(** Every genre the rule produces is a non-empty name without
    whitespace at its ends, and the genres cut out of a
    comma-separated text hold no comma. *)
Theorem detail_genre_list_trimmed (O : objects) (genres : pyval) (gl : list string) :
  detail_genre_list O genres = Ok gl ->
  Forall trimmed_name gl
  /\ (isinstance_str genres = true ->
      Forall (fun g => Text.contains "," g = false) gl).
Proof.
  destruct genres as [| b | z | s | l | l | d | r]; simpl;
    try (intros [= <-]; split; [constructor|done]).
  - intros [= <-]. split; [apply stripped_parts_trimmed|]. intros _.
    apply stripped_parts_keep; [apply contains_strip|apply split_on_pieces].
  - intros H. split; [by eapply stripped_items_trimmed|done].
  - intros H. split; [by eapply stripped_items_trimmed|done].
Qed.

Lemma detail_genre_list_trimmed_witness :
  detail_genre_list no_objects (VStr " Action ,, Crime,Drama ")
  = Ok ["Action"; "Crime"; "Drama"]
  /\ Forall trimmed_name ["Action"; "Crime"; "Drama"]
  /\ (isinstance_str (VStr " Action ,, Crime,Drama ") = true ->
      Forall (fun g => Text.contains "," g = false) ["Action"; "Crime"; "Drama"]).
Proof.
  split; [reflexivity|].
  exact (detail_genre_list_trimmed no_objects (VStr " Action ,, Crime,Drama ")
           ["Action"; "Crime"; "Drama"] eq_refl).
Defined.

Lemma take_digits_run ds post :
  Text.forallb_str Text.isdecimal_char ds = true ->
  (post = EmptyString
   \/ exists c r, post = String c r /\ Text.isdecimal_char c = false) ->
  Text.take_digits (ds ++ post) = ds.
Proof.
  intros Hds Hpost. induction ds as [|c r IH]; simpl in *.
  - destruct Hpost as [->|(c & r & -> & Hc)]; [done|]. simpl. by rewrite Hc.
  - apply andb_prop in Hds as [Hc Hr]. rewrite Hc. f_equal. by apply IH.
Qed.

(** [re.search(r"(\d+)", s)] finds the first run of digits. *)
Lemma re_search_digits_run pre ds post :
  Text.forallb_str not_decimal pre = true ->
  ds <> EmptyString ->
  Text.forallb_str Text.isdecimal_char ds = true ->
  (post = EmptyString
   \/ exists c r, post = String c r /\ Text.isdecimal_char c = false) ->
  Text.re_search_digits (pre ++ ds ++ post) = Some ds.
Proof.
  intros Hpre Hne Hds Hpost. induction pre as [|c r IH]; simpl in *.
  - destruct ds as [|c r]; [done|]. simpl in *.
    apply andb_prop in Hds as [Hc Hr]. rewrite Hc. f_equal. f_equal.
    by apply take_digits_run.
  - apply andb_prop in Hpre as [Hc Hr]. unfold not_decimal in Hc.
    apply negb_true_iff in Hc. rewrite Hc. by apply IH.
Qed.

Lemma re_search_digits_none s :
  Text.forallb_str not_decimal s = true -> Text.re_search_digits s = None.
Proof.
  induction s as [|c r IH]; simpl; [done|].
  intros [Hc Hr]%andb_prop. unfold not_decimal in Hc.
  apply negb_true_iff in Hc. rewrite Hc. by apply IH.
Qed.

Lemma int_digits_decimal s : forall acc b,
  Text.forallb_str Text.isdecimal_char s = true ->
  s <> EmptyString \/ b = true ->
  exists n, Text.int_digits acc b s = Some n.
Proof.
  induction s as [|c r IH]; simpl; intros acc b Hs Hne.
  - destruct Hne as [Hne|Hb]; [done|]. rewrite Hb. by eexists.
  - apply andb_prop in Hs as [Hc Hr]. rewrite Hc. apply IH; auto.
Qed.

(** [int()] of a non-empty run of decimal digits, no longer than the
    limit of the conversion, is a number that is not negative. *)
Lemma int_of_decimal_run ds :
  ds <> EmptyString ->
  Text.forallb_str Text.isdecimal_char ds = true ->
  Z.of_nat (String.length ds) <= Text.int_max_str_digits ->
  exists n, Text.int_of_str ds = Some n /\ 0 <= n.
Proof.
  intros Hne Hds Hlen.
  pose proof (decimal_run_is_digits ds Hds) as Hdig.
  assert (Hint : Text.int_of_str ds = Text.int_digits 0 false ds).
  { unfold Text.int_of_str. cbv zeta.
    rewrite (strip_int_digits ds Hdig), (count_decimal_run ds Hds).
    destruct (Z.ltb_spec Text.int_max_str_digits (Z.of_nat (String.length ds)));
      [lia|].
    destruct ds as [|c r]; [done|].
    simpl in Hdig. apply andb_prop in Hdig as [Hc _].
    by destruct (digit_not_sign c Hc) as [-> ->]. }
  destruct (int_digits_decimal ds 0 false Hds) as [n Hn]; [by left|].
  exists n. rewrite Hint. split; [done|].
  apply (int_digits_nonneg ds 0 false n); [lia|done].
Qed.

(** A longer run is refused. *)
Lemma int_of_long_run ds :
  Text.forallb_str Text.isdecimal_char ds = true ->
  Text.int_max_str_digits < Z.of_nat (String.length ds) ->
  Text.int_of_str ds = None.
Proof.
  intros Hds Hlen. unfold Text.int_of_str. cbv zeta.
  rewrite (strip_int_digits ds (decimal_run_is_digits ds Hds)),
    (count_decimal_run ds Hds).
  by destruct (Z.ltb_spec Text.int_max_str_digits (Z.of_nat (String.length ds)));
    [|lia].
Qed.

(** The runtime rule: an integer passes; a text gives the value of its
    first run of decimal digits whatever surrounds the run, as long as
    the run has no more than 4300 digits, and null when the run is
    longer, since [int()] refuses it; a text without a digit and every
    other value give null. *)
Theorem detail_runtime_minutes_rule :
  (forall pre ds post,
     Text.forallb_str not_decimal pre = true ->
     ds <> EmptyString ->
     Text.forallb_str Text.isdecimal_char ds = true ->
     (post = EmptyString
      \/ exists c r, post = String c r /\ Text.isdecimal_char c = false) ->
     (Z.of_nat (String.length ds) <= Text.int_max_str_digits ->
      exists n, Text.int_of_str ds = Some n /\ 0 <= n
                /\ detail_runtime_minutes (VStr (pre ++ ds ++ post)) = VInt n)
     /\ (Text.int_max_str_digits < Z.of_nat (String.length ds) ->
         detail_runtime_minutes (VStr (pre ++ ds ++ post)) = VNone))
  /\ (forall s, Text.forallb_str not_decimal s = true ->
                detail_runtime_minutes (VStr s) = VNone)
  /\ (forall v, isinstance_int v = true -> detail_runtime_minutes v = v)
  /\ (forall v, isinstance_int v = false -> isinstance_str v = false ->
                detail_runtime_minutes v = VNone).
Proof.
  split; [|split; [|split]].
  - intros pre ds post Hpre Hne Hds Hpost. split.
    + intros Hlen.
      destruct (int_of_decimal_run ds Hne Hds Hlen) as (n & Hn & Hpos).
      exists n. split; [done|]. split; [done|].
      unfold detail_runtime_minutes. simpl.
      rewrite (re_search_digits_run pre ds post Hpre Hne Hds Hpost). simpl.
      unfold py_int_of_str. by rewrite Hn.
    + intros Hlen. unfold detail_runtime_minutes. simpl.
      rewrite (re_search_digits_run pre ds post Hpre Hne Hds Hpost). simpl.
      unfold py_int_of_str. by rewrite (int_of_long_run ds Hds Hlen).
  - intros s Hs. unfold detail_runtime_minutes. simpl.
    by rewrite (re_search_digits_none s Hs).
  - intros v Hv. unfold detail_runtime_minutes. by rewrite Hv.
  - intros v Hi Hs. unfold detail_runtime_minutes. rewrite Hi.
    by destruct v.
Qed.

Lemma detail_runtime_minutes_rule_witness :
  (exists n, Text.int_of_str "90" = Some n /\ 0 <= n
             /\ detail_runtime_minutes (VStr ("about " ++ "90" ++ " min (1h 30)")) = VInt n)
  /\ detail_runtime_minutes (VStr "N/A") = VNone.
Proof.
  split.
  - apply (proj1 (proj1 detail_runtime_minutes_rule "about " "90" " min (1h 30)"
                    eq_refl ltac:(discriminate) eq_refl
                    (or_intror (ex_intro _ " "%char
                                  (ex_intro _ "min (1h 30)" (conj eq_refl eq_refl)))))).
    vm_compute. discriminate.
  - apply (proj1 (proj2 detail_runtime_minutes_rule) "N/A"). reflexivity.
Defined.

(** ** The shape of a normalized detail *)

Lemma normalize_detail_inv O detail d :
  _normalize_detail_obj O detail = Ok d ->
  (detail = VNone /\ d = [])
  \/ exists f gl,
       detail_raw_fields O detail = Ok f
       /\ detail_genre_list O (f_genres f) = Ok gl
       /\ d = [("Title", f_title f);
               ("Year", detail_year_val O (f_year f));
               ("imdbID", f_imdb_id f);
               ("Plot", f_plot f);
               ("RuntimeMinutes", detail_runtime_minutes (f_runtime_str f));
               ("Genres", VList (VStr <$> gl))].
Proof.
  unfold _normalize_detail_obj.
  destruct (is_none detail) eqn:Hnone.
  { intros [= <-]. left. destruct detail; try discriminate. by split. }
  destruct (detail_raw_fields O detail) as [f|e] eqn:Hf; simpl; [|done].
  destruct (detail_genre_list O (f_genres f)) as [gl|e] eqn:Hgl; simpl; [|done].
  intros [= <-]. right. by exists f, gl.
Qed.

Lemma detail_year_val_int O year :
  detail_year_val O year = VNone
  \/ isinstance_int (detail_year_val O year) = true.
Proof.
  destruct (detail_year_val_outcome O year); auto.
Qed.

Lemma detail_runtime_minutes_int runtime_str :
  detail_runtime_minutes runtime_str = VNone
  \/ isinstance_int (detail_runtime_minutes runtime_str) = true.
Proof.
  unfold detail_runtime_minutes.
  destruct (isinstance_int runtime_str) eqn:Hint; simpl; [by right|].
  destruct runtime_str as [| | |s| | | |]; auto.
  destruct (Text.re_search_digits s) as [g|]; simpl; [|by left].
  unfold py_int_of_str. destruct (Text.int_of_str g); simpl; auto.
Qed.

Lemma detail_genre_list_names O genres gl :
  detail_genre_list O genres = Ok gl -> Forall trimmed_name gl.
Proof.
  destruct genres as [| b | z | s | l | l | d | r]; simpl;
    try (intros [= <-]; constructor).
  - intros [= <-]. apply stripped_parts_trimmed.
  - apply stripped_items_trimmed.
  - apply stripped_items_trimmed.
Qed.

(** Whatever the payload, a detail that comes out of the normalizer is
    the empty mapping (for a null payload only) or has the six keys
    Title, Year, imdbID, Plot, RuntimeMinutes, Genres in this order,
    with a Year and a RuntimeMinutes that are null or an integer and
    with Genres a list of non-empty trimmed names. *)
Theorem normalized_detail_shape (O : objects) (detail : pyval) (d : pydict) :
  _normalize_detail_obj O detail = Ok d ->
  (detail = VNone /\ d = [])
  \/ d.*1 = ["Title"; "Year"; "imdbID"; "Plot"; "RuntimeMinutes"; "Genres"]
     /\ (dict_get d "Year" = VNone \/ isinstance_int (dict_get d "Year") = true)
     /\ (dict_get d "RuntimeMinutes" = VNone
         \/ isinstance_int (dict_get d "RuntimeMinutes") = true)
     /\ exists gl, dict_get d "Genres" = VList (VStr <$> gl)
                   /\ Forall trimmed_name gl.
Proof.
  intros H. destruct (normalize_detail_inv O detail d H)
    as [?|(f & gl & Hf & Hgl & ->)]; [by left|right].
  split; [reflexivity|]. split; [apply detail_year_val_int|].
  split; [apply detail_runtime_minutes_int|].
  exists gl. split; [reflexivity|].
  by eapply detail_genre_list_names.
Qed.

Lemma normalized_detail_shape_witness :
  exists d,
    _normalize_detail_obj no_objects (VDict heat_detail) = Ok d
    /\ ((VDict heat_detail = VNone /\ d = [])
        \/ d.*1 = ["Title"; "Year"; "imdbID"; "Plot"; "RuntimeMinutes"; "Genres"]
           /\ (dict_get d "Year" = VNone \/ isinstance_int (dict_get d "Year") = true)
           /\ (dict_get d "RuntimeMinutes" = VNone
               \/ isinstance_int (dict_get d "RuntimeMinutes") = true)
           /\ exists gl, dict_get d "Genres" = VList (VStr <$> gl)
                         /\ Forall trimmed_name gl).
Proof.
  eexists. split; [reflexivity|].
  exact (normalized_detail_shape no_objects (VDict heat_detail) _ eq_refl).
Defined.

Lemma detail_genre_list_falsy O genres :
  truthy O genres = false -> detail_genre_list O genres = Ok [].
Proof.
  destruct genres as [| b | z | s | l | l | d | r]; simpl; try done.
  - by destruct s.
  - by destruct l.
  - by destruct l.
Qed.

(** An object and a mapping that carry the same six values are
    normalized alike: the object under the attribute names title, year,
    imdb_id, plot, runtime, genres (plain values or zero-argument
    callables, with no imdbID and no runtime_minutes attribute), the
    mapping under the keys Title, Year, imdbID, Plot, Runtime, Genre. *)
Theorem normalize_object_like_mapping (O : objects) (r : objref)
    (title year imdb_id plot runtime genres : pyval) :
  _callable_attr O (VObj r) "title" = Ok title ->
  _callable_attr O (VObj r) "year" = Ok year ->
  _callable_attr O (VObj r) "imdb_id" = Ok imdb_id ->
  _callable_attr O (VObj r) "imdbID" = Ok VNone ->
  _callable_attr O (VObj r) "plot" = Ok plot ->
  _callable_attr O (VObj r) "runtime" = Ok runtime ->
  _callable_attr O (VObj r) "runtime_minutes" = Ok VNone ->
  _callable_attr O (VObj r) "genres" = Ok genres ->
  _normalize_detail_obj O (VObj r)
  = _normalize_detail_obj O
      (VDict [("Title", title); ("Year", year); ("imdbID", imdb_id);
              ("Plot", plot); ("Runtime", runtime); ("Genre", genres)]).
Proof.
  intros Ht Hy Hi Hi' Hp Hr Hr' Hg.
  unfold _normalize_detail_obj. cbn [is_none detail_raw_fields].
  rewrite Ht, Hy, (ror_ok O _ _ imdb_id VNone Hi Hi'), Hp,
    (ror_ok O _ _ runtime VNone Hr Hr'), Hg.
  cbn [rbind f_genres f_year f_runtime_str f_title f_imdb_id f_plot dict_get
       String.eqb Ascii.eqb Bool.eqb].
  assert (Hnone : py_or O VNone VNone = VNone) by reflexivity.
  rewrite Hnone.
  assert (Hgen : detail_genre_list O (py_or O genres VNone)
                 = detail_genre_list O genres).
  { unfold py_or. destruct (truthy O genres) eqn:Htruthy; [done|].
    by rewrite (detail_genre_list_falsy O genres Htruthy). }
  by rewrite Hgen.
Qed.

Lemma normalize_object_like_mapping_witness :
  _normalize_detail_obj heat_object (VObj 0%nat)
  = _normalize_detail_obj heat_object
      (VDict [("Title", VStr "Heat"); ("Year", VStr "1995-");
              ("imdbID", VStr "tt0113277"); ("Plot", VStr "A heist.");
              ("Runtime", VStr "170 min"); ("Genre", VStr "Crime, Drama")]).
Proof.
  exact (normalize_object_like_mapping heat_object 0%nat _ _ _ _ _ _
           eq_refl eq_refl eq_refl eq_refl eq_refl eq_refl eq_refl eq_refl).
Defined.

(** ** Enriching one record: the database afterwards *)

Lemma add_genres_cons key g names w :
  add_genres key (VStr g :: names) w
  = add_genres key names
      (genres_add key g (genre_get_or_create g w).2).2.
Proof.
  cbn [add_genres]. unfold bindM, genre_get_or_create, genres_add.
  destruct (bool_decide _); simpl; by destruct (existsb _ _).
Qed.

Lemma genre_get_or_create_genres g w :
  w_genres (genre_get_or_create g w).2
  = (if bool_decide (g ∈ w_genres w) then w_genres w
     else w_genres w ++ [g])%list
  /\ w_movie_genres (genre_get_or_create g w).2 = w_movie_genres w
  /\ w_movies (genre_get_or_create g w).2 = w_movies w
  /\ w_events (genre_get_or_create g w).2 = w_events w
  /\ w_search_terms (genre_get_or_create g w).2 = w_search_terms w
  /\ w_log (genre_get_or_create g w).2 = w_log w.
Proof.
  unfold genre_get_or_create.
  by destruct (bool_decide _); simpl; repeat split.
Qed.

Lemma genres_add_assoc key g w :
  w_movie_genres (genres_add key g w).2
  = (if existsb (fun kg => pyval_eqb kg.1 key && String.eqb kg.2 g)
          (w_movie_genres w)
     then w_movie_genres w else w_movie_genres w ++ [(key, g)])%list
  /\ w_genres (genres_add key g w).2 = w_genres w
  /\ w_movies (genres_add key g w).2 = w_movies w
  /\ w_events (genres_add key g w).2 = w_events w
  /\ w_search_terms (genres_add key g w).2 = w_search_terms w
  /\ w_log (genres_add key g w).2 = w_log w.
Proof.
  unfold genres_add.
  by destruct (existsb _ _); simpl; repeat split.
Qed.

(** The genre loop never fails and touches the Genre table and the
    associations only. *)
Lemma add_genres_frame key gl : forall w,
  (add_genres key (VStr <$> gl) w).1 = Ok tt
  /\ w_movies (add_genres key (VStr <$> gl) w).2 = w_movies w
  /\ w_events (add_genres key (VStr <$> gl) w).2 = w_events w
  /\ w_search_terms (add_genres key (VStr <$> gl) w).2 = w_search_terms w
  /\ w_log (add_genres key (VStr <$> gl) w).2 = w_log w.
Proof.
  induction gl as [|g gl IH]; intros w.
  - by simpl.
  - cbn [fmap list_fmap]. rewrite add_genres_cons.
    destruct (genre_get_or_create_genres g w) as (_ & _ & Hm1 & He1 & Ht1 & Hl1).
    destruct (genres_add_assoc key g (genre_get_or_create g w).2)
      as (_ & _ & Hm2 & He2 & Ht2 & Hl2).
    destruct (IH (genres_add key g (genre_get_or_create g w).2).2)
      as (Hok & Hm & He & Ht & Hl).
    split; [done|]. repeat split; congruence.
Qed.

(** The Genre table after the loop: the old names in their places, then
    the new ones; no name twice if none was before. *)
Lemma add_genres_table key gl : forall w,
  (exists extra,
     w_genres (add_genres key (VStr <$> gl) w).2 = (w_genres w ++ extra)%list)
  /\ (forall g, g ∈ w_genres (add_genres key (VStr <$> gl) w).2
                <-> g ∈ w_genres w \/ g ∈ gl)
  /\ (NoDup (w_genres w) ->
      NoDup (w_genres (add_genres key (VStr <$> gl) w).2)).
Proof.
  induction gl as [|g gl IH]; intros w.
  - simpl. split; [exists []; by rewrite app_nil_r|].
    split; [|done]. intros x. rewrite elem_of_nil. tauto.
  - cbn [fmap list_fmap]. rewrite add_genres_cons.
    destruct (genre_get_or_create_genres g w) as (Hg1 & _).
    destruct (genres_add_assoc key g (genre_get_or_create g w).2)
      as (_ & Hg2 & _).
    destruct (IH (genres_add key g (genre_get_or_create g w).2).2)
      as ([extra Hext] & Hin & Hnd).
    rewrite Hg2, Hg1 in Hext, Hin, Hnd.
    destruct (bool_decide (g ∈ w_genres w)) eqn:Hdec.
    + apply bool_decide_eq_true in Hdec.
      split; [by exists extra|]. split; [|done].
      intros x. rewrite Hin, elem_of_cons.
      split; [tauto|]. intros [?|[->|?]]; auto.
    + apply bool_decide_eq_false in Hdec.
      split; [exists (g :: extra); by rewrite Hext, <- app_assoc|].
      split.
      * intros x. rewrite Hin, elem_of_app, list_elem_of_singleton, elem_of_cons.
        tauto.
      * intros Hw. apply Hnd. apply NoDup_app. split; [done|].
        split; [|apply NoDup_singleton].
        intros x Hx ->%list_elem_of_singleton. done.
Qed.

Lemma existsb_assoc key g assoc :
  existsb (fun kg => pyval_eqb kg.1 key && String.eqb kg.2 g) assoc = true
  <-> g ∈ snd <$> List.filter (fun kg : pyval * string => pyval_eqb kg.1 key) assoc.
Proof.
  induction assoc as [|[k x] assoc IH]; simpl.
  - rewrite elem_of_nil. split; [discriminate|done].
  - destruct (pyval_eqb k key); simpl.
    + rewrite elem_of_cons, <- IH, orb_true_iff, String.eqb_eq. split.
      * intros [->|?]; auto.
      * intros [->|?]; auto.
    + exact IH.
Qed.

Lemma movie_genre_names_add key g k w :
  movie_genre_names k (genres_add key g w).2
  = if pyval_eqb k key
    then (if bool_decide (g ∈ movie_genre_names key w)
          then movie_genre_names key w
          else movie_genre_names key w ++ [g])%list
    else movie_genre_names k w.
Proof.
  unfold movie_genre_names.
  destruct (genres_add_assoc key g w) as (-> & _).
  destruct (existsb _ _) eqn:Hex.
  - apply existsb_assoc in Hex.
    destruct (pyval_eqb k key) eqn:Hk; [|done].
    apply pyval_eqb_eq in Hk as ->. by rewrite bool_decide_eq_true_2.
  - rewrite List.filter_app, fmap_app. simpl.
    rewrite (pyval_eqb_sym key k).
    destruct (pyval_eqb k key) eqn:Hk; simpl.
    + apply pyval_eqb_eq in Hk as ->.
      rewrite bool_decide_eq_false_2; [done|].
      intros Hin. apply existsb_assoc in Hin. congruence.
    + by rewrite app_nil_r.
Qed.

(** The genres of the movie after the loop: the ones it had and the
    ones of the list, none twice if none was twice; the genres of every
    other movie as they were. *)
Lemma add_genres_assoc key gl : forall w,
  (forall g, g ∈ movie_genre_names key (add_genres key (VStr <$> gl) w).2
             <-> g ∈ movie_genre_names key w \/ g ∈ gl)
  /\ (NoDup (movie_genre_names key w) ->
      NoDup (movie_genre_names key (add_genres key (VStr <$> gl) w).2))
  /\ (forall k, pyval_eqb k key = false ->
        movie_genre_names k (add_genres key (VStr <$> gl) w).2
        = movie_genre_names k w).
Proof.
  induction gl as [|g gl IH]; intros w.
  - simpl. split; [|done]. intros x. rewrite elem_of_nil. tauto.
  - cbn [fmap list_fmap]. rewrite add_genres_cons.
    set (w1 := (genre_get_or_create g w).2).
    assert (Hsame : forall k, movie_genre_names k w1 = movie_genre_names k w).
    { intros k. unfold movie_genre_names, w1.
      by destruct (genre_get_or_create_genres g w) as (_ & -> & _). }
    destruct (IH (genres_add key g w1).2) as (Hin & Hnd & Hother).
    split; [|split].
    + intros x. rewrite Hin, movie_genre_names_add, pyval_eqb_refl, Hsame.
      destruct (bool_decide (g ∈ movie_genre_names key w)) eqn:Hdec.
      * apply bool_decide_eq_true in Hdec. rewrite elem_of_cons.
        split; [tauto|]. intros [?|[->|?]]; auto.
      * rewrite elem_of_app, list_elem_of_singleton, elem_of_cons. tauto.
    + intros Hw. apply Hnd.
      rewrite movie_genre_names_add, pyval_eqb_refl, Hsame.
      destruct (bool_decide (g ∈ movie_genre_names key w)) eqn:Hdec; [done|].
      apply bool_decide_eq_false in Hdec.
      apply NoDup_app. split; [done|]. split; [|apply NoDup_singleton].
      intros x Hx ->%list_elem_of_singleton. done.
    + intros k Hk. rewrite (Hother k Hk), movie_genre_names_add, Hk.
      apply Hsame.
Qed.

Lemma movie_genre_names_clear key k w :
  movie_genre_names k (genres_clear key w).2
  = if pyval_eqb k key then [] else movie_genre_names k w.
Proof.
  unfold movie_genre_names, genres_clear. simpl.
  induction (w_movie_genres w) as [|[k' g] assoc IH]; simpl.
  - by destruct (pyval_eqb k key).
  - rewrite filter_cons. simpl.
    destruct (pyval_eqb k' key) eqn:Hk'.
    + rewrite decide_False by done. etrans; [apply IH|].
      apply pyval_eqb_eq in Hk' as ->.
      rewrite (pyval_eqb_sym key k). by destruct (pyval_eqb k key).
    + rewrite decide_True by done. simpl.
      destruct (pyval_eqb k' k) eqn:Hkk; simpl.
      * apply pyval_eqb_eq in Hkk as ->. rewrite Hk'. f_equal.
        etrans; [apply IH|]. by rewrite Hk'.
      * apply IH.
Qed.

Lemma replace_movie_rows m rows :
  let rows' := match replace_movie m rows with
               | Some r => r
               | None => (rows ++ [m])%list
               end in
  List.find (fun x => pyval_eqb (m_imdb_id x) (m_imdb_id m)) rows' = Some m
  /\ (forall k, pyval_eqb k (m_imdb_id m) = false ->
        List.find (fun x => pyval_eqb (m_imdb_id x) k) rows'
        = List.find (fun x => pyval_eqb (m_imdb_id x) k) rows)
  /\ (List.length rows <= List.length rows')%nat.
Proof.
  cbv zeta. induction rows as [|x r IH]; simpl.
  - rewrite pyval_eqb_refl. split; [done|]. split; [|lia].
    intros k Hk. by rewrite pyval_eqb_sym, Hk.
  - destruct (pyval_eqb (m_imdb_id x) (m_imdb_id m)) eqn:Hx; simpl.
    + rewrite pyval_eqb_refl. split; [done|]. split; [|lia].
      intros k Hk. apply pyval_eqb_eq in Hx. rewrite Hx.
      by rewrite (pyval_eqb_sym (m_imdb_id m) k), Hk.
    + destruct IH as (Hfind & Hother & Hlen).
      destruct (replace_movie m r) as [r'|]; simpl in *.
      * rewrite Hx. split; [done|]. split; [|lia].
        intros k Hk. by rewrite (Hother k Hk).
      * rewrite Hx. split; [done|]. split; [|lia].
        intros k Hk. by rewrite (Hother k Hk).
Qed.

(** Saving a record and asking for it again gives it back; the records
    of other keys are not touched. *)
Lemma movie_save_row m w :
  movie_row (m_imdb_id m) (movie_save m w).2 = Some m
  /\ (forall k, pyval_eqb k (m_imdb_id m) = false ->
        movie_row k (movie_save m w).2 = movie_row k w)
  /\ (List.length (w_movies w) <= List.length (w_movies (movie_save m w).2))%nat.
Proof. unfold movie_row, movie_save. simpl. apply replace_movie_rows. Qed.

(** [fill_movie_details] when the resolver delivers a payload that the
    normalizer accepts with the genre names [gl]. *)
Lemma fill_movie_details_cases E movie w raw w1 details gl :
  let O := e_objects E in
  let key := m_imdb_id movie in
  let movie' :=
    Movie key (py_or O (dict_get details "Title") (m_title movie))
          (py_or O (dict_get details "Year") (m_year movie))
          (dict_get details "Plot") (dict_get details "RuntimeMinutes") true in
  m_is_full_record movie = false ->
  _fetch_by_imdb_id E (e_client E) key w = (Ok raw, w1) ->
  truthy O raw = true ->
  _normalize_detail_obj O raw = Ok details ->
  dict_has details "Genres" = true ->
  dict_get details "Genres" = VList (VStr <$> gl) ->
  fill_movie_details E movie w
  = (Ok movie',
     add_log (updated_line (m_title movie'))
       (movie_save movie'
          (add_genres key (VStr <$> gl) (genres_clear key w1).2).2).2).
Proof.
  cbv zeta. intros Hfull Hfetch Htruthy Hnorm Hhas Hgenres.
  unfold fill_movie_details. rewrite Hfull. cbv zeta.
  unfold bindM at 1. rewrite Hfetch, Htruthy. cbn [negb].
  unfold bindM at 1, lift. rewrite Hnorm, Hhas, Hgenres. cbn [list_of].
  unfold bindM at 1. cbn [genres_clear].
  unfold bindM at 1.
  destruct (add_genres_frame (m_imdb_id movie) gl
              (genres_clear (m_imdb_id movie) w1).2) as (Hok & _).
  destruct (add_genres (m_imdb_id movie) (VStr <$> gl) _) as [[[]|e] w3];
    [|discriminate Hok].
  reflexivity.
Qed.

Lemma normalized_genres O raw details :
  truthy O raw = true ->
  _normalize_detail_obj O raw = Ok details ->
  exists gl, dict_has details "Genres" = true
             /\ dict_get details "Genres" = VList (VStr <$> gl).
Proof.
  intros Htruthy Hnorm.
  destruct (normalize_detail_inv O raw details Hnorm)
    as [[-> _]|(f & gl & _ & _ & ->)]; [done|].
  by exists gl.
Qed.

Lemma fetch_keeps E client imdb_id w r w1 :
  _fetch_by_imdb_id E client imdb_id w = (r, w1) -> database_kept w w1.
Proof.
  intros H.
  pose proof (respects_fetch_by_imdb_id database_kept database_kept_log
                database_kept_event E client imdb_id w) as Hk.
  by rewrite H in Hk.
Qed.

(** When the resolver delivers nothing (null or any falsy payload) for
    a record that is not full, [fill_movie_details] logs the failure and
    returns: the record and the whole database are as they were. *)
Theorem fill_movie_details_nothing_fetched (E : env) (movie : movie_rec)
    (w w1 : world) (raw : pyval) :
  m_is_full_record movie = false ->
  _fetch_by_imdb_id E (e_client E) (m_imdb_id movie) w = (Ok raw, w1) ->
  truthy (e_objects E) raw = false ->
  fill_movie_details E movie w
  = (Ok movie, add_log (unable_line (m_imdb_id movie)) w1)
  /\ database_kept w (add_log (unable_line (m_imdb_id movie)) w1).
Proof.
  intros Hfull Hfetch Hfalsy. split.
  - unfold fill_movie_details. rewrite Hfull. cbv zeta.
    unfold bindM at 1. by rewrite Hfetch, Hfalsy.
  - etrans; [by eapply fetch_keeps|apply database_kept_log].
Qed.

Lemma fill_movie_details_nothing_fetched_witness :
  fill_movie_details by_id_none_env heat_partial heat_partial_world
  = (Ok heat_partial,
     add_log (unable_line (m_imdb_id heat_partial))
       (add_event (ClientCall "by_id" (positional (VStr "tt0113277")))
          heat_partial_world))
  /\ database_kept heat_partial_world
       (add_log (unable_line (m_imdb_id heat_partial))
          (add_event (ClientCall "by_id" (positional (VStr "tt0113277")))
             heat_partial_world)).
Proof.
  exact (fill_movie_details_nothing_fetched by_id_none_env heat_partial
           heat_partial_world _ VNone eq_refl eq_refl eq_refl).
Defined.

(** When the resolver delivers a payload and the normalizer accepts it,
    [fill_movie_details] returns the record marked full, with Plot and
    RuntimeMinutes overwritten (also by null) and Title and Year
    overwritten only by a truthy value; this is the record the database
    then holds under the identifier, and the records of all other
    identifiers, the SearchTerm records and the upstream traffic of the
    resolver are as they were. *)
Theorem fill_movie_details_saves_record (E : env) (movie : movie_rec)
    (w w1 : world) (raw : pyval) (details : pydict) :
  let O := e_objects E in
  m_is_full_record movie = false ->
  _fetch_by_imdb_id E (e_client E) (m_imdb_id movie) w = (Ok raw, w1) ->
  truthy O raw = true ->
  _normalize_detail_obj O raw = Ok details ->
  exists movie' w',
    fill_movie_details E movie w = (Ok movie', w')
    /\ movie' = Movie (m_imdb_id movie)
                  (py_or O (dict_get details "Title") (m_title movie))
                  (py_or O (dict_get details "Year") (m_year movie))
                  (dict_get details "Plot")
                  (dict_get details "RuntimeMinutes") true
    /\ movie_row (m_imdb_id movie) w' = Some movie'
    /\ (forall k, pyval_eqb k (m_imdb_id movie) = false ->
          movie_row k w' = movie_row k w)
    /\ w_search_terms w' = w_search_terms w
    /\ w_events w' = w_events w1.
Proof.
  cbv zeta. intros Hfull Hfetch Htruthy Hnorm.
  destruct (normalized_genres _ raw details Htruthy Hnorm) as (gl & Hhas & Hgl).
  rewrite (fill_movie_details_cases E movie w raw w1 details gl
             Hfull Hfetch Htruthy Hnorm Hhas Hgl).
  set (movie' := Movie _ _ _ _ _ _).
  destruct (add_genres_frame (m_imdb_id movie) gl
              (genres_clear (m_imdb_id movie) w1).2) as (_ & Hm & He & Ht & _).
  set (w3 := (add_genres (m_imdb_id movie) (VStr <$> gl)
                (genres_clear (m_imdb_id movie) w1).2).2) in *.
  cbn in Hm, He, Ht.
  destruct (movie_save_row movie' w3) as (Hrow & Hother & _).
  destruct (fetch_keeps _ _ _ _ _ _ Hfetch) as (Hm1 & _ & _ & Ht1 & _).
  eexists movie', _. split; [reflexivity|]. split; [reflexivity|].
  split; [exact Hrow|]. split; [|split].
  - intros k Hk. etrans; [apply (Hother k Hk)|].
    unfold movie_row. by rewrite Hm, Hm1.
  - cbn. by rewrite Ht, Ht1.
  - cbn. by rewrite He.
Qed.

Lemma fill_movie_details_saves_record_witness :
  let E := omdb_env api_key_settings answer_heat in
  exists movie' w',
    fill_movie_details E heat_partial heat_partial_world = (Ok movie', w')
    /\ movie' = Movie (VStr "tt0113277") (VStr "Heat") (VInt 1995)
                  (VStr "A group of professional bank robbers...") (VInt 170) true
    /\ movie_row (VStr "tt0113277") w' = Some movie'
    /\ (forall k, pyval_eqb k (VStr "tt0113277") = false ->
          movie_row k w' = movie_row k heat_partial_world)
    /\ w_search_terms w' = w_search_terms heat_partial_world
    /\ w_events w'
       = w_events (_fetch_by_imdb_id E (e_client E) (VStr "tt0113277")
                     heat_partial_world).2.
Proof.
  exact (fill_movie_details_saves_record
           (omdb_env api_key_settings answer_heat) heat_partial
           heat_partial_world _ (VDict heat_detail) _
           eq_refl eq_refl eq_refl eq_refl).
Defined.

(** After a successful [fill_movie_details] the genres of the record
    are the normalized genre names, each once, whatever genres it had
    before; the genres of every other record are as they were. *)
Theorem fill_movie_details_replaces_genres (E : env) (movie : movie_rec)
    (w w1 : world) (raw : pyval) (details : pydict) :
  let O := e_objects E in
  m_is_full_record movie = false ->
  _fetch_by_imdb_id E (e_client E) (m_imdb_id movie) w = (Ok raw, w1) ->
  truthy O raw = true ->
  _normalize_detail_obj O raw = Ok details ->
  let w' := (fill_movie_details E movie w).2 in
  (forall g, g ∈ movie_genre_names (m_imdb_id movie) w'
             <-> VStr g ∈ list_of (dict_get details "Genres"))
  /\ NoDup (movie_genre_names (m_imdb_id movie) w')
  /\ (forall k, pyval_eqb k (m_imdb_id movie) = false ->
        movie_genre_names k w' = movie_genre_names k w).
Proof.
  cbv zeta. intros Hfull Hfetch Htruthy Hnorm.
  destruct (normalized_genres _ raw details Htruthy Hnorm) as (gl & Hhas & Hgl).
  rewrite (fill_movie_details_cases E movie w raw w1 details gl
             Hfull Hfetch Htruthy Hnorm Hhas Hgl).
  rewrite Hgl. cbn [list_of snd].
  set (key := m_imdb_id movie).
  set (w2 := (genres_clear key w1).2).
  destruct (add_genres_assoc key gl w2) as (Hin & Hnd & Hother).
  destruct (fetch_keeps _ _ _ _ _ _ Hfetch) as (_ & _ & Ha1 & _).
  assert (Hview : forall k m l w0,
            movie_genre_names k (add_log l (movie_save m w0).2)
            = movie_genre_names k w0) by reflexivity.
  split; [|split].
  - intros g. rewrite Hview, Hin. unfold w2.
    rewrite movie_genre_names_clear, pyval_eqb_refl, elem_of_nil.
    rewrite list_elem_of_fmap. split.
    + intros [[]|Hg]. by exists g.
    + intros (g' & [= ->] & Hg). by right.
  - rewrite Hview. apply Hnd. unfold w2.
    rewrite movie_genre_names_clear, pyval_eqb_refl. constructor.
  - intros k Hk. rewrite Hview, (Hother k Hk). unfold w2.
    rewrite movie_genre_names_clear, Hk. unfold movie_genre_names.
    by rewrite Ha1.
Qed.

Lemma fill_movie_details_replaces_genres_witness :
  let E := omdb_env api_key_settings answer_heat in
  let w' := (fill_movie_details E heat_partial heat_partial_world).2 in
  movie_genre_names (VStr "tt0113277") heat_partial_world = ["Western"]
  /\ movie_genre_names (VStr "tt0113277") w' = ["Action"; "Crime"; "Drama"]
  /\ NoDup (movie_genre_names (VStr "tt0113277") w').
Proof.
  cbv zeta. split; [reflexivity|]. split; [reflexivity|].
  exact (proj1 (proj2 (fill_movie_details_replaces_genres
                         (omdb_env api_key_settings answer_heat) heat_partial
                         heat_partial_world _ (VDict heat_detail) _
                         eq_refl eq_refl eq_refl eq_refl))).
Defined.

(** [get_or_create_genres] under [fill_movie_details]: every Genre
    record that existed is still there in its place, the genre names of
    the payload are there too, nothing else is, and no name is there
    twice if none was before. *)
Theorem fill_movie_details_genre_table (E : env) (movie : movie_rec)
    (w w1 : world) (raw : pyval) (details : pydict) :
  let O := e_objects E in
  m_is_full_record movie = false ->
  _fetch_by_imdb_id E (e_client E) (m_imdb_id movie) w = (Ok raw, w1) ->
  truthy O raw = true ->
  _normalize_detail_obj O raw = Ok details ->
  let w' := (fill_movie_details E movie w).2 in
  (exists created, w_genres w' = (w_genres w ++ created)%list)
  /\ (forall g, g ∈ w_genres w'
                <-> g ∈ w_genres w \/ VStr g ∈ list_of (dict_get details "Genres"))
  /\ (NoDup (w_genres w) -> NoDup (w_genres w')).
Proof.
  cbv zeta. intros Hfull Hfetch Htruthy Hnorm.
  destruct (normalized_genres _ raw details Htruthy Hnorm) as (gl & Hhas & Hgl).
  rewrite (fill_movie_details_cases E movie w raw w1 details gl
             Hfull Hfetch Htruthy Hnorm Hhas Hgl).
  rewrite Hgl. cbn [list_of snd].
  set (key := m_imdb_id movie).
  set (w2 := (genres_clear key w1).2).
  destruct (add_genres_table key gl w2) as (Hext & Hin & Hnd).
  destruct (fetch_keeps _ _ _ _ _ _ Hfetch) as (_ & Hg1 & _).
  assert (Hw2 : w_genres w2 = w_genres w) by (unfold w2; cbn; exact Hg1).
  assert (Hview : forall m l w0,
            w_genres (add_log l (movie_save m w0).2) = w_genres w0) by reflexivity.
  rewrite Hview. rewrite Hw2 in Hext, Hin, Hnd.
  split; [exact Hext|]. split; [|exact Hnd].
  intros g. rewrite Hin, list_elem_of_fmap. split.
  - intros [?|Hg]; [by left|right]. by exists g.
  - intros [?|(g' & [= ->] & Hg)]; [by left|by right].
Qed.

Lemma fill_movie_details_genre_table_witness :
  let E := omdb_env api_key_settings answer_heat in
  let w' := (fill_movie_details E heat_partial heat_partial_world).2 in
  w_genres heat_partial_world = ["Crime"]
  /\ w_genres w' = ["Crime"; "Action"; "Drama"]
  /\ (NoDup (w_genres heat_partial_world) -> NoDup (w_genres w')).
Proof.
  cbv zeta. split; [reflexivity|]. split; [reflexivity|].
  exact (proj2 (proj2 (fill_movie_details_genre_table
                         (omdb_env api_key_settings answer_heat) heat_partial
                         heat_partial_world _ (VDict heat_detail) _
                         eq_refl eq_refl eq_refl eq_refl))).
Defined.

(** ** What a search does to the Movie table *)

Section Upsert.

Context (R : relation world) `{!PreOrder R}.
Hypothesis R_log : forall l w, R w (add_log l w).
Hypothesis R_event : forall ev w, R w (add_event ev w).
Hypothesis R_terms : forall ts w, R w (set_search_terms ts w).
Hypothesis R_create : forall imdb_id title year,
  respects R (movie_get_or_create imdb_id title year).

Lemma upsert_save_item E client raw : respects R (save_item E client raw).
Proof.
  unfold save_item.
  apply respects_bind;
    [apply _|by apply respects_normalize_search_item|intros data].
  destruct (negb _); [apply respects_pure; apply _|].
  destruct (_ && _); [apply respects_pure; apply _|].
  apply respects_bind;
    [apply _|by apply respects_resolve_missing_id|intros [[i t] y]].
  destruct (negb _); [by apply respects_log|].
  apply respects_bind; [apply _|by apply respects_log|intros _].
  apply respects_bind; [apply _|apply R_create|intros [m created]].
  destruct created; [by apply respects_log|apply respects_pure; apply _].
Qed.

Lemma upsert_save_results E term found :
  respects R (save_results E term found).
Proof.
  unfold save_results.
  apply respects_bind;
    [apply _|by apply respects_unwrap_envelope|intros results].
  apply respects_bind; [apply _| |intros _].
  { destruct (negb _); [by apply respects_log|apply respects_pure; apply _]. }
  apply respects_bind; [apply _|apply respects_lift; apply _|intros items].
  apply respects_for_each; [apply _|]. intros raw. apply upsert_save_item.
Qed.

Lemma upsert_run_search E search term : respects R (run_search E search term).
Proof.
  unfold run_search. cbv zeta.
  apply respects_bind; [apply _|by apply respects_log|intros _].
  apply respects_bind; [apply _|apply respects_lift; apply _|intros method].
  apply respects_bind; [apply _|by apply respects_client_call|intros found].
  apply respects_bind; [apply _|apply upsert_save_results|intros _].
  intros w. apply R_terms.
Qed.

Lemma upsert_search_and_save E search : respects R (search_and_save E search).
Proof.
  intros w. rewrite search_and_save_cases. cbv zeta.
  destruct (w_search_terms w !! _) as [last|].
  - destruct (recent false last (w_now w)); [destruct (truthy _ _)|].
    + etrans; [apply R_log|apply upsert_run_search].
    + apply R_log.
    + apply upsert_run_search.
  - etrans; [apply R_terms|apply upsert_run_search].
Qed.

End Upsert.

Global Instance movies_added_preorder : PreOrder movies_added.
Proof.
  split.
  - intros w. split; [|done]. exists []. by rewrite app_nil_r.
  - intros w1 w2 w3 ((n1 & H1 & P1) & G1 & A1) ((n2 & H2 & P2) & G2 & A2).
    split; [|split; congruence].
    exists (n1 ++ n2)%list. split; [by rewrite H2, H1, app_assoc|].
    by apply Forall_app.
Qed.

Lemma movies_added_same w w' :
  w_movies w' = w_movies w -> w_genres w' = w_genres w ->
  w_movie_genres w' = w_movie_genres w -> movies_added w w'.
Proof.
  intros Hm Hg Ha. split; [|done]. exists []. by rewrite app_nil_r.
Qed.

Lemma movies_added_create imdb_id title year :
  respects movies_added (movie_get_or_create imdb_id title year).
Proof.
  intros w. unfold movie_get_or_create.
  destruct (List.find _ _); simpl; [reflexivity|].
  split; [|done]. eexists. split; [reflexivity|].
  by repeat constructor.
Qed.

(** [search_and_save] makes partial records and does nothing else to
    the catalogue: whatever the client answers and however the call
    ends, every Movie record that was there is still there, as it was
    and where it was, the records behind them are partial ones (not
    marked full, without plot and runtime), and the Genre records and
    the genres of every movie are as they were. *)
Theorem search_and_save_adds_partial_records (E : env) (search : string)
    (w : world) :
  let w' := (search_and_save E search w).2 in
  (exists new, w_movies w' = (w_movies w ++ new)%list
               /\ Forall partial_record new)
  /\ w_genres w' = w_genres w
  /\ w_movie_genres w' = w_movie_genres w.
Proof.
  apply (upsert_search_and_save movies_added).
  - intros l w0. by apply movies_added_same.
  - intros ev w0. by apply movies_added_same.
  - intros ts w0. by apply movies_added_same.
  - apply movies_added_create.
Qed.

Global Instance ids_stay_unique_preorder : PreOrder ids_stay_unique.
Proof.
  split.
  - by intros w H.
  - intros w1 w2 w3 H1 H2 H. by apply H2, H1.
Qed.

Lemma ids_unique_create imdb_id title year :
  respects ids_stay_unique (movie_get_or_create imdb_id title year).
Proof.
  intros w. unfold movie_get_or_create.
  destruct (List.find _ _) eqn:Hfind; simpl; [reflexivity|].
  unfold ids_stay_unique, movie_ids. cbn [w_movies set_movies].
  intros Hnd. rewrite fmap_app. apply NoDup_app. split; [done|].
  split; [|apply NoDup_singleton].
  intros x Hx ->%list_elem_of_singleton.
  apply list_elem_of_fmap in Hx as (m & Hid & Hm).
  apply list_elem_of_In in Hm.
  pose proof (List.find_none _ _ Hfind m Hm) as Hne. simpl in Hne.
  by rewrite <- Hid, pyval_eqb_refl in Hne.
Qed.

(** [search_and_save] never makes a second Movie record for an
    identifier: if no identifier is on two records before the call,
    none is after it, whatever the client answers, also when the same
    film is among the results more than once. *)
Theorem search_and_save_ids_unique (E : env) (search : string) (w : world) :
  NoDup (movie_ids w) ->
  NoDup (movie_ids (search_and_save E search w).2).
Proof.
  apply (upsert_search_and_save ids_stay_unique).
  - by intros l w0 H.
  - by intros ev w0 H.
  - by intros ts w0 H.
  - apply ids_unique_create.
Qed.

Lemma search_and_save_ids_unique_witness :
  let w' := (search_and_save (omdb_env api_key_settings answer_one_hit)
               "The Matrix" heat_partial_world).2 in
  movie_ids w' = [VStr "tt0113277"; VStr "tt0133093"] /\ NoDup (movie_ids w').
Proof.
  cbv zeta. split; [reflexivity|].
  apply search_and_save_ids_unique. apply NoDup_singleton.
Defined.

(** ** One item of the result list *)

(** A mapping among the results.  With a [Type] that is there and is
    not "movie" it is passed over: nothing is saved, nothing logged,
    nothing asked upstream.  Otherwise, with an identifier under
    [imdbID], [imdb_id] or [imdbId], no upstream call is made and the
    Movie table has a record of the identifier afterwards: the one it
    had, untouched, or else a new partial record with the item's title
    and normalized year at the end of the table. *)
Theorem save_item_mapping (E : env) (client : pyval) (d : pydict) (w : world) :
  let O := e_objects E in
  let imdb_id := py_or O (dict_get d "imdbID")
                   (py_or O (dict_get d "imdb_id") (dict_get d "imdbId")) in
  (truthy O (dict_get d "Type") = true ->
   eq_str (dict_get d "Type") "movie" = false ->
   save_item E client (VDict d) w = (Ok tt, w))
  /\ (truthy O (dict_get d "Type") = false
      \/ eq_str (dict_get d "Type") "movie" = true ->
      truthy O imdb_id = true ->
      exists w',
        save_item E client (VDict d) w = (Ok tt, w')
        /\ w_events w' = w_events w
        /\ w_search_terms w' = w_search_terms w
        /\ w_movies w'
           = match movie_row imdb_id w with
             | Some _ => w_movies w
             | None =>
                 (w_movies w
                  ++ [Movie imdb_id (dict_get d "Title")
                        (search_year_val O (dict_get d "Year")) VNone VNone false])%list
             end).
Proof.
  cbv zeta. split.
  - intros Hty Hne.
    unfold save_item, _normalize_search_item, bindM at 1, pure at 1.
    cbv zeta. cbn [truthy negb dict_get String.eqb Ascii.eqb Bool.eqb].
    by rewrite Hty, Hne.
  - intros Hty Hid.
    unfold save_item, _normalize_search_item, bindM at 1, pure at 1.
    cbv zeta. cbn [truthy negb dict_get String.eqb Ascii.eqb Bool.eqb].
    assert (Hskip : truthy (e_objects E) (dict_get d "Type")
                    && negb (eq_str (dict_get d "Type") "movie") = false).
    { destruct Hty as [->| ->]; [done|]. by rewrite andb_false_r. }
    rewrite Hskip. unfold resolve_missing_id. cbv zeta. rewrite Hid.
    cbn [negb andb]. unfold bindM at 1, pure at 1. rewrite Hid. cbn [negb].
    unfold bindM, log, movie_get_or_create, movie_row, pure.
    cbn [w_movies add_log].
    destruct (List.find _ (w_movies w)) as [m|]; eexists; by repeat split.
Qed.

Lemma save_item_mapping_witness :
  save_item (omdb_env api_key_settings answer_one_hit) (VObj 0%nat)
    (VDict series_hit) heat_partial_world
  = (Ok tt, heat_partial_world)
  /\ exists w',
       save_item (omdb_env api_key_settings answer_one_hit) (VObj 0%nat)
         (VDict matrix_hit) heat_partial_world
       = (Ok tt, w')
       /\ w_events w' = w_events heat_partial_world
       /\ w_search_terms w' = w_search_terms heat_partial_world
       /\ w_movies w'
          = [heat_partial;
             Movie (VStr "tt0133093") (VStr "The Matrix") (VInt 1999)
               VNone VNone false].
Proof.
  split.
  - exact (proj1 (save_item_mapping (omdb_env api_key_settings answer_one_hit)
                    (VObj 0%nat) series_hit heat_partial_world)
             eq_refl eq_refl).
  - exact (proj2 (save_item_mapping (omdb_env api_key_settings answer_one_hit)
                    (VObj 0%nat) matrix_hit heat_partial_world)
             (or_intror eq_refl) eq_refl).
Defined.

(** ** Searches without results and repeated searches *)

Lemma traffic_added_log l w : traffic_added w (add_log l w).
Proof. split; [exists []; simpl; by rewrite app_nil_r|done]. Qed.

Lemma traffic_added_event ev w : traffic_added w (add_event ev w).
Proof. split; [by exists [ev]|done]. Qed.

(** A search that went through has stamped the record of its term with
    the time of the call. *)
Lemma run_search_stamps E search term w w1 :
  run_search E search term w = (Ok tt, w1) ->
  w_search_terms w1 !! term = Some (Some (w_now w)).
Proof.
  unfold run_search. cbv zeta. unfold bindM at 1, log at 1.
  unfold bindM at 1, lift.
  destruct (py_getattr _ _ _) as [method|e]; [|done].
  unfold bindM at 1.
  pose proof (respects_client_call traffic_added traffic_added_event E "search"
                method (positional (VStr search))
                (add_log (Log INFO "Performing a search for '%s'" [VStr term]) w))
    as (_ & _ & Hn1).
  destruct (client_call _ _ _ _ _) as [[found|e] w2]; [|done].
  unfold bindM at 1.
  pose proof (save_results_traffic E term found w2) as (_ & _ & Hn2).
  destruct (save_results _ _ _ _) as [[[]|e] w3]; [|done].
  unfold stamp_search_term, bindM, now. intros [= <-].
  cbn [w_search_terms set_search_terms]. rewrite lookup_insert_eq.
  simpl in Hn1, Hn2. by rewrite Hn2, Hn1.
Qed.

(** When the upstream search answers with nothing ([None], an empty
    list, any falsy value) or with an envelope in which no result list
    is found, and the Cache Guard lets the search through,
    [search_and_save] returns normally, makes one upstream call, leaves
    the Movie table as it was and stamps the SearchTerm record of the
    normalized term with the time of the call. *)
Theorem search_without_results (E : env) (search : string) (w : world)
    (method found : pyval) :
  let O := e_objects E in
  let term := Text.re_sub_ws (Text.lower search) in
  py_getattr O (e_client E) "search" = Ok method ->
  callable O method = true ->
  py_call O method (positional (VStr search)) = Ok found ->
  (truthy O found = false
   \/ exists d, found = VDict d
        /\ is_none (py_or O (dict_get d "Search")
                      (py_or O (dict_get d "search") (dict_get d "results")))
           = true) ->
  (forall t, w_search_terms w !! term = Some (Some t) ->
             w_now w - one_day < t ->
             truthy O (_should_override_cache_guard E) = true) ->
  exists w',
    search_and_save E search w = (Ok tt, w')
    /\ w_movies w' = w_movies w
    /\ w_search_terms w' = <[term := Some (w_now w)]> (w_search_terms w)
    /\ w_events w'
       = (w_events w ++ [ClientCall "search" (positional (VStr search))])%list.
Proof.
  cbv zeta. intros Hm Hc Hcall Hempty Hguard.
  set (term := Text.re_sub_ws (Text.lower search)) in *.
  assert (Hsave : forall w0, exists w2,
            save_results E term found w0 = (Ok tt, w2)
            /\ w_now w2 = w_now w0
            /\ w_movies w2 = w_movies w0
            /\ w_search_terms w2 = w_search_terms w0
            /\ w_events w2 = w_events w0).
  { intros w0. unfold save_results. cbv zeta.
    destruct Hempty as [Hfalsy|(d & -> & Hnone)].
    - unfold py_or. rewrite Hfalsy. eexists. split; [reflexivity|done].
    - unfold py_or at 1.
      destruct (truthy (e_objects E) (VDict d)) eqn:Hd.
      + unfold unwrap_envelope. cbv zeta. rewrite Hnone.
        eexists. split; [reflexivity|done].
      + eexists. split; [reflexivity|done]. }
  assert (Hrun : forall w0, exists w',
            run_search E search term w0 = (Ok tt, w')
            /\ w_movies w' = w_movies w0
            /\ w_search_terms w' = <[term := Some (w_now w0)]> (w_search_terms w0)
            /\ w_events w'
               = (w_events w0 ++ [ClientCall "search" (positional (VStr search))])%list).
  { intros w0. rewrite (run_search_cases E search term w0 method Hm Hc), Hcall.
    destruct (Hsave (search_called search term w0))
      as (w2 & -> & Hn & Hmv & Hts & Hev).
    eexists. split; [reflexivity|].
    unfold stamp_search_term, bindM, now.
    cbn [snd w_movies w_search_terms w_events set_search_terms].
    by rewrite Hn, Hmv, Hts, Hev. }
  rewrite search_and_save_cases. cbv zeta. fold term.
  destruct (w_search_terms w !! term) as [last|] eqn:Hlook.
  - destruct (recent false last (w_now w)) eqn:Hrecent.
    + destruct last as [t|]; [|done]. simpl in Hrecent.
      apply Z.ltb_lt in Hrecent. rewrite (Hguard t eq_refl Hrecent).
      destruct (Hrun (add_log (override_line term) w)) as (w' & -> & ? & ? & ?).
      by exists w'.
    + destruct (Hrun w) as (w' & -> & ? & ? & ?). by exists w'.
  - destruct (Hrun (set_search_terms (<[term := None]> (w_search_terms w)) w))
      as (w' & -> & Hmv & Hts & Hev).
    exists w'. split; [done|]. split; [done|]. split; [|done].
    rewrite Hts. cbn [w_search_terms set_search_terms w_now].
    by rewrite insert_insert_eq.
Qed.

Lemma search_without_results_witness :
  exists w',
    search_and_save nothing_found_env "No  Such Film" heat_partial_world
    = (Ok tt, w')
    /\ w_movies w' = w_movies heat_partial_world
    /\ w_search_terms w'
       = <[ "no such film" := Some (w_now heat_partial_world) ]>
           (w_search_terms heat_partial_world)
    /\ w_events w'
       = (w_events heat_partial_world
          ++ [ClientCall "search" (positional (VStr "No  Such Film"))])%list.
Proof.
  apply (search_without_results nothing_found_env "No  Such Film"
           heat_partial_world (VObj 1%nat) (VList []));
    [reflexivity | reflexivity | reflexivity | by left |].
  intros t Ht. vm_compute in Ht. discriminate.
Defined.

(** After a call of [search_and_save] that returned normally, the
    SearchTerm record of the normalized term carries a time of search
    less than 24 hours old, and as long as that time is less than 24
    hours old and no override is configured, a call with any search
    text of the same normalized term is skipped: it logs the skip line
    and does nothing else. *)
Theorem repeated_search_is_skipped (E : env) (first second : string)
    (w w1 : world) :
  let term := Text.re_sub_ws (Text.lower second) in
  Text.re_sub_ws (Text.lower first) = term ->
  truthy (e_objects E) (_should_override_cache_guard E) = false ->
  search_and_save E first w = (Ok tt, w1) ->
  exists t,
    w_search_terms w1 !! term = Some (Some t)
    /\ w_now w - one_day < t
    /\ forall t', t' - one_day < t ->
         search_and_save E second (at_time t' w1)
         = (Ok tt, add_log (skip_line term) (at_time t' w1)).
Proof.
  cbv zeta. intros Hsame Hover Hfirst.
  set (term := Text.re_sub_ws (Text.lower second)) in *.
  assert (Hday : 0 < one_day) by (by vm_compute).
  assert (Hstamp : exists t, w_search_terms w1 !! term = Some (Some t)
                             /\ w_now w - one_day < t).
  { rewrite search_and_save_cases in Hfirst. cbv zeta in Hfirst.
    rewrite Hsame in Hfirst.
    destruct (w_search_terms w !! term) as [last|] eqn:Hlook.
    - destruct (recent false last (w_now w)) eqn:Hrecent.
      + rewrite Hover in Hfirst. injection Hfirst as <-.
        destruct last as [t|]; [|done]. simpl in Hrecent.
        apply Z.ltb_lt in Hrecent. by exists t.
      + exists (w_now w). split; [|lia].
        by rewrite (run_search_stamps _ _ _ _ _ Hfirst).
    - exists (w_now w). split; [|lia].
      by rewrite (run_search_stamps _ _ _ _ _ Hfirst). }
  destruct Hstamp as (t & Hlook & Hfresh).
  exists t. split; [done|]. split; [done|].
  intros t' Ht'. rewrite search_and_save_cases. cbv zeta. fold term.
  cbn [w_search_terms at_time w_now]. rewrite Hlook.
  unfold recent. cbn [negb andb].
  apply Z.ltb_lt in Ht'. by rewrite Ht', Hover.
Qed.

Lemma repeated_search_is_skipped_witness :
  let E := omdb_env api_key_settings answer_one_hit in
  exists w1 t,
    search_and_save E "The  Matrix" heat_partial_world = (Ok tt, w1)
    /\ w_search_terms w1 !! "the matrix" = Some (Some t)
    /\ w_now heat_partial_world - one_day < t
    /\ forall t', t' - one_day < t ->
         search_and_save E "the matrix" (at_time t' w1)
         = (Ok tt, add_log (skip_line "the matrix") (at_time t' w1)).
Proof.
  cbv zeta. eexists.
  assert (Hfirst : search_and_save (omdb_env api_key_settings answer_one_hit)
                     "The  Matrix" heat_partial_world
                   = (Ok tt,
                      (search_and_save (omdb_env api_key_settings answer_one_hit)
                         "The  Matrix" heat_partial_world).2)) by reflexivity.
  destruct (repeated_search_is_skipped
              (omdb_env api_key_settings answer_one_hit)
              "The  Matrix" "the matrix" heat_partial_world _
              eq_refl eq_refl Hfirst) as (t & H1 & H2 & H3).
  exists t. split; [exact Hfirst|]. by split.
Defined.

(** ** The envelope and the bare list *)

Lemma same_but_log_refl w : same_but_log w w.
Proof. by repeat split. Qed.

Lemma same_but_log_add_log l w1 w2 :
  same_but_log w1 w2 -> same_but_log (add_log l w1) w2.
Proof. intros (?&?&?&?&?&?). by repeat split. Qed.

Lemma log_blind_pure {A} (a : A) : log_blind (pure a).
Proof. by intros w1 w2 H. Qed.

Lemma log_blind_lift {A} (r : result A) : log_blind (lift r).
Proof. by intros w1 w2 H. Qed.

Lemma log_blind_log lv fmt args : log_blind (log lv fmt args).
Proof. intros w1 w2 (?&?&?&?&?&?). by repeat split. Qed.

Lemma log_blind_bind {A B} (m : M A) (k : A -> M B) :
  log_blind m -> (forall a, log_blind (k a)) -> log_blind (bindM m k).
Proof.
  intros Hm Hk w1 w2 HS. unfold bindM.
  destruct (Hm w1 w2 HS) as [H1 H2].
  destruct (m w1) as [[a|e] w1'], (m w2) as [[a'|e'] w2']; simpl in *;
    try discriminate.
  - injection H1 as ->. by apply Hk.
  - injection H1 as ->. by split.
Qed.

Lemma log_blind_attempt {A} (m : M A) : log_blind m -> log_blind (attempt m).
Proof.
  intros Hm w1 w2 HS. unfold attempt. destruct (Hm w1 w2 HS) as [H1 H2].
  destruct (m w1) as [r1 w1'], (m w2) as [r2 w2']; simpl in *.
  split; [by f_equal|done].
Qed.

Lemma log_blind_client_call E name getter c :
  log_blind (client_call E name getter c).
Proof.
  intros w1 w2 (Hn & Ht & Hm & Hg & Ha & He). unfold client_call.
  destruct (callable _ _); simpl; [|by repeat split].
  split; [done|]. repeat split; try done. simpl. by rewrite He.
Qed.

Lemma log_blind_movie_get_or_create imdb_id title year :
  log_blind (movie_get_or_create imdb_id title year).
Proof.
  intros w1 w2 (Hn & Ht & Hm & Hg & Ha & He). unfold movie_get_or_create.
  rewrite Hm. destruct (List.find _ _); simpl; by repeat split.
Qed.

Ltac log_blind_step :=
  lazymatch goal with
  | |- log_blind (bindM _ _) => apply log_blind_bind; [|intros ?]
  | |- log_blind (pure _) => apply log_blind_pure
  | |- log_blind (lift _) => apply log_blind_lift
  | |- log_blind (log _ _ _) => apply log_blind_log
  | |- log_blind (attempt _) => apply log_blind_attempt
  | |- log_blind (client_call _ _ _ _) => apply log_blind_client_call
  | |- log_blind (movie_get_or_create _ _ _) =>
      apply log_blind_movie_get_or_create
  | |- log_blind (if ?b then _ else _) => destruct b
  | |- log_blind (match ?x with _ => _ end) => destruct x
  end.

Lemma log_blind_lookup_by_title E client item names :
  log_blind (lookup_by_title E client item names).
Proof.
  induction names as [|name rest IH]; cbn [lookup_by_title].
  - apply log_blind_pure.
  - apply log_blind_bind; [apply log_blind_lift|intros getter].
    apply log_blind_bind; [|intros r].
    { apply log_blind_attempt. unfold title_attempt. repeat log_blind_step. }
    destruct r as [[d|]|e]; [apply log_blind_pure|exact IH|].
    destruct (is_type_error e); [exact IH|]. repeat log_blind_step.
Qed.

Lemma log_blind_save_item E client raw : log_blind (save_item E client raw).
Proof.
  unfold save_item. apply log_blind_bind; [|intros data].
  { unfold _normalize_search_item.
    destruct raw; try apply log_blind_lift; try apply log_blind_pure.
    apply log_blind_lookup_by_title. }
  destruct (negb _); [apply log_blind_pure|].
  destruct (_ && _); [apply log_blind_pure|].
  apply log_blind_bind; [|intros [[i t] y]].
  { unfold resolve_missing_id. repeat log_blind_step. }
  repeat log_blind_step.
Qed.

Lemma log_blind_for_each {A} (f : A -> M unit) l :
  (forall x, log_blind (f x)) -> log_blind (for_each f l).
Proof.
  intros Hf. induction l as [|x l IH]; cbn [for_each].
  - apply log_blind_pure.
  - apply log_blind_bind; [apply Hf|intros _; exact IH].
Qed.

(** The envelope [{"Search": [...], ...}] with a non-empty list is
    handled as the bare list is: from the upstream answer on, the search
    ends the same way in both cases (normally, or with the same
    exception) and leaves the same Movie, Genre and SearchTerm records
    and the same upstream traffic; only the logs differ. *)
Theorem envelope_like_bare_list (E : env) (term : string) (d : pydict)
    (l : list pyval) (w : world) :
  dict_get d "Search" = VList l ->
  l <> [] ->
  (save_results E term (VDict d) w).1 = (save_results E term (VList l) w).1
  /\ same_but_log (save_results E term (VDict d) w).2
                  (save_results E term (VList l) w).2.
Proof.
  intros Hsearch Hl.
  assert (Hd : truthy (e_objects E) (VDict d) = true).
  { destruct d; [done|reflexivity]. }
  assert (Htl : truthy (e_objects E) (VList l) = true).
  { destruct l; [done|reflexivity]. }
  set (K := (if negb (truthy (e_objects E) (VList l))
             then log INFO "No results returned for '%s'." [VStr term]
             else pure tt) ;;
            let* items := lift (py_iter (VList l)) in
            for_each (save_item E (e_client E)) items).
  assert (Hblind : log_blind K).
  { apply log_blind_bind; [|intros _].
    { destruct (negb _); [apply log_blind_log|apply log_blind_pure]. }
    apply log_blind_bind; [apply log_blind_lift|intros items].
    apply log_blind_for_each. intros raw. apply log_blind_save_item. }
  assert (Hbare : save_results E term (VList l) w = K w).
  { unfold save_results. cbv zeta. unfold py_or. by rewrite Htl. }
  assert (Henvelope : exists line,
            save_results E term (VDict d) w = K (add_log line w)).
  { unfold save_results. cbv zeta. unfold py_or at 1. rewrite Hd.
    assert (Hinner : py_or (e_objects E) (dict_get d "Search")
                       (py_or (e_objects E) (dict_get d "search")
                          (dict_get d "results")) = VList l).
    { unfold py_or at 1. by rewrite Hsearch, Htl. }
    unfold bindM at 1, unwrap_envelope. cbv zeta. rewrite Hinner.
    cbn [is_none]. unfold bindM at 1, lift at 1. cbn [py_len].
    unfold bindM at 1, log at 1, pure at 1. by eexists. }
  destruct Henvelope as [line ->]. rewrite Hbare.
  apply Hblind, same_but_log_add_log, same_but_log_refl.
Qed.

Lemma envelope_like_bare_list_witness :
  let E := omdb_env api_key_settings answer_one_hit in
  let d := [("Search", VList [VDict matrix_hit; VDict series_hit]);
            ("totalResults", VStr "2"); ("Response", VStr "True")] in
  let l := [VDict matrix_hit; VDict series_hit] in
  (save_results E "the matrix" (VDict d) heat_partial_world).1
  = (save_results E "the matrix" (VList l) heat_partial_world).1
  /\ same_but_log (save_results E "the matrix" (VDict d) heat_partial_world).2
                  (save_results E "the matrix" (VList l) heat_partial_world).2.
Proof.
  cbv zeta.
  apply (envelope_like_bare_list (omdb_env api_key_settings answer_one_hit));
    [reflexivity|discriminate].
Defined.

(** ** The repository's own client behind the integration *)

(** An [OmdbClient] has none of the attributes the integration probes
    for: what it offers is [search], [get_movie_details],
    [_make_request] and [api_key]. *)
Lemma omdb_client_lacks O get key name :
  name ∈ by_id_names \/ name ∈ title_names ->
  getattr_default (Client.OmdbClient O get key) (VObj 0%nat) name VNone
  = Ok VNone.
Proof.
  unfold by_id_names, title_names. intros [H|H];
    repeat (apply elem_of_cons in H as [->|H]; [reflexivity|]);
    by apply elem_of_nil in H.
Qed.

(** With an [OmdbClient] as the client, [_fetch_by_imdb_id] never calls
    the client: its [get_movie_details] is not among the names tried,
    and the answer is the one of the HTTP fallback with the key of the
    settings.  So when the settings hold no key under any of the three
    names, [fill_movie_details] on a record that is not full gives up
    without a request, whatever key the client itself holds: the record
    and the database are as they were. *)
Theorem omdb_client_details_by_fallback (E : env) (O : objects)
    (get : string -> pydict -> result response) (key : pyval) :
  e_objects E = Client.OmdbClient O get key ->
  e_client E = VObj 0%nat ->
  (forall imdb_id w,
     _fetch_by_imdb_id E (e_client E) imdb_id w = http_fallback E imdb_id w)
  /\ (truthy (e_objects E) (configured_api_key E) = false ->
      forall movie w,
        m_is_full_record movie = false ->
        exists w',
          fill_movie_details E movie w = (Ok movie, w')
          /\ w_events w' = w_events w
          /\ database_kept w w').
Proof.
  intros HO Hclient.
  assert (Hfetch : forall imdb_id w,
            _fetch_by_imdb_id E (e_client E) imdb_id w = http_fallback E imdb_id w).
  { intros imdb_id w. unfold _fetch_by_imdb_id, bindM.
    rewrite probe_by_id_without_candidates; [done|].
    intros name Hname. exists VNone. rewrite HO, Hclient.
    split; [|done]. apply omdb_client_lacks. by left. }
  split; [exact Hfetch|].
  intros Hkey movie w Hfull.
  unfold fill_movie_details. rewrite Hfull. cbv zeta.
  unfold bindM at 1. rewrite Hfetch.
  unfold http_fallback. cbv zeta. fold (configured_api_key E). rewrite Hkey.
  cbn [negb]. unfold bindM at 1, log at 1, pure at 1.
  assert (Hnone : truthy (e_objects E) VNone = false) by reflexivity.
  rewrite Hnone. cbn [negb]. unfold bindM, log, pure.
  eexists. split; [reflexivity|]. by repeat split.
Qed.

Lemma omdb_client_details_by_fallback_witness :
  let E := omdb_env no_settings answer_heat in
  (forall imdb_id w,
     _fetch_by_imdb_id E (e_client E) imdb_id w = http_fallback E imdb_id w)
  /\ exists w',
       fill_movie_details E heat_partial heat_partial_world
       = (Ok heat_partial, w')
       /\ w_events w' = w_events heat_partial_world
       /\ database_kept heat_partial_world w'.
Proof.
  cbv zeta.
  destruct (omdb_client_details_by_fallback (omdb_env no_settings answer_heat)
              no_objects answer_heat (VStr "k") eq_refl eq_refl) as [H1 H2].
  split; [exact H1|].
  exact (H2 eq_refl heat_partial heat_partial_world eq_refl).
Defined.

Lemma lookup_by_title_without_getters E client item names w :
  (forall name, name ∈ names ->
     getattr_default (e_objects E) client name VNone = Ok VNone) ->
  lookup_by_title E client item names w = (Ok (bare_item item), w).
Proof.
  induction names as [|name rest IH]; intros Hall; [reflexivity|].
  cbn [lookup_by_title]. unfold bindM at 1, lift.
  rewrite (Hall name); [|apply list_elem_of_here].
  unfold bindM at 1, attempt, title_attempt. cbn [callable pure].
  apply IH. intros n Hn. apply Hall. by apply list_elem_of_further.
Qed.

(** With an [OmdbClient] as the client nothing is ever resolved by
    title, since the client has no [get] and no other title getter: a
    text among the results, and a mapping without an identifier that the
    type filter lets through, are skipped with the warning, without an
    upstream call and without a record saved. *)
Theorem omdb_client_resolves_nothing (E : env) (O : objects)
    (get : string -> pydict -> result response) (key : pyval) (w : world) :
  e_objects E = Client.OmdbClient O get key ->
  (forall s,
     save_item E (VObj 0%nat) (VStr s) w
     = (Ok tt,
        add_log (Log WARNING "Skipping item without imdbID: %r"
                   [VDict (bare_item s)]) w))
  /\ (forall d,
        let imdb_id := py_or (e_objects E) (dict_get d "imdbID")
                         (py_or (e_objects E) (dict_get d "imdb_id")
                            (dict_get d "imdbId")) in
        truthy (e_objects E) imdb_id = false ->
        truthy (e_objects E) (dict_get d "Type") = false
        \/ eq_str (dict_get d "Type") "movie" = true ->
        save_item E (VObj 0%nat) (VDict d) w
        = (Ok tt,
           add_log (Log WARNING "Skipping item without imdbID: %r"
                      [VDict [("Title", dict_get d "Title");
                              ("Year", dict_get d "Year");
                              ("imdbID", imdb_id);
                              ("Type", dict_get d "Type")]]) w)).
Proof.
  intros HO.
  assert (Hget : getattr_default (e_objects E) (VObj 0%nat) "get" VNone = Ok VNone).
  { rewrite HO. reflexivity. }
  split.
  - intros s. unfold save_item, _normalize_search_item. cbv zeta.
    unfold bindM at 1.
    rewrite lookup_by_title_without_getters.
    2:{ intros name Hname. rewrite HO. apply omdb_client_lacks. by right. }
    unfold bare_item.
    cbn [truthy negb andb dict_get String.eqb Ascii.eqb Bool.eqb].
    unfold resolve_missing_id. cbv zeta. cbn [truthy negb andb].
    destruct (negb (Text.is_empty s)).
    + unfold bindM at 1. unfold bindM at 1, lift. rewrite Hget.
      cbn [callable]. unfold pure at 1. cbn [truthy negb]. reflexivity.
    + unfold bindM at 1, pure at 1. cbn [truthy negb]. reflexivity.
  - intros d. cbv zeta. intros Hid Hty.
    unfold save_item, _normalize_search_item. cbv zeta.
    unfold bindM at 1, pure at 1.
    cbn [truthy negb dict_get String.eqb Ascii.eqb Bool.eqb].
    assert (Hskip : truthy (e_objects E) (dict_get d "Type")
                    && negb (eq_str (dict_get d "Type") "movie") = false).
    { destruct Hty as [->| ->]; [done|]. by rewrite andb_false_r. }
    rewrite Hskip. unfold resolve_missing_id. cbv zeta. rewrite Hid.
    cbn [negb andb].
    destruct (truthy (e_objects E) (dict_get d "Title")).
    + unfold bindM at 1. unfold bindM at 1, lift. rewrite Hget.
      cbn [callable]. unfold pure at 1. rewrite Hid. reflexivity.
    + unfold bindM at 1, pure at 1. rewrite Hid. reflexivity.
Qed.

Lemma omdb_client_resolves_nothing_witness :
  save_item (omdb_env api_key_settings answer_one_hit) (VObj 0%nat)
    (VStr "The Matrix") heat_partial_world
  = (Ok tt,
     add_log (Log WARNING "Skipping item without imdbID: %r"
                [VDict (bare_item "The Matrix")]) heat_partial_world).
Proof.
  exact (proj1 (omdb_client_resolves_nothing
                  (omdb_env api_key_settings answer_one_hit) no_objects
                  answer_one_hit (VStr "k") heat_partial_world eq_refl)
           "The Matrix").
Defined.

(** ** [OmdbClient._make_request] *)

Lemma dict_set_get d k v : dict_get (Client.dict_set d k v) k = v.
Proof.
  induction d as [|[k' x] r IH]; simpl.
  - by rewrite String.eqb_refl.
  - destruct (String.eqb k' k) eqn:Hk; simpl.
    + by rewrite String.eqb_refl.
    + by rewrite Hk.
Qed.

Lemma dict_set_get_other d k v k0 :
  k0 <> k -> dict_get (Client.dict_set d k v) k0 = dict_get d k0.
Proof.
  intros Hne.
  assert (Hk0 : String.eqb k k0 = false).
  { apply String.eqb_neq. congruence. }
  induction d as [|[k' x] r IH]; simpl.
  - by rewrite Hk0.
  - destruct (String.eqb k' k) eqn:Hk; simpl.
    + apply String.eqb_eq in Hk as ->. by rewrite Hk0.
    + by rewrite IH.
Qed.

(** What [_make_request] hands back it has got from one GET to the API
    address, sent with the caller's parameters and the client's key
    under [apikey] (in place of any [apikey] the caller gave): the answer
    came with a status outside 400-599, it is the parsed body, and its
    [Response] field is not the text "False". *)
Theorem make_request_returns (O : objects)
    (get : string -> pydict -> result response) (api_key : pyval)
    (params : pydict) (data : pyval) :
  Client._make_request O get api_key params = Ok data ->
  exists sent resp flag,
    get Client.OMDB_API_URL sent = Ok resp
    /\ dict_get sent "apikey" = api_key
    /\ (forall k, k <> "apikey" -> dict_get sent k = dict_get params k)
    /\ (status_code resp < 400 \/ 600 <= status_code resp)
    /\ json resp = Ok data
    /\ py_get O data "Response" = Ok flag
    /\ eq_str flag "False" = false.
Proof.
  unfold Client._make_request. cbv zeta.
  destruct (get _ _) as [resp|e] eqn:Hget; simpl; [|done].
  destruct (negb (status_code resp =? 200)) eqn:H200.
  - unfold raise_for_status.
    destruct ((400 <=? status_code resp) && (status_code resp <? 600)) eqn:Hst;
      simpl; [done|].
    destruct (json resp) as [d|e] eqn:Hjson; simpl; [|done].
    destruct (py_get O d "Response") as [flag|e] eqn:Hflag; simpl; [|done].
    destruct (eq_str flag "False") eqn:Hfalse.
    { destruct (py_get O d "Error"); simpl; done. }
    intros [= <-]. exists (Client.dict_set params "apikey" api_key), resp, flag.
    split; [done|]. split; [apply dict_set_get|].
    split; [intros k Hk; by apply dict_set_get_other|].
    split; [|done].
    apply andb_false_iff in Hst as [H|H]; [left|right]; lia.
  - simpl.
    destruct (json resp) as [d|e] eqn:Hjson; simpl; [|done].
    destruct (py_get O d "Response") as [flag|e] eqn:Hflag; simpl; [|done].
    destruct (eq_str flag "False") eqn:Hfalse.
    { destruct (py_get O d "Error"); simpl; done. }
    intros [= <-]. exists (Client.dict_set params "apikey" api_key), resp, flag.
    split; [done|]. split; [apply dict_set_get|].
    split; [intros k Hk; by apply dict_set_get_other|].
    split; [|done].
    apply negb_false_iff, Z.eqb_eq in H200. lia.
Qed.

Lemma make_request_returns_witness :
  exists sent resp flag,
    answer_heat Client.OMDB_API_URL sent = Ok resp
    /\ dict_get sent "apikey" = VStr "k"
    /\ (forall k, k <> "apikey" ->
          dict_get sent k
          = dict_get [("i", VStr "tt0113277"); ("apikey", VStr "other")] k)
    /\ (status_code resp < 400 \/ 600 <= status_code resp)
    /\ json resp = Ok (VDict heat_detail)
    /\ py_get no_objects (VDict heat_detail) "Response" = Ok flag
    /\ eq_str flag "False" = false.
Proof.
  exact (make_request_returns no_objects answer_heat (VStr "k")
           [("i", VStr "tt0113277"); ("apikey", VStr "other")]
           (VDict heat_detail) eq_refl).
Defined.

(** ** The movie class of the client *)

(** For a separator of one character, [split] is [Text.split_on]. *)
Lemma split_one_char c s :
  OmdbMovie.split (String c EmptyString) s = Text.split_on c s.
Proof.
  unfold OmdbMovie.split. induction s as [|x r IH]; [reflexivity|].
  cbn [OmdbMovie.split_from OmdbMovie.startswith Text.split_on String.length].
  rewrite (Ascii.eqb_sym c x).
  destruct (Ascii.eqb x c); cbn [andb Nat.sub].
  - destruct (OmdbMovie.split_from _ 0 r) as [p ps]. by rewrite <- IH.
  - rewrite <- IH. by destruct (OmdbMovie.split_from _ 0 r) as [p ps].
Qed.

Lemma split_on_whole sep s :
  Text.contains sep s = false -> Text.split_on sep s = [s].
Proof.
  induction s as [|c r IH]; simpl; [done|].
  intros [Hc Hr]%orb_false_elim. by rewrite Hc, (IH Hr).
Qed.

Lemma split_on_first sep a b :
  Text.contains sep a = false ->
  Text.split_on sep (a ++ String sep b) = a :: Text.split_on sep b.
Proof.
  induction a as [|c r IH]; simpl.
  - by rewrite Ascii.eqb_refl.
  - intros [Hc Hr]%orb_false_elim. by rewrite Hc, (IH Hr).
Qed.

Lemma split_on_nonempty sep s : Text.split_on sep s <> [].
Proof.
  destruct s as [|c r]; simpl; [done|].
  destruct (Ascii.eqb c sep); [done|]. by destruct (Text.split_on sep r).
Qed.

Lemma split_on_one sep s b :
  Text.split_on sep s = [b] -> s = b /\ Text.contains sep s = false.
Proof.
  revert b. induction s as [|x r IH]; simpl; intros b.
  - by intros [= <-].
  - destruct (Ascii.eqb x sep).
    + intros [= _ Hr]. by destruct (split_on_nonempty sep r).
    + destruct (Text.split_on sep r) as [|h t] eqn:Hsplit.
      * by destruct (split_on_nonempty sep r).
      * intros [= <- ->]. destruct (IH h eq_refl) as [-> Hn]. by rewrite Hn.
Qed.

(** Two pieces: one separator, between them. *)
Lemma split_on_two sep s a b :
  Text.split_on sep s = [a; b] ->
  s = a ++ String sep b
  /\ Text.contains sep a = false /\ Text.contains sep b = false.
Proof.
  revert a. induction s as [|c r IH]; simpl; intros a; [done|].
  destruct (Ascii.eqb c sep) eqn:Hc.
  - apply Ascii.eqb_eq in Hc as ->. intros [= <- Hr].
    apply split_on_one in Hr as [-> Hn]. by repeat split.
  - destruct (Text.split_on sep r) as [|h t] eqn:Hsplit; [done|].
    intros [= <- ->]. destruct (IH h eq_refl) as (-> & Ha & Hb).
    repeat split; [|done]. simpl. by rewrite Hc, Ha.
Qed.

Lemma dict_get_has d k s : dict_get d k = VStr s -> dict_has d k = true.
Proof.
  induction d as [|[k' v] r IH]; simpl; [done|].
  destruct (String.eqb k' k); [done|]. exact IH.
Qed.

Lemma runtime_minutes_of_text data rt n :
  dict_get data "Runtime" = VStr (rt ++ " min") ->
  Text.contains " " rt = false ->
  Text.int_of_str rt = Some n ->
  OmdbMovie.runtime_minutes data = Ok (VInt n).
Proof.
  intros Hget Hrt Hint.
  unfold OmdbMovie.runtime_minutes, OmdbMovie.check_for_detail_data_key,
    OmdbMovie.item.
  rewrite (dict_get_has _ _ _ Hget), Hget. cbn [negb rbind OmdbMovie.py_split].
  rewrite split_one_char.
  change (rt ++ " min") with (rt ++ String " " "min").
  rewrite (split_on_first " " rt "min" Hrt).
  cbn [Text.split_on Ascii.eqb Bool.eqb String.eqb negb py_int].
  unfold py_int_of_str. by rewrite Hint.
Qed.

(** [OmdbMovie.runtime_minutes] gives a number for a runtime of exactly
    this form and for no other data: a text made of one piece without a
    space that [int()] accepts, one space and the unit [min]; the number
    is the [int()] of the piece. *)
Theorem omdb_movie_runtime_minutes (data : pydict) (v : pyval) :
  OmdbMovie.runtime_minutes data = Ok v
  <-> exists rt n,
        dict_get data "Runtime" = VStr (rt ++ " min")
        /\ Text.contains " " rt = false
        /\ Text.int_of_str rt = Some n
        /\ v = VInt n.
Proof.
  split.
  - unfold OmdbMovie.runtime_minutes, OmdbMovie.check_for_detail_data_key,
      OmdbMovie.item.
    destruct (dict_has data "Runtime"); cbn [negb rbind]; [|done].
    destruct (dict_get data "Runtime") as [| | |s| | | |]; try done.
    cbn [OmdbMovie.py_split rbind]. rewrite split_one_char.
    destruct (Text.split_on " " s) as [|rt [|units [|x t]]] eqn:Hsplit;
      try done.
    destruct (String.eqb units "min") eqn:Hunits; cbn [negb]; [|done].
    apply String.eqb_eq in Hunits as ->.
    apply split_on_two in Hsplit as (-> & Hrt & _).
    cbn [py_int]. unfold py_int_of_str.
    destruct (Text.int_of_str rt) as [n|] eqn:Hint; [|done].
    intros [= <-]. by exists rt, n.
  - intros (rt & n & Hget & Hrt & Hint & ->).
    by apply (runtime_minutes_of_text data rt n).
Qed.

Lemma omdb_movie_runtime_minutes_witness :
  OmdbMovie.runtime_minutes heat_detail = Ok (VInt 170)
  /\ exists rt n,
       dict_get heat_detail "Runtime" = VStr (rt ++ " min")
       /\ Text.contains " " rt = false
       /\ Text.int_of_str rt = Some n
       /\ VInt 170 = VInt n.
Proof.
  split; [reflexivity|].
  exact (proj1 (omdb_movie_runtime_minutes heat_detail (VInt 170)) eq_refl).
Defined.

(** A separator before the number is no whitespace for [int()]: the
    property raises. *)
Example runtime_minutes_after_separator :
  OmdbMovie.runtime_minutes [("Runtime", VStr (String (ascii_of_N 31) "17 min"))]
  = Raise ValueError.
Proof. reflexivity. Qed.

Lemma decimal_no_space s :
  Text.forallb_str Text.isdecimal_char s = true -> Text.contains " " s = false.
Proof.
  induction s as [|c r IH]; simpl; [done|].
  intros [Hc Hr]%andb_prop. rewrite (IH Hr), orb_false_r.
  destruct (Ascii.eqb c " ") eqn:Heq; [|done].
  apply Ascii.eqb_eq in Heq as ->. discriminate.
Qed.

Lemma split_from_last a :
  Text.contains "," a = false -> OmdbMovie.split_from ", " 0 a = (a, []).
Proof.
  induction a as [|c r IH]; [done|].
  cbn [Text.contains OmdbMovie.split_from OmdbMovie.startswith].
  intros [Hc Hr]%orb_false_elim. rewrite (Ascii.eqb_sym "," c), Hc.
  cbn [andb]. by rewrite (IH Hr).
Qed.

Lemma split_from_piece a rest :
  Text.contains "," a = false ->
  OmdbMovie.split_from ", " 0 (a ++ String "," (String " " rest))
  = (a, OmdbMovie.split ", " rest).
Proof.
  induction a as [|c r IH].
  - intros _. simpl. unfold OmdbMovie.split.
    by destruct (OmdbMovie.split_from ", " 0 rest).
  - cbn [Text.contains]. intros [Hc Hr]%orb_false_elim.
    change (String c r ++ String "," (String " " rest))
      with (String c (r ++ String "," (String " " rest))).
    cbn [OmdbMovie.split_from OmdbMovie.startswith].
    rewrite (Ascii.eqb_sym "," c), Hc. cbn [andb]. by rewrite (IH Hr).
Qed.

Lemma join_cons sep x y r :
  Text.join sep (x :: y :: r) = x ++ sep ++ Text.join sep (y :: r).
Proof. reflexivity. Qed.

(** [", ".join(names).split(", ")] gives the names back. *)
Lemma split_join_names names :
  names <> [] ->
  Forall genre_name names ->
  OmdbMovie.split ", " (Text.join ", " names) = names.
Proof.
  induction names as [|x [|y r] IH]; [done| |]; intros _ Hnames.
  - inversion Hnames as [|? ? [_ Hx] _]; subst.
    unfold OmdbMovie.split. cbn [Text.join]. by rewrite (split_from_last x Hx).
  - inversion Hnames as [|? ? [_ Hx] Hrest]; subst.
    rewrite join_cons. unfold OmdbMovie.split at 1.
    change (x ++ ", " ++ Text.join ", " (y :: r))
      with (x ++ String "," (String " " (Text.join ", " (y :: r)))).
    rewrite (split_from_piece x _ Hx). f_equal. by apply IH.
Qed.

Lemma contains_app x a b :
  Text.contains x (a ++ b) = Text.contains x a || Text.contains x b.
Proof.
  induction a as [|c r IH]; simpl; [done|]. by rewrite IH, orb_assoc.
Qed.

Lemma strip_after_space g : Text.strip (String " " g) = Text.strip g.
Proof. reflexivity. Qed.

Lemma stripped_parts_join_from lead names :
  lead = EmptyString \/ lead = " " ->
  names <> [] ->
  Forall genre_name names ->
  stripped_parts (Text.split_on "," (lead ++ Text.join ", " names)) = names.
Proof.
  intros Hlead Hne Hnames. revert lead Hlead.
  induction names as [|x [|y r] IH]; [done| |]; intros lead Hlead.
  - inversion Hnames as [|? ? [[Hx Hstrip] Hcomma] _]; subst.
    cbn [Text.join].
    assert (Hwhole : Text.contains "," (lead ++ x) = false).
    { rewrite contains_app, Hcomma. by destruct Hlead as [-> | ->]. }
    rewrite (split_on_whole _ _ Hwhole). cbn [stripped_parts].
    assert (Hs : Text.strip (lead ++ x) = x).
    { destruct Hlead as [-> | ->]; [exact Hstrip|].
      change (" " ++ x) with (String " " x). by rewrite strip_after_space. }
    rewrite Hs. by destruct x.
  - inversion Hnames as [|? ? [[Hx Hstrip] Hcomma] Hrest]; subst.
    rewrite join_cons.
    assert (Hwhole : Text.contains "," (lead ++ x) = false).
    { rewrite contains_app, Hcomma. by destruct Hlead as [-> | ->]. }
    assert (Hshape : lead ++ x ++ ", " ++ Text.join ", " (y :: r)
                     = (lead ++ x)
                       ++ String "," (" " ++ Text.join ", " (y :: r))).
    { destruct Hlead as [-> | ->]; [reflexivity|].
      change (" " ++ x ++ ", " ++ Text.join ", " (y :: r))
        with (String " " (x ++ String "," (String " " (Text.join ", " (y :: r))))).
      change ((" " ++ x) ++ String "," (" " ++ Text.join ", " (y :: r)))
        with (String " " (x ++ String "," (String " " (Text.join ", " (y :: r))))).
      reflexivity. }
    rewrite Hshape, (split_on_first _ _ _ Hwhole). cbn [stripped_parts].
    assert (Hs : Text.strip (lead ++ x) = x).
    { destruct Hlead as [-> | ->]; [exact Hstrip|].
      change (" " ++ x) with (String " " x). by rewrite strip_after_space. }
    rewrite Hs.
    assert (Hnonempty : negb (Text.is_empty x) = true) by (by destruct x).
    rewrite Hnonempty. f_equal. apply IH; [done|done|by right].
Qed.

Lemma stripped_items_names O names :
  Forall trimmed_name names -> stripped_items O (VStr <$> names) = Ok names.
Proof.
  induction 1 as [|g r [Hg Hstrip] _ IH]; [reflexivity|].
  cbn [fmap list_fmap stripped_items py_str rbind]. rewrite Hstrip.
  assert (Hnonempty : negb (Text.is_empty g) = true) by (by destruct g).
  rewrite Hnonempty. change (list_fmap _ _ VStr r) with (VStr <$> r).
  by rewrite IH.
Qed.

Lemma join_nonempty sep names :
  names <> [] -> Forall genre_name names ->
  Text.is_empty (Text.join sep names) = false.
Proof.
  destruct names as [|x [|y r]]; [done| |]; intros _ Hnames;
    inversion Hnames as [|? ? [[Hx _] _] _]; subst.
  - by destruct x.
  - rewrite join_cons. by destruct x.
Qed.

Lemma decimal_text_int s :
  decimal_text s ->
  exists n, Text.int_of_str s = Some n /\ 0 <= n /\ Text.isdigit s = true.
Proof.
  intros (Hne & Hs & Hlen).
  destruct (int_of_decimal_run s Hne Hs Hlen) as (n & Hn & Hpos).
  exists n. split; [done|]. split; [done|].
  unfold Text.isdigit. rewrite (decimal_run_is_digits s Hs). by destruct s.
Qed.

Lemma omdb_movie_attr O r data method name v :
  O r = OmdbMovie.instance data method ->
  o_getattr (OmdbMovie.instance data method) name = Ok v ->
  callable O v = false ->
  _callable_attr O (VObj r) name = Ok v.
Proof.
  intros HO Hget Hcall.
  unfold _callable_attr, getattr_default, py_getattr.
  rewrite HO, Hget. cbn [rbind]. by rewrite Hcall.
Qed.

Lemma omdb_movie_no_attr O r data method name :
  O r = OmdbMovie.instance data method ->
  o_getattr (OmdbMovie.instance data method) name = Raise AttributeError ->
  _callable_attr O (VObj r) name = Ok VNone.
Proof.
  intros HO Hget.
  unfold _callable_attr, getattr_default, py_getattr.
  by rewrite HO, Hget.
Qed.

(** A well-formed detail answer wrapped in [OmdbMovie] goes through the
    Detail Normalizer as the answer itself does: the object branch,
    reading the properties of the class, and the mapping branch, reading
    the keys, give the same normalized detail, with the year and the
    runtime as numbers and the genre names in their order. *)
Theorem omdb_movie_normalizes_like_its_data (O : objects) (r method : objref)
    (data : pydict) (a : detail_answer) :
  O r = OmdbMovie.instance data method ->
  answers data a ->
  exists year minutes,
    Text.int_of_str (a_year a) = Some year
    /\ Text.int_of_str (a_minutes a) = Some minutes
    /\ _normalize_detail_obj O (VDict data)
       = Ok [("Title", VStr (a_title a)); ("Year", VInt year);
             ("imdbID", VStr (a_imdb_id a)); ("Plot", VStr (a_plot a));
             ("RuntimeMinutes", VInt minutes);
             ("Genres", VList (VStr <$> a_genres a))]
    /\ _normalize_detail_obj O (VObj r) = _normalize_detail_obj O (VDict data).
Proof.
  intros HO (Ht & Hy & Hyd & Hi & Hine & Hp & Hr & Hrd & Hg & Hgne & Hnames).
  destruct (decimal_text_int _ Hyd) as (year & Hyear & _ & Hydig).
  destruct (decimal_text_int _ Hrd) as (minutes & Hmin & _ & _).
  exists year, minutes. split; [done|]. split; [done|].
  assert (Htrimmed : Forall trimmed_name (a_genres a)).
  { eapply Forall_impl; [exact Hnames|]. by intros g [? _]. }
  assert (Hmapping :
            _normalize_detail_obj O (VDict data)
            = Ok [("Title", VStr (a_title a)); ("Year", VInt year);
                  ("imdbID", VStr (a_imdb_id a)); ("Plot", VStr (a_plot a));
                  ("RuntimeMinutes", VInt minutes);
                  ("Genres", VList (VStr <$> a_genres a))]).
  { unfold _normalize_detail_obj. cbn [is_none detail_raw_fields rbind].
    rewrite Ht, Hy, Hi, Hp, Hr, Hg.
    assert (Hid : forall x, py_or O (VStr (a_imdb_id a)) x = VStr (a_imdb_id a)).
    { intros x. unfold py_or. cbn [truthy].
      destruct (a_imdb_id a); [done|reflexivity]. }
    assert (Hrun : forall x, py_or O (VStr (a_minutes a ++ " min")) x
                             = VStr (a_minutes a ++ " min")).
    { intros x. unfold py_or. cbn [truthy]. by destruct (a_minutes a). }
    assert (Hgen : forall x, py_or O (VStr (Text.join ", " (a_genres a))) x
                             = VStr (Text.join ", " (a_genres a))).
    { intros x. unfold py_or. cbn [truthy].
      by rewrite (join_nonempty ", " _ Hgne Hnames). }
    rewrite Hid, Hrun, Hgen.
    cbn [f_title f_year f_imdb_id f_plot f_runtime_str f_genres
         detail_genre_list].
    pose proof (stripped_parts_join_from EmptyString (a_genres a)
                  (or_introl eq_refl) Hgne Hnames) as Hparts.
    change (EmptyString ++ Text.join ", " (a_genres a))
      with (Text.join ", " (a_genres a)) in Hparts.
    rewrite Hparts. cbn [rbind].
    assert (Hyv : detail_year_val O (VStr (a_year a)) = VInt year).
    { unfold detail_year_val. cbn [isinstance_int isinstance_str str_isdigit].
      rewrite Hydig. cbn [andb py_int]. unfold py_int_of_str.
      by rewrite Hyear. }
    assert (Hrv : detail_runtime_minutes (VStr (a_minutes a ++ " min"))
                  = VInt minutes).
    { unfold detail_runtime_minutes. cbn [isinstance_int].
      destruct Hrd as (Hne & Hdec & _).
      pose proof (re_search_digits_run EmptyString (a_minutes a) " min"
                    eq_refl Hne Hdec) as Hsearch.
      change (EmptyString ++ a_minutes a ++ " min")
        with (a_minutes a ++ " min") in Hsearch.
      rewrite Hsearch.
      - cbn [int_of_match]. unfold py_int_of_str. by rewrite Hmin.
      - right. by exists " "%char, "min". }
    by rewrite Hyv, Hrv. }
  split; [exact Hmapping|]. rewrite Hmapping.
  unfold _normalize_detail_obj. cbn [is_none detail_raw_fields].
  rewrite (omdb_movie_attr O r data method "title" (VStr (a_title a)) HO).
  2:{ cbn. unfold OmdbMovie.title, OmdbMovie.item.
      by rewrite (dict_get_has _ _ _ Ht), Ht. }
  2:{ reflexivity. }
  rewrite (omdb_movie_attr O r data method "year" (VInt year) HO).
  2:{ cbn. unfold OmdbMovie.year, OmdbMovie.item.
      rewrite (dict_get_has _ _ _ Hy), Hy. cbn [rbind py_int].
      unfold py_int_of_str. by rewrite Hyear. }
  2:{ reflexivity. }
  rewrite (ror_ok O _ _ (VStr (a_imdb_id a)) VNone).
  2:{ apply (omdb_movie_attr O r data method); [done| |reflexivity].
      cbn. unfold OmdbMovie.imdb_id, OmdbMovie.item.
      by rewrite (dict_get_has _ _ _ Hi), Hi. }
  2:{ by apply (omdb_movie_no_attr O r data method). }
  rewrite (omdb_movie_attr O r data method "plot" (VStr (a_plot a)) HO).
  2:{ cbn. unfold OmdbMovie.plot, OmdbMovie.check_for_detail_data_key,
        OmdbMovie.item.
      by rewrite (dict_get_has _ _ _ Hp), Hp. }
  2:{ reflexivity. }
  rewrite (ror_ok O _ _ VNone (VInt minutes)).
  2:{ by apply (omdb_movie_no_attr O r data method). }
  2:{ apply (omdb_movie_attr O r data method); [done| |reflexivity].
      cbn. apply (runtime_minutes_of_text data (a_minutes a) minutes);
        [done| |done].
      apply decimal_no_space. by destruct Hrd as (_ & ? & _). }
  rewrite (omdb_movie_attr O r data method "genres"
             (VList (VStr <$> a_genres a)) HO).
  2:{ cbn. unfold OmdbMovie.genres, OmdbMovie.check_for_detail_data_key,
        OmdbMovie.item.
      rewrite (dict_get_has _ _ _ Hg), Hg.
      cbn [negb rbind OmdbMovie.py_split].
      by rewrite (split_join_names _ Hgne Hnames). }
  2:{ reflexivity. }
  cbn [rbind f_title f_year f_imdb_id f_plot f_runtime_str f_genres
       detail_genre_list].
  rewrite (stripped_items_names O _ Htrimmed). cbn [rbind].
  assert (Hid : py_or O (VStr (a_imdb_id a)) VNone = VStr (a_imdb_id a)).
  { unfold py_or. cbn [truthy]. destruct (a_imdb_id a); [done|reflexivity]. }
  rewrite Hid. reflexivity.
Qed.

Lemma omdb_movie_normalizes_like_its_data_witness :
  exists year minutes,
    Text.int_of_str "1995" = Some year
    /\ Text.int_of_str "170" = Some minutes
    /\ _normalize_detail_obj heat_movie_objects (VDict heat_detail)
       = Ok [("Title", VStr "Heat"); ("Year", VInt year);
             ("imdbID", VStr "tt0113277");
             ("Plot", VStr "A group of professional bank robbers...");
             ("RuntimeMinutes", VInt minutes);
             ("Genres", VList [VStr "Action"; VStr "Crime"; VStr "Drama"])]
    /\ _normalize_detail_obj heat_movie_objects (VObj 0%nat)
       = _normalize_detail_obj heat_movie_objects (VDict heat_detail).
Proof.
  apply (omdb_movie_normalizes_like_its_data heat_movie_objects 0%nat 1%nat
           heat_detail heat_answer eq_refl).
  repeat split; try reflexivity; try discriminate;
    try (vm_compute; discriminate).
  repeat constructor; try discriminate; reflexivity.
Defined.

(** A search hit wrapped in [OmdbMovie] has no plot, runtime or genre:
    reading these properties raises [AttributeError], which the reads
    of the Detail Normalizer turn into null, so the hit is normalized
    with a null plot, a null runtime and no genres.  The year is the
    [int()] of the year text, and a year text that [int()] refuses (a
    range of years, say) makes the Detail Normalizer raise the
    [ValueError] of the property. *)
Theorem omdb_movie_search_hit (O : objects) (r method : objref)
    (data : pydict) (t ys i : string) :
  O r = OmdbMovie.instance data method ->
  dict_get data "Title" = VStr t ->
  dict_get data "Year" = VStr ys ->
  dict_get data "imdbID" = VStr i ->
  dict_has data "Plot" = false ->
  dict_has data "Runtime" = false ->
  dict_has data "Genre" = false ->
  _normalize_detail_obj O (VObj r)
  = match Text.int_of_str ys with
    | Some n =>
        Ok [("Title", VStr t); ("Year", VInt n);
            ("imdbID", py_or O (VStr i) VNone); ("Plot", VNone);
            ("RuntimeMinutes", VNone); ("Genres", VList [])]
    | None => Raise ValueError
    end.
Proof.
  intros HO Ht Hy Hi Hp Hr Hg.
  unfold _normalize_detail_obj. cbn [is_none detail_raw_fields].
  rewrite (omdb_movie_attr O r data method "title" (VStr t) HO).
  2:{ cbn. unfold OmdbMovie.title, OmdbMovie.item.
      by rewrite (dict_get_has _ _ _ Ht), Ht. }
  2:{ reflexivity. }
  cbn [rbind].
  destruct (Text.int_of_str ys) as [n|] eqn:Hint.
  - rewrite (omdb_movie_attr O r data method "year" (VInt n) HO).
    2:{ cbn. unfold OmdbMovie.year, OmdbMovie.item.
        rewrite (dict_get_has _ _ _ Hy), Hy. cbn [rbind py_int].
        unfold py_int_of_str. by rewrite Hint. }
    2:{ reflexivity. }
    rewrite (ror_ok O _ _ (VStr i) VNone).
    2:{ apply (omdb_movie_attr O r data method); [done| |reflexivity].
        cbn. unfold OmdbMovie.imdb_id, OmdbMovie.item.
        by rewrite (dict_get_has _ _ _ Hi), Hi. }
    2:{ by apply (omdb_movie_no_attr O r data method). }
    rewrite (omdb_movie_no_attr O r data method "plot" HO).
    2:{ cbn. unfold OmdbMovie.plot, OmdbMovie.check_for_detail_data_key.
        by rewrite Hp. }
    rewrite (ror_ok O _ _ VNone VNone).
    2:{ by apply (omdb_movie_no_attr O r data method). }
    2:{ apply (omdb_movie_no_attr O r data method); [done|].
        cbn. unfold OmdbMovie.runtime_minutes,
          OmdbMovie.check_for_detail_data_key.
        by rewrite Hr. }
    rewrite (omdb_movie_no_attr O r data method "genres" HO).
    2:{ cbn. unfold OmdbMovie.genres, OmdbMovie.check_for_detail_data_key.
        by rewrite Hg. }
    reflexivity.
  - unfold _callable_attr at 1, getattr_default, py_getattr. rewrite HO.
    cbn. unfold OmdbMovie.year, OmdbMovie.item.
    rewrite (dict_get_has _ _ _ Hy), Hy. cbn [rbind py_int].
    unfold py_int_of_str. by rewrite Hint.
Qed.

Lemma omdb_movie_search_hit_witness :
  _normalize_detail_obj series_movie_objects (VObj 0%nat) = Raise ValueError
  /\ _normalize_detail_obj series_movie_objects (VDict series_hit)
     = Ok [("Title", VStr "The Matrix Files"); ("Year", VInt 1999);
           ("imdbID", VStr "tt0000001"); ("Plot", VNone);
           ("RuntimeMinutes", VNone); ("Genres", VList [])].
Proof.
  split; [|reflexivity].
  exact (omdb_movie_search_hit series_movie_objects 0%nat 1%nat series_hit
           "The Matrix Files" "1999-2003" "tt0000001"
           eq_refl eq_refl eq_refl eq_refl eq_refl eq_refl eq_refl).
Defined.

(** A year text that starts with a separator: the property raises,
    where the year rule, on the text itself, finds no year. *)
Example year_after_separator :
  OmdbMovie.year [("Year", VStr (String (ascii_of_N 31) "1999"))]
  = Raise ValueError
  /\ detail_year_val no_objects (VStr (String (ascii_of_N 31) "1999")) = VNone.
Proof. split; reflexivity. Qed.

(** ** Result lists of mappings and of movie objects *)

Lemma save_item_mapping_returns E d resolver w :
  getattr_default (e_objects E) (e_client E) "get" VNone = Ok resolver ->
  exists w', save_item E (e_client E) (VDict d) w = (Ok tt, w').
Proof.
  intros Hget. unfold save_item, _normalize_search_item. cbv zeta.
  unfold bindM at 1, pure at 1.
  destruct (negb _); [by eexists|].
  destruct (_ && _); [by eexists|].
  unfold bindM at 1.
  match goal with
  | |- context [resolve_missing_id E ?c ?i ?t ?y w] =>
      destruct (resolve_missing_id_never_raises E c i t y resolver w Hget)
        as ([[i' t'] y'] & w1 & ->)
  end.
  destruct (negb _); [by eexists|].
  unfold bindM, log, movie_get_or_create, pure. cbn [w_movies add_log].
  destruct (List.find _ _); by eexists.
Qed.

Lemma for_each_returns {A} (f : A -> M unit) (P : A -> Prop) l :
  (forall x w, P x -> exists w', f x w = (Ok tt, w')) ->
  Forall P l ->
  forall w, exists w', for_each f l w = (Ok tt, w').
Proof.
  intros Hf. induction 1 as [|x r Hx _ IH]; intros w; [by eexists|].
  cbn [for_each]. unfold bindM.
  destruct (Hf x w Hx) as [w1 ->]. apply IH.
Qed.

(** When the upstream search answers with a list of mappings and the
    Cache Guard lets the search through, [search_and_save] returns
    normally, whatever the mappings hold and whatever the by-title
    resolver does, and the SearchTerm record of the normalized term is
    stamped with the time of the call. *)
Theorem search_of_mappings_returns (E : env) (search : string) (w : world)
    (method resolver : pyval) (l : list pyval) :
  let O := e_objects E in
  let term := Text.re_sub_ws (Text.lower search) in
  py_getattr O (e_client E) "search" = Ok method ->
  callable O method = true ->
  py_call O method (positional (VStr search)) = Ok (VList l) ->
  Forall (fun x => isinstance_dict x = true) l ->
  getattr_default O (e_client E) "get" VNone = Ok resolver ->
  (forall t, w_search_terms w !! term = Some (Some t) ->
             w_now w - one_day < t ->
             truthy O (_should_override_cache_guard E) = true) ->
  exists w',
    search_and_save E search w = (Ok tt, w')
    /\ w_search_terms w' !! term = Some (Some (w_now w)).
Proof.
  cbv zeta. intros Hm Hc Hcall Hl Hget Hguard.
  set (term := Text.re_sub_ws (Text.lower search)) in *.
  assert (Hsave : forall w0, exists w2,
            save_results E term (VList l) w0 = (Ok tt, w2)).
  { intros w0. unfold save_results. cbv zeta.
    assert (Hor : py_or (e_objects E) (VList l) (VList []) = VList l).
    { unfold py_or. by destruct l. }
    rewrite Hor. unfold bindM at 1, unwrap_envelope, pure at 1.
    unfold bindM at 1.
    assert (Hnote : exists w1,
              (if negb (truthy (e_objects E) (VList l))
               then log INFO "No results returned for '%s'." [VStr term]
               else pure tt) w0 = (Ok tt, w1)).
    { destruct (negb _); by eexists. }
    destruct Hnote as [w1 ->]. unfold bindM at 1, lift. cbn [py_iter].
    apply (for_each_returns _ (fun x => isinstance_dict x = true)); [|done].
    intros x w3 Hx. destruct x; try discriminate.
    by apply (save_item_mapping_returns E _ resolver). }
  assert (Hrun : forall w0, exists w',
            run_search E search term w0 = (Ok tt, w')
            /\ w_search_terms w' !! term = Some (Some (w_now w0))).
  { intros w0. rewrite (run_search_cases E search term w0 method Hm Hc), Hcall.
    pose proof (save_results_traffic E term (VList l)
                  (search_called search term w0)) as (_ & _ & Hn).
    destruct (Hsave (search_called search term w0)) as (w2 & Hw2).
    rewrite Hw2 in Hn |- *. cbn [snd] in Hn.
    eexists. split; [reflexivity|].
    unfold stamp_search_term, bindM, now.
    cbn [snd w_search_terms set_search_terms].
    by rewrite lookup_insert_eq, Hn. }
  rewrite search_and_save_cases. cbv zeta. fold term.
  destruct (w_search_terms w !! term) as [last|] eqn:Hlook.
  - destruct (recent false last (w_now w)) eqn:Hrecent.
    + destruct last as [t|]; [|done]. simpl in Hrecent.
      apply Z.ltb_lt in Hrecent. rewrite (Hguard t eq_refl Hrecent).
      apply (Hrun (add_log (override_line term) w)).
    + apply Hrun.
  - apply (Hrun (set_search_terms (<[term := None]> (w_search_terms w)) w)).
Qed.

Lemma search_of_mappings_returns_witness :
  exists w',
    search_and_save list_search_env "The Matrix" heat_partial_world
    = (Ok tt, w')
    /\ w_search_terms w' !! "the matrix" = Some (Some (w_now heat_partial_world)).
Proof.
  apply (search_of_mappings_returns list_search_env "The Matrix"
           heat_partial_world (VObj 2%nat) (VObj 1%nat)
           [VDict matrix_hit; VDict series_hit;
            VDict [("Title", VStr "The Matrix")]]);
    [reflexivity | reflexivity | reflexivity | by repeat constructor
    | reflexivity |].
  intros t Ht. vm_compute in Ht. discriminate.
Defined.

(** An [OmdbMovie] among the results is read through its properties and
    has no [type], so the type filter never passes it over, whatever
    its data say under [Type].  With a title, an identifier and a year
    text that [int()] accepts, the Movie table has a record of the
    identifier afterwards, the one it had or a new partial one; a year
    text that [int()] refuses makes the round of the loop raise the
    [ValueError] of the property, with nothing saved. *)
Theorem save_item_omdb_movie (E : env) (client : pyval) (r method : objref)
    (data : pydict) (t ys i : string) (w : world) :
  e_objects E r = OmdbMovie.instance data method ->
  dict_get data "Title" = VStr t ->
  dict_get data "Year" = VStr ys ->
  dict_get data "imdbID" = VStr i ->
  i <> EmptyString ->
  match Text.int_of_str ys with
  | None => save_item E client (VObj r) w = (Raise ValueError, w)
  | Some n =>
      exists w',
        save_item E client (VObj r) w = (Ok tt, w')
        /\ w_events w' = w_events w
        /\ w_movies w'
           = match movie_row (VStr i) w with
             | Some _ => w_movies w
             | None =>
                 (w_movies w
                  ++ [Movie (VStr i) (VStr t) (VInt n) VNone VNone false])%list
             end
  end.
Proof.
  intros HO Ht Hy Hi Hine.
  assert (Htitle : _callable_attr (e_objects E) (VObj r) "title" = Ok (VStr t)).
  { apply (omdb_movie_attr _ r data method); [done| |reflexivity].
    cbn. unfold OmdbMovie.title, OmdbMovie.item.
    by rewrite (dict_get_has _ _ _ Ht), Ht. }
  unfold save_item, _normalize_search_item. cbv zeta.
  unfold bindM at 1, lift at 1. rewrite Htitle. cbn [rbind].
  destruct (Text.int_of_str ys) as [n|] eqn:Hint.
  - rewrite (omdb_movie_attr _ r data method "year" (VInt n) HO).
    2:{ cbn. unfold OmdbMovie.year, OmdbMovie.item.
        rewrite (dict_get_has _ _ _ Hy), Hy. cbn [rbind py_int].
        unfold py_int_of_str. by rewrite Hint. }
    2:{ reflexivity. }
    rewrite (ror_ok _ _ _ (VStr i) VNone).
    2:{ apply (omdb_movie_attr _ r data method); [done| |reflexivity].
        cbn. unfold OmdbMovie.imdb_id, OmdbMovie.item.
        by rewrite (dict_get_has _ _ _ Hi), Hi. }
    2:{ by apply (omdb_movie_no_attr _ r data method). }
    rewrite (omdb_movie_no_attr _ r data method "type" HO); [|reflexivity].
    assert (Hid : py_or (e_objects E) (VStr i) VNone = VStr i).
    { unfold py_or. cbn [truthy]. destruct i; [done|reflexivity]. }
    rewrite Hid.
    assert (Htruthy : truthy (e_objects E) (VStr i) = true).
    { cbn [truthy]. destruct i; [done|reflexivity]. }
    cbn [rbind truthy negb andb dict_get String.eqb Ascii.eqb Bool.eqb].
    unfold resolve_missing_id. cbv zeta. rewrite Htruthy. cbn [negb andb].
    unfold bindM at 1, pure at 1. rewrite Htruthy. cbn [negb].
    unfold bindM, log, movie_get_or_create, movie_row, pure.
    cbn [w_movies add_log].
    destruct (List.find _ (w_movies w)) as [m|]; eexists; by repeat split.
  - unfold _callable_attr at 1, getattr_default, py_getattr. rewrite HO.
    cbn. unfold OmdbMovie.year, OmdbMovie.item.
    rewrite (dict_get_has _ _ _ Hy), Hy. cbn [rbind py_int].
    unfold py_int_of_str. by rewrite Hint.
Qed.

Lemma save_item_omdb_movie_witness :
  save_item (movie_env series_movie_objects) VNone (VObj 0%nat)
    heat_partial_world
  = (Raise ValueError, heat_partial_world)
  /\ exists w',
       save_item (movie_env heat_movie_objects) VNone (VObj 0%nat)
         (empty_world 0)
       = (Ok tt, w')
       /\ w_events w' = []
       /\ w_movies w'
          = [Movie (VStr "tt0113277") (VStr "Heat") (VInt 1995) VNone VNone false].
Proof.
  split.
  - exact (save_item_omdb_movie (movie_env series_movie_objects) VNone
             0%nat 1%nat series_hit
             "The Matrix Files" "1999-2003" "tt0000001" heat_partial_world
             eq_refl eq_refl eq_refl eq_refl ltac:(discriminate)).
  - exact (save_item_omdb_movie (movie_env heat_movie_objects) VNone
             0%nat 1%nat heat_detail
             "Heat" "1995" "tt0113277" (empty_world 0)
             eq_refl eq_refl eq_refl eq_refl ltac:(discriminate)).
Defined.

(** A mapping of the result list without an identifier but with a
    title is looked up through the client's [get], by keyword, with the
    year when the item has one.  When the answer is normalized to a
    detail with an identifier, the Movie table has a record of that
    identifier afterwards: the one it had, or a new partial record whose
    title and year are those of the detail where they are truthy and
    those of the item otherwise.  When the call or the normalizer
    raises, the item counts as without an identifier: nothing is saved
    and the round of the loop ends normally. *)
Theorem save_item_resolved_by_title (E : env) (client : pyval) (d : pydict)
    (w : world) (resolver : pyval) :
  let O := e_objects E in
  let title := dict_get d "Title" in
  let year := dict_get d "Year" in
  let imdb_id := py_or O (dict_get d "imdbID")
                   (py_or O (dict_get d "imdb_id") (dict_get d "imdbId")) in
  let asked :=
    if truthy O year then Call [] [("title", title); ("year", year)]
    else Call [] [("title", title)] in
  truthy O imdb_id = false ->
  truthy O (dict_get d "Type") = false
  \/ eq_str (dict_get d "Type") "movie" = true ->
  truthy O title = true ->
  getattr_default O client "get" VNone = Ok resolver ->
  callable O resolver = true ->
  (forall resolved details,
     py_call O resolver asked = Ok resolved ->
     _normalize_detail_obj O resolved = Ok details ->
     truthy O (dict_get details "imdbID") = true ->
     exists w',
       save_item E client (VDict d) w = (Ok tt, w')
       /\ w_events w' = (w_events w ++ [ClientCall "get" asked])%list
       /\ w_movies w'
          = match movie_row (dict_get details "imdbID") w with
            | Some _ => w_movies w
            | None =>
                (w_movies w
                 ++ [Movie (dict_get details "imdbID")
                       (py_or O (dict_get details "Title") title)
                       (search_year_val O (py_or O (dict_get details "Year") year))
                       VNone VNone false])%list
            end)
  /\ ((exists e, py_call O resolver asked = Raise e)
      \/ (exists resolved e, py_call O resolver asked = Ok resolved
                             /\ _normalize_detail_obj O resolved = Raise e) ->
      exists w',
        save_item E client (VDict d) w = (Ok tt, w')
        /\ w_events w' = (w_events w ++ [ClientCall "get" asked])%list
        /\ w_movies w' = w_movies w).
Proof.
  cbv zeta. intros Hid Hty Htitle Hget Hcallable.
  set (asked := if truthy (e_objects E) (dict_get d "Year")
                then Call [] [("title", dict_get d "Title");
                              ("year", dict_get d "Year")]
                else Call [] [("title", dict_get d "Title")]).
  assert (Hskip : truthy (e_objects E) (dict_get d "Type")
                  && negb (eq_str (dict_get d "Type") "movie") = false).
  { destruct Hty as [->| ->]; [done|]. by rewrite andb_false_r. }
  assert (Hstart :
            save_item E client (VDict d) w
            = match py_call (e_objects E) resolver asked with
              | Ok resolved =>
                  match _normalize_detail_obj (e_objects E) resolved with
                  | Ok details =>
                      let imdb_id' :=
                        py_or (e_objects E) (dict_get details "imdbID")
                          (py_or (e_objects E) (dict_get d "imdbID")
                             (py_or (e_objects E) (dict_get d "imdb_id")
                                (dict_get d "imdbId"))) in
                      let title' := py_or (e_objects E) (dict_get details "Title")
                                      (dict_get d "Title") in
                      let year' := py_or (e_objects E) (dict_get details "Year")
                                     (dict_get d "Year") in
                      let w1 := add_event (ClientCall "get" asked) w in
                      if negb (truthy (e_objects E) imdb_id')
                      then (Ok tt,
                            add_log (Log WARNING "Skipping item without imdbID: %r"
                                       [VDict [("Title", dict_get d "Title");
                                               ("Year", dict_get d "Year");
                                               ("imdbID",
                                                py_or (e_objects E) (dict_get d "imdbID")
                                                  (py_or (e_objects E)
                                                     (dict_get d "imdb_id")
                                                     (dict_get d "imdbId")));
                                               ("Type", dict_get d "Type")]]) w1)
                      else
                        (log INFO "Saving movie: '%s' / '%s'" [title'; imdb_id'] ;;
                         let* '(movie, created) :=
                           movie_get_or_create imdb_id' title'
                             (search_year_val (e_objects E) year') in
                         if created : bool
                         then log INFO "Movie created: '%s'" [m_title movie]
                         else pure tt) w1
                  | Raise e =>
                      (Ok tt,
                       add_log (Log WARNING "Skipping item without imdbID: %r"
                                  [VDict [("Title", dict_get d "Title");
                                          ("Year", dict_get d "Year");
                                          ("imdbID",
                                           py_or (e_objects E) (dict_get d "imdbID")
                                             (py_or (e_objects E)
                                                (dict_get d "imdb_id")
                                                (dict_get d "imdbId")));
                                          ("Type", dict_get d "Type")]])
                         (add_log (Log WARNING "Failed to resolve imdbID for '%s': %s"
                                     [dict_get d "Title"])
                            (add_event (ClientCall "get" asked) w)))
                  end
              | Raise e =>
                  (Ok tt,
                   add_log (Log WARNING "Skipping item without imdbID: %r"
                              [VDict [("Title", dict_get d "Title");
                                      ("Year", dict_get d "Year");
                                      ("imdbID",
                                       py_or (e_objects E) (dict_get d "imdbID")
                                         (py_or (e_objects E)
                                            (dict_get d "imdb_id")
                                            (dict_get d "imdbId")));
                                      ("Type", dict_get d "Type")]])
                     (add_log (Log WARNING "Failed to resolve imdbID for '%s': %s"
                                 [dict_get d "Title"])
                        (add_event (ClientCall "get" asked) w)))
              end).
  { unfold save_item, _normalize_search_item. cbv zeta.
    unfold bindM at 1, pure at 1.
    cbn [truthy negb dict_get String.eqb Ascii.eqb Bool.eqb].
    rewrite Hskip. unfold resolve_missing_id. cbv zeta.
    rewrite Hid, Htitle. cbn [negb andb].
    unfold bindM at 1. unfold bindM at 1, lift at 1. rewrite Hget.
    rewrite Hcallable. unfold bindM at 1, attempt.
    unfold bindM at 1, client_call. rewrite Hcallable. fold asked.
    destruct (py_call (e_objects E) resolver asked) as [resolved|e].
    - unfold bindM at 1, lift at 1.
      destruct (_normalize_detail_obj (e_objects E) resolved) as [details|e].
      + unfold pure at 1 2. cbv zeta.
        destruct (negb (truthy _ _)); reflexivity.
      + unfold bindM at 1, log at 1, pure at 1. rewrite Hid. reflexivity.
    - unfold bindM at 1, log at 1, pure at 1. rewrite Hid. reflexivity. }
  split.
  - intros resolved details Hcall Hnorm Hfound.
    rewrite Hstart, Hcall, Hnorm. cbv zeta.
    assert (Hor : forall x, py_or (e_objects E) (dict_get details "imdbID") x
                            = dict_get details "imdbID").
    { intros x. unfold py_or. by rewrite Hfound. }
    rewrite Hor, Hfound. cbn [negb].
    unfold bindM, log, movie_get_or_create, movie_row, pure.
    cbn [w_movies add_log add_event].
    destruct (List.find _ (w_movies w)) as [m|]; eexists; by repeat split.
  - intros [[e Hcall]|(resolved & e & Hcall & Hnorm)]; rewrite Hstart, Hcall.
    + eexists. by repeat split.
    + rewrite Hnorm. eexists. by repeat split.
Qed.

Lemma save_item_resolved_by_title_witness :
  exists w',
    save_item list_search_env (VObj 0%nat)
      (VDict [("Title", VStr "The Matrix")]) heat_partial_world
    = (Ok tt, w')
    /\ w_events w'
       = [ClientCall "get" (Call [] [("title", VStr "The Matrix")])]
    /\ w_movies w'
       = [heat_partial;
          Movie (VStr "tt0133093") (VStr "The Matrix") (VInt 1999)
            VNone VNone false].
Proof.
  exact (proj1 (save_item_resolved_by_title list_search_env (VObj 0%nat)
                  [("Title", VStr "The Matrix")] heat_partial_world
                  (VObj 1%nat) eq_refl (or_introl eq_refl) eq_refl eq_refl
                  eq_refl)
           (VDict matrix_hit)
           [("Title", VStr "The Matrix"); ("Year", VInt 1999);
            ("imdbID", VStr "tt0133093"); ("Plot", VNone);
            ("RuntimeMinutes", VNone); ("Genres", VList [])]
           eq_refl eq_refl eq_refl).
Defined.

